(** * Dorothy: option store, HTTP helpers and paginated harvests

    A shallow embedding of [dorothy/core.py] and of the modules
    [defense_evasion/modify_zone.py], [discovery/get_user.py] and
    [discovery/get_apps.py].

    Python values are kept as a small universe [pyval]; dictionaries are
    association lists in insertion order, because the order in which
    [dict.items()] yields its entries is observable in the code.  Effects
    (console, log file, Elasticsearch sink, HTTP transport, prompts, sleeps)
    go through one monad over a [World]. *)

From Stdlib Require Import List String Ascii Bool Arith ZArith Lia DecimalString.
Import ListNotations.
Open Scope string_scope.
Set Warnings "-register-all".

(** ** Python values *)

(** The values the code handles: what [json()] parses, option values and
    keyword arguments.  Numbers are integers; a dict keeps insertion order
    and has each key once. *)
Inductive pyval : Type :=
| PNone
| PBool (b : bool)
| PInt (z : Z)
| PStr (s : string)
| PList (l : list pyval)
| PDict (d : list (string * pyval)).

(** Python's truth value of an object. *)
Definition truthy (v : pyval) : bool :=
  match v with
  | PNone => false
  | PBool b => b
  | PInt z => negb (Z.eqb z 0)
  | PStr s => negb (String.eqb s "")
  | PList l => match l with [] => false | _ => true end
  | PDict d => match d with [] => false | _ => true end
  end.

(** Exceptions the modelled code can meet. *)
Inductive exn : Type :=
| AttributeError
| KeyError
| TypeError
| JSONDecodeError
| TransportError      (* requests: timeout, connection refused, ... *)
| SinkError.          (* raised by the Elasticsearch client *)

(** ** Strings *)

(** A Python [str] is taken as a sequence of code points below 256, one
    [ascii] each. *)

(** [str.isspace] on one character, for code points below 256. *)
Definition is_space (c : ascii) : bool :=
  let n := nat_of_ascii c in
  (((9 <=? n) && (n <=? 13)) || ((28 <=? n) && (n <=? 32))
   || (n =? 133) || (n =? 160))%nat.

Fixpoint lstrip (s : string) : string :=
  match s with
  | EmptyString => EmptyString
  | String c r => if is_space c then lstrip r else s
  end.

(** Drops trailing whitespace: the suffix is kept only when something
    other than whitespace follows. *)
Fixpoint rstrip (s : string) : string :=
  match s with
  | EmptyString => EmptyString
  | String c r =>
      match rstrip r with
      | EmptyString => if is_space c then EmptyString else String c EmptyString
      | r' => String c r'
      end
  end.

(** [str.strip()] *)
Definition strip (s : string) : string := rstrip (lstrip s).

(** [s.split(",")]: one more field than there are commas. *)
Fixpoint split_comma (s : string) : list string :=
  match s with
  | EmptyString => [EmptyString]
  | String c r =>
      if Ascii.eqb c "," then EmptyString :: split_comma r
      else match split_comma r with
           | [] => [String c EmptyString]
           | f :: fs => String c f :: fs
           end
  end.

(** [k.replace("_", "-")] *)
Fixpoint replace_underscore (s : string) : string :=
  match s with
  | EmptyString => EmptyString
  | String c r =>
      String (if Ascii.eqb c "_" then "-"%char else c) (replace_underscore r)
  end.

(** ** [str()] and [repr()] *)

Definition quote1 : ascii := ascii_of_nat 39.
Definition quote2 : ascii := ascii_of_nat 34.
Definition backslash : ascii := ascii_of_nat 92.

Definition char (c : ascii) : string := String c EmptyString.

Definition contains (c : ascii) (s : string) : bool :=
  existsb (Ascii.eqb c) (list_ascii_of_string s).

(** [str.isprintable] on one character, for code points below 256. *)
Definition printable (c : ascii) : bool :=
  let n := nat_of_ascii c in
  (((32 <=? n) && (n <=? 126)) || ((161 <=? n) && negb (n =? 173)))%nat.

Definition hex_digit (n : nat) : ascii :=
  nth n (list_ascii_of_string "0123456789abcdef") "0"%char.

(** One character inside the quotes of [repr] of a string. *)
Definition escape (quote c : ascii) : string :=
  if Ascii.eqb c quote || Ascii.eqb c backslash then String backslash (char c)
  else if (nat_of_ascii c =? 9)%nat then String backslash "t"
  else if (nat_of_ascii c =? 10)%nat then String backslash "n"
  else if (nat_of_ascii c =? 13)%nat then String backslash "r"
  else if printable c then char c
  else String backslash
         (String "x"
            (String (hex_digit (nat_of_ascii c / 16))
               (char (hex_digit (nat_of_ascii c mod 16))))).

(** [repr(s)] of a string: single quotes, unless the string has one and has
    no double quote. *)
Definition repr_str (s : string) : string :=
  let quote := if contains quote1 s && negb (contains quote2 s)
               then quote2 else quote1 in
  char quote
  ++ String.concat "" (map (escape quote) (list_ascii_of_string s))
  ++ char quote.

Definition str_int (z : Z) : string := NilZero.string_of_int (Z.to_int z).

Fixpoint py_repr (v : pyval) : string :=
  match v with
  | PNone => "None"
  | PBool true => "True"
  | PBool false => "False"
  | PInt z => str_int z
  | PStr s => repr_str s
  | PList l => "[" ++ String.concat ", " (map py_repr l) ++ "]"
  | PDict d =>
      "{" ++ String.concat ", "
               (map (fun kv => repr_str (fst kv) ++ ": " ++ py_repr (snd kv)) d)
      ++ "}"
  end.

(** [str(v)], which is what an f-string puts in place of [{v}]. *)
Definition py_str (v : pyval) : string :=
  match v with
  | PStr s => s
  | _ => py_repr v
  end.

(** ** Dictionaries in insertion order *)

Section Dict.
Context {V : Type}.

Fixpoint dict_get (d : list (string * V)) (k : string) : option V :=
  match d with
  | [] => None
  | (k', v) :: r => if String.eqb k' k then Some v else dict_get r k
  end.

(** [d[k] = f(d[k])] on an existing key; the position is kept. *)
Fixpoint dict_update (d : list (string * V)) (k : string) (f : V -> V)
  : list (string * V) :=
  match d with
  | [] => []
  | (k', v) :: r =>
      if String.eqb k' k then (k', f v) :: r
      else (k', v) :: dict_update r k f
  end.

Definition dict_keys (d : list (string * V)) : list string := map fst d.

Definition dict_has (d : list (string * V)) (k : string) : bool :=
  match dict_get d k with Some _ => true | None => false end.
End Dict.

(** ** Option Store *)

(** One entry of a module's [MODULE_OPTIONS]: {"value", "required", "help"}. *)
Record module_option : Type := mkOption {
  value : pyval;
  required : bool;
  help : string;
}.

Definition options := list (string * module_option).

Definition with_value (v : pyval) (o : module_option) : module_option :=
  mkOption v (required o) (help o).

(** Truth value of a keyword argument: click hands over a string or [None]. *)
Definition given (v : option string) : bool :=
  match v with
  | Some s => negb (String.eqb s "")
  | None => false
  end.

Definition the_string (v : option string) : string :=
  match v with Some s => s | None => "" end.

(** [module_options[k]["value"] = v]; KeyError when [k] is not a key. *)
Definition assign_value (module_options : options) (k : string) (v : pyval)
  : options * option exn :=
  if dict_has module_options k
  then (dict_update module_options k (with_value v), None)
  else (module_options, Some KeyError).

(** The body of the loop of [set_module_options] for one item of
    [new_options]: the store after the item, and the exception the item
    raised, if any. *)
Definition set_one (module_options : options) (k : string) (v : option string)
  : options * option exn :=
  if String.eqb k "group_ids" && given v then
    assign_value module_options k
      (PList (map PStr (split_comma (strip (the_string v)))))
  else if given v then
    assign_value module_options k (PStr (strip (the_string v)))
  else (module_options, None).

(** [set_module_options(module_options, new_options)]: the dictionary is
    changed in place, so what was stored before an exception stays stored. *)
Fixpoint set_module_options (module_options : options)
  (new_options : list (string * option string)) : options * option exn :=
  match new_options with
  | [] => (module_options, None)
  | (k, v) :: rest =>
      match set_one module_options k v with
      | (m, None) => set_module_options m rest
      | (m, Some e) => (m, Some e)
      end
  end.

(** [reset_module_options(module_options)] *)
Definition reset_module_options (module_options : options) : options :=
  map (fun kv => (fst kv, with_value PNone (snd kv))) module_options.

(** The line [check_module_options] prints for a missing option. *)
Definition missing_message (k : string) : string :=
  "[!] Unable to execute module. Required value not set: "
  ++ replace_underscore k ++ ". Set required value and try again".

(** [check_module_options(module_options)]: the printed lines and the value
    returned.  Both branches of the loop body return, so only the first item
    of the dictionary is looked at; on an empty dictionary the function falls
    off its end and returns [None]. *)
Definition check_module_options (module_options : options)
  : list string * option bool :=
  match module_options with
  | [] => ([], None)
  | (k, v) :: _ =>
      if required v && negb (truthy (value v))
      then ([missing_message k], Some true)
      else ([], Some false)
  end.

(** [if error:] on what [check_module_options] returned. *)
Definition is_error (r : option bool) : bool :=
  match r with Some true => true | _ => false end.

(** ** Text, requests and responses *)

(** An f-string that is printed, logged or sent as a URL: its literal
    pieces, and the values and exceptions Python formats through [str()],
    kept as they are. *)
Inductive fpart : Type :=
| Lit (s : string)
| Fmt (v : pyval)
| FmtExn (e : exn).

Definition text := list fpart.

Definition nl : string := String (ascii_of_nat 10) EmptyString.

Inductive http_method : Type := GET | PUT.

(** One call of [ctx.obj.session.get] or [.put]: the URL, the
    [Authorization] header and the [json=] payload ([PNone] when the call
    has none). *)
Record request : Type := mkRequest {
  meth : http_method;
  url : text;
  authorization : string;
  payload : pyval;
}.

(** A [requests.Response] as far as the code reads it.  [ok] is the
    attribute as requests derives it from the status code; [body] is what
    [json()] parses, [None] when [json()] raises; [links] maps a relation
    to the URL of its link. *)
Record response : Type := mkResponse {
  ok : bool;
  status_code : Z;
  reason : string;
  body : option pyval;
  links : list (string * string);
}.

(** What the transport does with one request. *)
Inductive transport_result : Type :=
| Reply (r : response)
| Broken.                     (* the call raises *)

(** ** The world *)

Record datetime : Type := mkDatetime {
  year : Z; month : Z; day : Z; hour : Z; minute : Z;
}.

(** The body handed to [es.index], with the document id's preimage. *)
Record event_record : Type := mkEvent {
  id_preimage : datetime * text;
  timestamp : datetime;
  module : string;
  event_type : string;
  event : text;
}.

Inductive log_level : Type := INFO | ERROR.

Inductive effect : Type :=
| Echo (t : text)                       (* click.echo, click.secho *)
| Logged (l : log_level) (t : text)     (* LOGGER.info, LOGGER.error *)
| Indexed (r : event_record)            (* es.index went through *)
| IndexFailed (r : event_record)        (* es.index raised *)
| Sent (r : request)                    (* a request left the session *)
| Slept (seconds : nat)                 (* time.sleep *)
| Asked (prompt : string) (answer : bool)   (* click.confirm *)
| Wrote (path : text) (results : list pyval).  (* json.dump to a file *)

(** The Elasticsearch client: the exception [index] raises on a record, if
    any. *)
Definition es_client := event_record -> option exn.

(** [ctx.obj] *)
Record context : Type := mkContext {
  base_url : string;
  api_token : string;
  es : option es_client;
  data_dir : string;
  profile_id : string;
}.

(** The surroundings of a run: what the transport will do with the requests
    to come, in order; the user's answers to the prompts to come; the clock;
    and the effects so far, newest first. *)
Record World : Type := mkWorld {
  tenant : list transport_result;
  answers : list bool;
  now : datetime;
  trace : list effect;
}.

Definition emit (e : effect) (w : World) : World :=
  mkWorld (tenant w) (answers w) (now w) (e :: trace w).

(** ** The monad *)

(** A call returns, raises, or is left waiting because the tenant's script
    ran dry before the code stopped asking. *)
Inductive outcome (A : Type) : Type :=
| Ret (a : A)
| Raise (e : exn)
| Starved.
Arguments Ret {A} a.
Arguments Raise {A} e.
Arguments Starved {A}.

Definition M (A : Type) : Type := World -> outcome A * World.

Definition ret {A} (a : A) : M A := fun w => (Ret a, w).

Definition raise {A} (e : exn) : M A := fun w => (Raise e, w).

Definition bind {A B} (m : M A) (k : A -> M B) : M B :=
  fun w =>
    match m w with
    | (Ret a, w') => k a w'
    | (Raise e, w') => (Raise e, w')
    | (Starved, w') => (Starved, w')
    end.

(** [try: m except Exception as e: h(e)] *)
Definition try_except {A} (m : M A) (h : exn -> M A) : M A :=
  fun w =>
    match m w with
    | (Raise e, w') => h e w'
    | r => r
    end.

Declare Scope py_scope.
Delimit Scope py_scope with py.
Notation "x <- m ;; k" := (bind m (fun x => k))
  (at level 61, m at next level, right associativity) : py_scope.
Notation "m ;; k" := (bind m (fun _ => k))
  (at level 61, right associativity) : py_scope.
Open Scope py_scope.

(** An effect that cannot fail. *)
Definition tell (e : effect) : M unit := fun w => (Ret tt, emit e w).

Definition echo (t : text) : M unit := tell (Echo t).
Definition logger_info (t : text) : M unit := tell (Logged INFO t).
Definition logger_error (t : text) : M unit := tell (Logged ERROR t).
Definition sleep (n : nat) : M unit := tell (Slept n).

(** [datetime.utcnow()] and [datetime.now()]: one reading stands for both,
    and it is the same throughout a run. *)
Definition clock : M datetime := fun w => (Ret (now w), w).

(** [click.confirm(prompt, default=True)]: the next answer; Enter, which
    takes the default, once the user has no more to say. *)
Definition confirm (prompt : string) : M bool :=
  fun w =>
    match answers w with
    | [] => (Ret true, emit (Asked prompt true) w)
    | a :: rest =>
        (Ret a, mkWorld (tenant w) rest (now w) (Asked prompt a :: trace w))
    end.

(** One call on [ctx.obj.session]: the next entry of the tenant's script. *)
Definition send (r : request) : M response :=
  fun w =>
    match tenant w with
    | [] => (Starved, w)
    | Reply resp :: rest =>
        (Ret resp, mkWorld rest (answers w) (now w) (Sent r :: trace w))
    | Broken :: rest =>
        (Raise TransportError,
         mkWorld rest (answers w) (now w) (Sent r :: trace w))
    end.

Definition authorization_header (ctx : context) : string :=
  "SSWS " ++ api_token ctx.

Definition session_get (ctx : context) (u : text) : M response :=
  send (mkRequest GET u (authorization_header ctx) PNone).

Definition session_put (ctx : context) (u : text) (json : pyval) : M response :=
  send (mkRequest PUT u (authorization_header ctx) json).

(** ** Python operations that can raise *)

(** [v.get(k, default)] *)
Definition py_get_default (v : pyval) (k : string) (default : pyval) : M pyval :=
  match v with
  | PDict d => ret (match dict_get d k with Some x => x | None => default end)
  | _ => raise AttributeError
  end.

(** [v.get(k)] *)
Definition py_get (v : pyval) (k : string) : M pyval := py_get_default v k PNone.

(** [v[k]] with a string key *)
Definition py_item (v : pyval) (k : string) : M pyval :=
  match v with
  | PDict d => match dict_get d k with Some x => ret x | None => raise KeyError end
  | _ => raise TypeError
  end.

(** [len(v)] *)
Definition py_len (v : pyval) : M Z :=
  match v with
  | PStr s => ret (Z.of_nat (String.length s))
  | PList l => ret (Z.of_nat (List.length l))
  | PDict d => ret (Z.of_nat (List.length d))
  | _ => raise TypeError
  end.

(** What iterating over a string yields. *)
Fixpoint characters (s : string) : list pyval :=
  match s with
  | EmptyString => []
  | String c r => PStr (String c EmptyString) :: characters r
  end.

(** What [list.extend(v)] appends: the items [v] iterates over. *)
Definition py_iter (v : pyval) : M (list pyval) :=
  match v with
  | PList l => ret l
  | PDict d => ret (map PStr (dict_keys d))
  | PStr s => ret (characters s)
  | _ => raise TypeError
  end.

(** [response.json()] *)
Definition json (r : response) : M pyval :=
  match body r with
  | Some v => ret v
  | None => raise JSONDecodeError
  end.

(** Reading an attribute of [response], which is [None] after a transport
    failure. *)
Definition deref (r : option response) : M response :=
  match r with
  | Some x => ret x
  | None => raise AttributeError
  end.

(** [for x in xs: f(x)] *)
Fixpoint for_each {A} (xs : list A) (f : A -> M unit) : M unit :=
  match xs with
  | [] => ret tt
  | x :: r => f x ;; for_each r f
  end.

(** ** dorothy/core.py *)

Definition URL_OR_API_TOKEN_ERROR : string :=
  "ERROR. Verify that the Okta URL and API token in your configuration profile are correct".

(** [__name__] inside core.py *)
Definition core_name : string := "dorothy.core".

(** [es.index(index="dorothy", id=..., body=...)] *)
Definition es_index (client : es_client) (r : event_record) : M unit :=
  fun w =>
    match client r with
    | None => (Ret tt, emit (Indexed r) w)
    | Some e => (Raise e, emit (IndexFailed r) w)
    end.

(** [index_event(es, module, event_type, event)] *)
Definition index_event (es : option es_client) (module event_type : string)
  (event : text) : M unit :=
  timestamp <- clock ;;
  match es with
  | Some client =>
      try_except
        (es_index client
           (mkEvent (timestamp, event) timestamp module event_type event))
        (fun e =>
           logger_error [FmtExn e] ;;
           echo [Lit "[!] Error indexing event in Elasticsearch. Review dorothy.log for further information"])
  | None => ret tt
  end.

(** The [except Exception as e:] block after a call on the session;
    [indexed] is the event the block sends to the sink. *)
Definition transport_failed (ctx : context) (module : string) (e : exn)
  (indexed : text) : M (option response) :=
  logger_error [FmtExn e] ;;
  index_event (es ctx) module "ERROR" indexed ;;
  echo [Lit ("[!] " ++ URL_OR_API_TOKEN_ERROR)] ;;
  ret None.

(** The message of an error branch: [what], then the status line and the
    fields of the error envelope. *)
Definition error_report (what : text) (r : response) : M text :=
  j <- json r ;;
  code <- py_get j "errorCode" ;;
  j' <- json r ;;
  summary <- py_get j' "errorSummary" ;;
  ret (what ++
       [Lit (nl ++ "    Response Code: "); Fmt (PInt (status_code r));
        Lit " | Response Reason: "; Lit (reason r);
        Lit (nl ++ "    Error Code: "); Fmt code;
        Lit " | Error Summary: "; Fmt summary])%list.

(** [LOGGER.info(msg); index_event(...); click.echo(f"[*] {msg}")] *)
Definition report_info (ctx : context) (module : string) (msg : text) : M unit :=
  logger_info msg ;;
  index_event (es ctx) module "INFO" msg ;;
  echo (Lit "[*] " :: msg).

(** [LOGGER.error(msg); index_event(...); click.secho(f"[!] {msg}")] *)
Definition report_error (ctx : context) (module : string) (msg : text) : M unit :=
  logger_error msg ;;
  index_event (es ctx) module "ERROR" msg ;;
  echo (Lit "[!] " :: msg).

(** [print_user_info(user)] *)
Definition print_user_info (user : pyval) : M unit :=
  id <- py_get user "id" ;;
  profile <- py_item user "profile" ;;
  login <- py_get profile "login" ;;
  echo [Lit "[*] User information for ID "; Fmt id; Lit ", login "; Fmt login;
        Lit ":"] ;;
  id' <- py_get_default user "id" (PStr "unknown") ;;
  status <- py_get_default user "status" (PStr "unknown") ;;
  profile' <- py_item user "profile" ;;
  login' <- py_get_default profile' "login" (PStr "unknown") ;;
  last_login <- py_get_default user "lastLogin" (PStr "unknown") ;;
  changed <- py_get_default user "passwordChanged" (PStr "unknown") ;;
  echo [Lit "    ID: "; Fmt id'; Lit (nl ++ "    Status: "); Fmt status;
        Lit (nl ++ "    Login: "); Fmt login';
        Lit (nl ++ "    Last login: "); Fmt last_login;
        Lit (nl ++ "    Last password change: "); Fmt changed].

(** [get_current_user(ctx)] *)
Definition get_current_user (ctx : context) : M pyval :=
  let u := [Lit (base_url ctx ++ "/users/me")] in
  response <- try_except
                (r <- session_get ctx u ;; ret (Some r))
                (fun e => transport_failed ctx core_name e [FmtExn e]) ;;
  r <- deref response ;;
  if negb (ok r) then
    msg <- error_report [Lit "Error retrieving user information"] r ;;
    report_error ctx core_name msg ;;
    ret PNone
  else
    user <- json r ;;
    print_user_info user ;;
    ret user.

(** [get_user_object(ctx, user_id)]: returns the [error] flag. *)
Definition get_user_object (ctx : context) (user_id : pyval) : M bool :=
  let u := [Lit (base_url ctx ++ "/users/"); Fmt user_id] in
  response <- try_except
                (r <- session_get ctx u ;; ret (Some r))
                (fun e => transport_failed ctx core_name e [FmtExn e]) ;;
  r <- deref response ;;
  if negb (ok r) then
    msg <- error_report [Lit "Error retrieving user information"] r ;;
    report_error ctx core_name msg ;;
    echo [Lit "[*] This error is expected if the user object was deleted"] ;;
    ret true
  else
    user <- json r ;;
    print_user_info user ;;
    ret false.

(** One pass of the loop of [print_group_information] *)
Definition print_group (group : pyval) : M unit :=
  id <- py_get_default group "id" (PStr "unknown") ;;
  type <- py_get_default group "type" (PStr "unknown") ;;
  profile <- py_item group "profile" ;;
  name <- py_get_default profile "name" (PStr "unknown") ;;
  profile' <- py_item group "profile" ;;
  description <- py_get_default profile' "description" (PStr "unknown") ;;
  echo [Lit "    Group ID: "; Fmt id; Lit (nl ++ "    Type: "); Fmt type;
        Lit (nl ++ "    Name: "); Fmt name;
        Lit (nl ++ "    Description: "); Fmt description].

(** [print_group_information(groups)] *)
Definition print_group_information (groups : list pyval) : M unit :=
  for_each groups print_group.

(** [get_user_groups(ctx, user_id)] *)
Definition get_user_groups (ctx : context) (user_id : pyval) : M unit :=
  let u := [Lit (base_url ctx ++ "/users/"); Fmt user_id; Lit "/groups"] in
  let msg := [Lit "Attempting to get group memberships for user ID "; Fmt user_id] in
  report_info ctx core_name msg ;;
  response <- try_except
                (r <- session_get ctx u ;; ret (Some r))
                (fun e => transport_failed ctx core_name e msg) ;;
  r <- deref response ;;
  if negb (ok r) then
    msg <- error_report [Lit "Error retrieving user's group memberships"] r ;;
    report_error ctx core_name msg ;;
    ret tt
  else
    groups <- json r ;;
    if truthy groups then
      echo [Lit "[*] Group memberships for user ID "; Fmt user_id; Lit ":"] ;;
      items <- py_iter groups ;;
      print_group_information items
    else ret tt.

(** [write_json_file(file_name, results)] *)
Definition write_json_file (file_name : string) (results : list pyval) : M text :=
  t <- clock ;;
  let file_path :=
    [Lit (file_name ++ "_"); Fmt (PInt (month t)); Lit "-"; Fmt (PInt (day t));
     Lit "-"; Fmt (PInt (year t)); Lit "_"; Fmt (PInt (hour t)); Lit "-";
     Fmt (PInt (minute t)); Lit ".json"] in
  echo (Lit "[*] Writing results to " :: file_path) ;;
  tell (Wrote file_path results) ;;
  ret file_path.

(** [print_app_object(app)] *)
Definition print_app_object (app : pyval) : M unit :=
  id <- py_get app "id" ;;
  name <- py_get app "name" ;;
  echo [Lit "[*] Information for application "; Fmt id; Lit " ("; Fmt name;
        Lit "):"] ;;
  status <- py_get_default app "status" (PStr "unknown") ;;
  label <- py_get_default app "label" (PStr "unknown") ;;
  created <- py_get_default app "created" (PStr "unknown") ;;
  updated <- py_get_default app "lastUpdated" (PStr "unknown") ;;
  echo [Lit "    Status: "; Fmt status; Lit (nl ++ "    Label: "); Fmt label;
        Lit (nl ++ "    Created: "); Fmt created;
        Lit (nl ++ "    Last Updated: "); Fmt updated].

(** [print_zone_object(zone)] *)
Definition print_zone_object (zone : pyval) : M unit :=
  id <- py_get zone "id" ;;
  name <- py_get zone "name" ;;
  echo [Lit "[*] Information for network zone ID "; Fmt id; Lit " ("; Fmt name;
        Lit "):"] ;;
  status <- py_get_default zone "status" (PStr "unknown") ;;
  created <- py_get_default zone "created" (PStr "unknown") ;;
  updated <- py_get_default zone "lastUpdated" (PStr "unknown") ;;
  echo [Lit "    Status: "; Fmt status; Lit (nl ++ "    Created: "); Fmt created;
        Lit (nl ++ "    Last Updated: "); Fmt updated].

(** [get_zone_object(ctx, zone_id)]: the zone, or [None]. *)
Definition get_zone_object (ctx : context) (zone_id : pyval) : M pyval :=
  report_info ctx core_name [Lit "Attempting to get network zone "; Fmt zone_id] ;;
  let u := [Lit (base_url ctx ++ "/zones/"); Fmt zone_id] in
  response <- try_except
                (r <- session_get ctx u ;; ret (Some r))
                (fun e => transport_failed ctx core_name e [FmtExn e]) ;;
  r <- deref response ;;
  if ok r then
    report_info ctx core_name [Lit "Retrieved zone "; Fmt zone_id] ;;
    zone <- json r ;;
    print_zone_object zone ;;
    ret zone
  else
    msg <- error_report [Lit "Error retrieving zone "; Fmt zone_id] r ;;
    report_error ctx core_name msg ;;
    ret PNone.

(** *** Paginated harvests *)

(** One pass of the [while next_page:] loop that [list_users],
    [list_groups], [list_zones] and [list_apps] share word for word up to
    the noun; [again] is the loop going round.  [None] is the bare [return]
    of the error branch, which leaves the function; [Some harvested] is the
    loop running to its end. *)
Definition harvest_pass (again : text -> list pyval -> M (option (list pyval)))
  (ctx : context) (noun : string) (u : text) (harvested : list pyval)
  : M (option (list pyval)) :=
  response <- try_except
                (r <- session_get ctx u ;; ret (Some r))
                (fun e => transport_failed ctx core_name e [FmtExn e]) ;;
  r <- deref response ;;
  if ok r then
    j <- json r ;;
    n <- py_len j ;;
    report_info ctx core_name
      [Lit "Retrieved information for "; Fmt (PInt n); Lit (" " ++ noun)] ;;
    page <- json r ;;
    items <- py_iter page ;;
    let harvested' := (harvested ++ items)%list in
    sleep 1 ;;
    match dict_get (links r) "next" with
    | Some next_page =>
        if truthy (PStr next_page)
        then again [Lit next_page] harvested'
        else ret (Some harvested')
    | None =>
        echo [Lit ("[*] No more " ++ noun ++ " found")] ;;
        ret (Some harvested')
    end
  else
    msg <- error_report [Lit ("Error retrieving " ++ noun)] r ;;
    report_error ctx core_name msg ;;
    ret None.

(** The loop.  Every pass sends one request, so [fuel] beyond the length of
    the tenant's script is never used up. *)
Fixpoint harvest_pages (fuel : nat) (ctx : context) (noun : string)
  (u : text) (harvested : list pyval) : M (option (list pyval)) :=
  match fuel with
  | O => fun w => (Starved, w)
  | S fuel' => harvest_pass (harvest_pages fuel' ctx noun) ctx noun u harvested
  end.

(** The loop, started on [path] with nothing harvested. *)
Definition harvest (ctx : context) (noun path : string)
  : M (option (list pyval)) :=
  fun w =>
    harvest_pages (S (List.length (tenant w))) ctx noun
      [Lit (base_url ctx ++ path)] [] w.

(** [msg = f"Total ... harvested: {len(...)}"] and its three reports. *)
Definition report_total (ctx : context) (noun : string) (harvested : list pyval)
  : M unit :=
  report_info ctx core_name
    [Lit ("Total " ++ noun ++ " harvested: ");
     Fmt (PInt (Z.of_nat (List.length harvested)))].

(** [list_users(ctx)]; the function reads none of its other arguments. *)
Definition list_users (ctx : context) : M (option (list pyval)) :=
  walked <- harvest ctx "users" "/users" ;;
  match walked with
  | None => ret None
  | Some harvested_users =>
      (if truthy (PList harvested_users) then
         report_total ctx "users" harvested_users ;;
         print <- confirm "[*] Do you want to print harvested user information?" ;;
         (if print then for_each harvested_users print_user_info else ret tt) ;;
         save <- confirm "[*] Do you want to save harvested user information to a file?" ;;
         (if save then
            write_json_file (data_dir ctx ++ "/" ++ profile_id ctx ++ "_harvested_users")
              harvested_users ;; ret tt
          else ret tt)
       else ret tt) ;;
      ret (Some harvested_users)
  end.

(** [list_groups(ctx)] *)
Definition list_groups (ctx : context) : M (option (list pyval)) :=
  walked <- harvest ctx "groups" "/groups" ;;
  match walked with
  | None => ret None
  | Some harvested_groups =>
      (if truthy (PList harvested_groups) then
         report_total ctx "groups" harvested_groups ;;
         print <- confirm "[*] Do you want to print harvested group information?" ;;
         (if print then print_group_information harvested_groups else ret tt) ;;
         save <- confirm "[*] Do you want to save harvested group information to a file?" ;;
         (if save then
            write_json_file (data_dir ctx ++ "/" ++ profile_id ctx ++ "_harvested_groups")
              harvested_groups ;; ret tt
          else ret tt)
       else ret tt) ;;
      ret (Some harvested_groups)
  end.

(** [list_zones(ctx)] *)
Definition list_zones (ctx : context) : M (option (list pyval)) :=
  walked <- harvest ctx "zones" "/zones" ;;
  match walked with
  | None => ret None
  | Some harvested_zones =>
      (if truthy (PList harvested_zones) then
         report_total ctx "zones" harvested_zones ;;
         let file_path := data_dir ctx ++ "/" ++ profile_id ctx ++ "_harvested_zones" in
         print <- confirm "[*] Do you want to print harvested network zone information?" ;;
         (if print then for_each harvested_zones print_zone_object else ret tt) ;;
         save <- confirm "[*] Do you want to save harvested network zone information to a file?" ;;
         (if save then write_json_file file_path harvested_zones ;; ret tt
          else ret tt)
       else ret tt) ;;
      ret (Some harvested_zones)
  end.

(** [list_apps(ctx)] *)
Definition list_apps (ctx : context) : M (option (list pyval)) :=
  walked <- harvest ctx "applications" "/apps" ;;
  match walked with
  | None => ret None
  | Some harvested_apps =>
      (if truthy (PList harvested_apps) then
         report_total ctx "applications" harvested_apps ;;
         print <- confirm "[*] Do you want to print harvested application info?" ;;
         (if print then for_each harvested_apps print_app_object else ret tt) ;;
         save <- confirm "[*] Do you want to save harvested applications information to a file?" ;;
         (if save then
            write_json_file (data_dir ctx ++ "/" ++ profile_id ctx ++ "_harvested_apps")
              harvested_apps ;; ret tt
          else ret tt)
       else ret tt) ;;
      ret (Some harvested_apps)
  end.

(** *** Other helpers of core.py that read from the tenant *)

(** One pass of the loop of [print_role_info] *)
Definition print_role (role : pyval) : M unit :=
  id <- py_get_default role "id" (PStr "unknown") ;;
  label <- py_get_default role "label" (PStr "unknown") ;;
  type <- py_get_default role "type" (PStr "unknown") ;;
  status <- py_get_default role "status" (PStr "unknown") ;;
  assignment <- py_get_default role "assignmentType" (PStr "unknown") ;;
  echo [Lit "    ID: "; Fmt id; Lit (nl ++ "    Label: "); Fmt label;
        Lit (nl ++ "    Type: "); Fmt type; Lit (nl ++ "    Status: "); Fmt status;
        Lit (nl ++ "    Assignment type: "); Fmt assignment].

(** [print_role_info(unique_id, roles, object_type)] *)
Definition print_role_info (unique_id roles : pyval) (object_type : string)
  : M unit :=
  echo [Lit ("[*] Roles assigned to " ++ object_type ++ " ID "); Fmt unique_id;
        Lit ":"] ;;
  items <- py_iter roles ;;
  for_each items print_role.

(** What [list_assigned_roles] does once it has its URL. *)
Definition fetch_roles (ctx : context) (u : text) (unique_id : pyval)
  (object_type : string) (mute : bool) : M (option (pyval * bool)) :=
  (if negb mute then
     report_info ctx core_name
       [Lit ("Attempting to get roles for " ++ object_type ++ " ID ");
        Fmt unique_id]
   else ret tt) ;;
  response <- try_except
                (r <- session_get ctx u ;; ret (Some r))
                (fun e => transport_failed ctx core_name e [FmtExn e]) ;;
  r <- deref response ;;
  if negb (ok r) then
    msg <- error_report
             [Lit ("Error retrieving " ++ object_type ++ "'s assigned roles")] r ;;
    report_error ctx core_name msg ;;
    echo [Lit "[!] Only the SUPER_ADMIN role can view, assign, or remove admin roles. The user linked to the current API token might not have the SUPER_ADMIN role assigned"] ;;
    ret (Some (PList [], true))
  else
    roles <- json r ;;
    (if negb mute then print_role_info unique_id roles object_type else ret tt) ;;
    ret (Some (roles, false)).

(** [list_assigned_roles(ctx, unique_id, object_type, mute)]: the pair
    [(roles, error)], or [None] from the bare [return] on a type that is
    neither "user" nor "group". *)
Definition list_assigned_roles (ctx : context) (unique_id : pyval)
  (object_type : string) (mute : bool) : M (option (pyval * bool)) :=
  if String.eqb object_type "user" then
    fetch_roles ctx [Lit (base_url ctx ++ "/users/"); Fmt unique_id; Lit "/roles"]
      unique_id object_type mute
  else if String.eqb object_type "group" then
    fetch_roles ctx [Lit (base_url ctx ++ "/groups/"); Fmt unique_id; Lit "/roles"]
      unique_id object_type mute
  else
    report_error ctx core_name
      [Lit "Unexpected type. Type must be 'user' or 'group'"] ;;
    ret None.

(** [whoami(ctx)] *)
Definition whoami (ctx : context) : M unit :=
  report_info ctx core_name
    [Lit "Attempting to get user information associated with current API token"] ;;
  user <- get_current_user ctx ;;
  (if truthy user then
     id <- py_get user "id" ;;
     list_assigned_roles ctx id "user" false ;;
     ret tt
   else
     report_error ctx core_name
       [Lit "Unable to list current user's assigned roles. No user object found"]) ;;
  (if truthy user then
     id <- py_get user "id" ;;
     get_user_groups ctx id
   else
     report_error ctx core_name
       [Lit "Unable to list current user's group memberships. No user object found"]).

(** [get_app_object(ctx, app_id)]: the application, or [None]. *)
Definition get_app_object (ctx : context) (app_id : pyval) : M pyval :=
  report_info ctx core_name [Lit "Attempting to get application "; Fmt app_id] ;;
  let u := [Lit (base_url ctx ++ "/apps/"); Fmt app_id] in
  response <- try_except
                (r <- session_get ctx u ;; ret (Some r))
                (fun e => transport_failed ctx core_name e [FmtExn e]) ;;
  r <- deref response ;;
  if ok r then
    report_info ctx core_name [Lit "Retrieved application "; Fmt app_id] ;;
    app <- json r ;;
    print_app_object app ;;
    ret app
  else
    msg <- error_report [Lit "Error retrieving app "; Fmt app_id] r ;;
    report_error ctx core_name msg ;;
    ret PNone.

(** [print_policy_rule(rule)]; its first line is a plain string, not an
    f-string, so the braces are printed as they stand. *)
Definition print_policy_rule (rule : pyval) : M unit :=
  echo [Lit ("[*] Information for policy rule {rule.get(" ++ char quote2 ++ "id"
             ++ char quote2 ++ ")} ({rule.get(" ++ char quote2 ++ "name"
             ++ char quote2 ++ ")}):")] ;;
  status <- py_get_default rule "status" (PStr "unknown") ;;
  created <- py_get_default rule "created" (PStr "unknown") ;;
  updated <- py_get_default rule "lastUpdated" (PStr "unknown") ;;
  echo [Lit "    Status: "; Fmt status; Lit (nl ++ "    Created: "); Fmt created;
        Lit (nl ++ "    Last Updated: "); Fmt updated].

(** [get_policy_rule(ctx, policy_id, rule_id)]: the rule, or [None]. *)
Definition get_policy_rule (ctx : context) (policy_id rule_id : pyval) : M pyval :=
  report_info ctx core_name
    [Lit "Attempting to get policy rule "; Fmt rule_id; Lit " from policy ";
     Fmt policy_id] ;;
  let u := [Lit (base_url ctx ++ "/policies/"); Fmt policy_id; Lit "/rules/";
            Fmt rule_id] in
  response <- try_except
                (r <- session_get ctx u ;; ret (Some r))
                (fun e => transport_failed ctx core_name e [FmtExn e]) ;;
  r <- deref response ;;
  if ok r then
    report_info ctx core_name
      [Lit "Retrieved policy rule "; Fmt rule_id; Lit " from policy ";
       Fmt policy_id] ;;
    rule <- json r ;;
    print_policy_rule rule ;;
    ret rule
  else
    msg <- error_report [Lit "Error retrieving rule, "; Fmt policy_id] r ;;
    report_error ctx core_name msg ;;
    ret PNone.

(** [list_enrolled_factors(ctx, user_id, mute)]: the pair
    [(enrolled_factors, error)]. *)
Definition list_enrolled_factors (ctx : context) (user_id : pyval) (mute : bool)
  : M (pyval * bool) :=
  let u := [Lit (base_url ctx ++ "/users/"); Fmt user_id; Lit "/factors"] in
  let msg := [Lit "Attempting to get enrolled MFA factors for user "; Fmt user_id] in
  logger_info msg ;;
  index_event (es ctx) core_name "INFO" msg ;;
  (if negb mute then echo (Lit "[*] " :: msg) else ret tt) ;;
  response <- try_except
                (r <- session_get ctx u ;; ret (Some r))
                (fun e => transport_failed ctx core_name e [FmtExn e]) ;;
  r <- deref response ;;
  if negb (ok r) then
    msg <- error_report
             [Lit "Error retrieving enrolled MFA factors for user "; Fmt user_id] r ;;
    report_error ctx core_name msg ;;
    ret (PList [], true)
  else
    enrolled_factors <- json r ;;
    ret (enrolled_factors, false).

(** ** The modules *)

(** Set and reset as every module wires them: [set] shows the help and
    leaves the store alone when no option was given at all. *)
Definition module_set (module_options : options)
  (kwargs : list (string * option string)) : options * option exn :=
  if forallb (fun kv => match snd kv with None => true | Some _ => false end) kwargs
  then (module_options, None)
  else set_module_options module_options kwargs.

Definition module_reset (module_options : options) : options :=
  reset_module_options module_options.

(** [error = check_module_options(MODULE_OPTIONS)], with its printing. *)
Definition run_check (module_options : options) : M (option bool) :=
  let (lines, error) := check_module_options module_options in
  for_each lines (fun l => echo [Lit l]) ;;
  ret error.

(** [MODULE_OPTIONS["id"]["value"]] *)
Definition option_value (module_options : options) (k : string) : M pyval :=
  match dict_get module_options k with
  | Some o => ret (value o)
  | None => raise KeyError
  end.

Module ModifyZone.

Definition name : string := "dorothy.modules.defense_evasion.modify_zone".

Definition MODULE_OPTIONS : options :=
  [("id", mkOption PNone true "The unique ID for the network zone")].

(** [rename_zone(ctx, zone, original_name, new_name)] *)
Definition rename_zone (ctx : context) (zone original_name new_name : pyval)
  : M unit :=
  type <- py_item zone "type" ;;
  gateways <- py_get zone "gateways" ;;
  proxies <- py_get zone "proxies" ;;
  let payload := PDict [("type", type); ("name", new_name);
                        ("gateways", gateways); ("proxies", proxies)] in
  id <- py_item zone "id" ;;
  let u := [Lit (base_url ctx ++ "/zones/"); Fmt id] in
  response <- try_except
                (id' <- py_item zone "id" ;;
                 report_info ctx name
                   [Lit ("Attempting to rename network zone " ++ char quote2);
                    Fmt original_name; Lit (char quote2 ++ " ("); Fmt id';
                    Lit (") to " ++ char quote2); Fmt new_name;
                    Lit (char quote2)] ;;
                 r <- session_put ctx u payload ;;
                 ret (Some r))
                (fun e => transport_failed ctx name e [FmtExn e]) ;;
  r <- deref response ;;
  if ok r then
    id' <- py_item zone "id" ;;
    report_info ctx name
      [Lit ("Network zone " ++ char quote2); Fmt original_name;
       Lit (char quote2 ++ " ("); Fmt id'; Lit (") changed to " ++ char quote2);
       Fmt new_name; Lit (char quote2)] ;;
    id'' <- py_item zone "id" ;;
    get_zone_object ctx id'' ;;
    sleep 1
  else
    id' <- py_item zone "id" ;;
    msg <- error_report [Lit "Error modifying network zone "; Fmt id'] r ;;
    report_error ctx name msg.

(** [execute(ctx)], on the module's [MODULE_OPTIONS] *)
Definition execute (ctx : context) (module_options : options) : M unit :=
  error <- run_check module_options ;;
  if is_error error then ret tt
  else
    zone_id <- option_value module_options "id" ;;
    zone <- get_zone_object ctx zone_id ;;
    if truthy zone then
      original_name <- py_item zone "name" ;;
      name' <- py_item zone "name" ;;
      let new_name := PStr (py_str name' ++ " TEMP_STRING") in
      rename_zone ctx zone original_name new_name ;;
      rename_zone ctx zone new_name original_name
    else ret tt.

End ModifyZone.

Module GetUser.

Definition name : string := "dorothy.modules.discovery.get_user".

Definition MODULE_OPTIONS : options :=
  [("id", mkOption PNone true "The unique ID for the user")].

(** [execute(ctx)], on the module's [MODULE_OPTIONS] *)
Definition execute (ctx : context) (module_options : options) : M unit :=
  error <- run_check module_options ;;
  if is_error error then ret tt
  else
    id <- option_value module_options "id" ;;
    report_info ctx name
      [Lit "Attempting to get profile and group memberships for user ID ";
       Fmt id] ;;
    id' <- option_value module_options "id" ;;
    get_user_object ctx id' ;;
    id'' <- option_value module_options "id" ;;
    get_user_groups ctx id''.

End GetUser.

Module GetApps.

Definition name : string := "dorothy.modules.discovery.get_apps".

(** [execute(ctx)] *)
Definition execute (ctx : context) : M unit :=
  go <- confirm "[*] Do you want to attempt to harvest information on all applications?" ;;
  if go then
    report_info ctx name [Lit "Attempting to harvest all applications"] ;;
    list_apps ctx ;;
    ret tt
  else ret tt.

End GetApps.

(** * Vocabulary of the properties *)

(** ** Strings and the option store *)

(** The string is whitespace throughout. *)
Fixpoint all_space (s : string) : bool :=
  match s with
  | EmptyString => true
  | String c r => is_space c && all_space r
  end.

(** [fields] are [s] cut at its commas: at least one field, no comma inside
    a field, and the fields joined by commas are [s].  There is one more
    field than [s] has commas. *)
Definition cut_at_commas (s : string) (fields : list string) : Prop :=
  fields <> []
  /\ Forall (fun f => ~ In ","%char (list_ascii_of_string f)) fields
  /\ String.concat "," fields = s.

(** What one item [(k, v)] of [new_options] puts into the store. *)
Definition stored (k : string) (v : option string) : pyval :=
  if String.eqb k "group_ids"
  then PList (map PStr (split_comma (strip (the_string v))))
  else PStr (strip (the_string v)).

(** The entry for [k] after an item [(k0, v0)] went through the loop. *)
Definition after_item (k0 : string) (v0 : option string) (k : string)
  (o : module_option) : module_option :=
  if String.eqb k0 k && given v0 then with_value (stored k0 v0) o else o.

(** The entry for [k] once the whole of [new_options] went through. *)
Definition after_set (new_options : list (string * option string)) (k : string)
  (o : module_option) : module_option :=
  match dict_get new_options k with
  | Some v => if given v then with_value (stored k v) o else o
  | None => o
  end.

(** The stores the [set] and [reset] commands of a module make of its
    [MODULE_OPTIONS]; click hands [set] one keyword argument for each
    declared option, which is [--id] alone in both modules. *)
Inductive reachable (init : options) : options -> Prop :=
| reach_init : reachable init init
| reach_set (s : options) (v : option string) :
    reachable init s -> reachable init (fst (module_set s [("id", v)]))
| reach_reset (s : options) :
    reachable init s -> reachable init (module_reset s).

(** ** Runs *)

(** The requests sent so far, oldest first. *)
Fixpoint requests_of (t : list effect) : list request :=
  match t with
  | [] => []
  | Sent r :: t' => (requests_of t' ++ [r])%list
  | _ :: t' => requests_of t'
  end.

Definition sent (w : World) : list request := requests_of (trace w).

(** The PUTs among the requests. *)
Definition puts (rs : list request) : list request :=
  filter (fun r => match meth r with PUT => true | GET => false end) rs.

(** A computation is calm when it returns, whatever the world, without
    touching the session: nothing is sent and the tenant's script stays
    where it was. *)
Definition calm {A} (m : M A) : Prop :=
  forall w, exists a w',
    m w = (Ret a, w') /\ tenant w' = tenant w /\ sent w' = sent w.

(** A calm computation whose result is known. *)
Definition returns {A} (m : M A) (a : A) : Prop :=
  forall w, exists w',
    m w = (Ret a, w') /\ tenant w' = tenant w /\ sent w' = sent w.

(** Two worlds a caller cannot tell apart: same script, same answers, same
    clock, same requests sent.  The console and the sink may differ. *)
Definition same_session (w1 w2 : World) : Prop :=
  tenant w1 = tenant w2 /\ answers w1 = answers w2
  /\ now w1 = now w2 /\ sent w1 = sent w2.

(** Two computations that, from worlds a caller cannot tell apart, come to
    the same outcome in worlds a caller cannot tell apart. *)
Definition alike {A} (m1 m2 : M A) : Prop :=
  forall w1 w2, same_session w1 w2 ->
    fst (m1 w1) = fst (m2 w2) /\ same_session (snd (m1 w1)) (snd (m2 w2)).

(** A context that differs in its sink only. *)
Definition with_sink (ctx : context) (es' : option es_client) : context :=
  mkContext (base_url ctx) (api_token ctx) es' (data_dir ctx) (profile_id ctx).

(** ** JSON objects *)

(** A JSON object. *)
Definition is_object (v : pyval) : bool :=
  match v with PDict _ => true | _ => false end.

(** A JSON object with an object under "profile", as users and groups have. *)
Definition has_profile (v : pyval) : bool :=
  match v with
  | PDict d => match dict_get d "profile" with
               | Some (PDict _) => true
               | _ => false
               end
  | _ => false
  end.

(** [d.get(k)] as a value. *)
Definition field (d : list (string * pyval)) (k : string) : pyval :=
  match dict_get d k with
  | Some v => v
  | None => PNone
  end.

(** The transport answers, and what it answers is a JSON object. *)
Definition answers_object (t : transport_result) : bool :=
  match t with
  | Reply r => match body r with Some (PDict _) => true | _ => false end
  | Broken => false
  end.

(** An answer to a user lookup that the code can take in: a refusal with
    its envelope, or a user with a profile. *)
Definition answers_user (r : response) : bool :=
  if ok r
  then match body r with Some user => has_profile user | None => false end
  else match body r with Some (PDict _) => true | _ => false end.

(** An answer to a roles lookup that the code can take in: a refusal with
    its envelope, or an array of role objects. *)
Definition answers_roles (r : response) : bool :=
  if ok r
  then match body r with
       | Some (PList roles) => forallb is_object roles
       | _ => false
       end
  else match body r with Some (PDict _) => true | _ => false end.

(** An answer with a body the code can read: any JSON on success, an
    envelope on refusal. *)
Definition answers_json (r : response) : bool :=
  if ok r
  then match body r with Some _ => true | None => false end
  else match body r with Some (PDict _) => true | _ => false end.

(** What [response.json()] gives, [None] when it would raise. *)
Definition parsed (r : response) : pyval :=
  match body r with Some v => v | None => PNone end.

(** ** Pages *)

(** The GET the code sends to [u]. *)
Definition get_request (ctx : context) (u : text) : request :=
  mkRequest GET u (authorization_header ctx) PNone.

(** [response.links.get("next")], as the URL it holds. *)
Definition next_link (r : response) : option string := dict_get (links r) "next".

(** The items of a page whose body is a JSON array. *)
Definition page_items (r : response) : list pyval :=
  match body r with
  | Some (PList l) => l
  | _ => []
  end.

(** A fetch that succeeded: an [ok] response with a JSON array. *)
Definition is_page (r : response) : bool :=
  ok r && match body r with Some (PList _) => true | _ => false end.

(** The page carries a "next" link to somewhere. *)
Definition has_next (r : response) : bool :=
  match next_link r with
  | Some n => negb (String.eqb n "")
  | None => false
  end.

(** A fetch that failed: a response that is not [ok], with an error
    envelope (a JSON object). *)
Definition is_failure (r : response) : bool :=
  negb (ok r) && match body r with Some (PDict _) => true | _ => false end.

(** The pages a walk goes through and leaves by their "next" link. *)
Definition linked_pages (pages : list response) : Prop :=
  Forall (fun r => is_page r = true /\ has_next r = true) pages.

(** Where the walk stands after [pages], having started at [u]. *)
Fixpoint walk_url (u : text) (pages : list response) : text :=
  match pages with
  | [] => u
  | r :: ps =>
      match next_link r with
      | Some n => walk_url [Lit n] ps
      | None => u
      end
  end.

(** The requests of a walk over [pages]: the first to [u], each other to
    the "next" link of the page before. *)
Fixpoint walk_requests (ctx : context) (u : text) (pages : list response)
  : list request :=
  match pages with
  | [] => []
  | r :: ps =>
      get_request ctx u ::
      match next_link r with
      | Some n => walk_requests ctx [Lit n] ps
      | None => []
      end
  end.

(** ** The four harvests *)

Inductive harvest_kind : Type := Users | Groups | Zones | Apps.

Definition list_of (k : harvest_kind) : context -> M (option (list pyval)) :=
  match k with
  | Users => list_users
  | Groups => list_groups
  | Zones => list_zones
  | Apps => list_apps
  end.

Definition noun_of (k : harvest_kind) : string :=
  match k with
  | Users => "users"
  | Groups => "groups"
  | Zones => "zones"
  | Apps => "applications"
  end.

Definition endpoint_of (k : harvest_kind) : string :=
  match k with
  | Users => "/users"
  | Groups => "/groups"
  | Zones => "/zones"
  | Apps => "/apps"
  end.

(** What the presenter of a harvest needs of an item: users and groups are
    read through their "profile", zones and applications through [get]
    alone. *)
Definition presentable (k : harvest_kind) (item : pyval) : bool :=
  match k with
  | Users | Groups => has_profile item
  | Zones | Apps => is_object item
  end.

(** What stops a walk without an answer the code can use: a call that
    raises, or an answer whose body is not JSON.  The exception that comes
    out of the harvest. *)
Definition cut_short (x : transport_result) : option exn :=
  match x with
  | Broken => Some AttributeError
  | Reply r => match body r with
               | None => Some JSONDecodeError
               | Some _ => None
               end
  end.

(** ** Zones *)

(** The GET by which [get_zone_object] looks [zone_id] up. *)
Definition zone_request (ctx : context) (zone_id : pyval) : request :=
  get_request ctx [Lit (base_url ctx ++ "/zones/"); Fmt zone_id].

(** The PUT by which [rename_zone] gives the zone [d] the name [new_name]. *)
Definition rename_request (ctx : context) (d : list (string * pyval))
  (new_name : pyval) : request :=
  mkRequest PUT [Lit (base_url ctx ++ "/zones/"); Fmt (field d "id")]
    (authorization_header ctx)
    (PDict [("type", field d "type"); ("name", new_name);
            ("gateways", field d "gateways"); ("proxies", field d "proxies")]).

(** A zone object as [rename_zone] needs it: with a type and an id. *)
Definition is_zone (d : list (string * pyval)) : bool :=
  dict_has d "type" && dict_has d "id".

(** ** A tenant to run against *)

Definition ctx0 : context :=
  mkContext "https://dev-1.okta.com/api/v1" "00secret" None "/tmp/data" "dev".

Definition world0 (script : list transport_result) : World :=
  mkWorld script [] (mkDatetime 2026 11 4 10 30) [].

Definition app1 : pyval :=
  PDict [("id", PStr "0oa1"); ("name", PStr "bookmark"); ("status", PStr "ACTIVE")].

Definition app2 : pyval :=
  PDict [("id", PStr "0oa2"); ("name", PStr "saml_app"); ("status", PStr "INACTIVE")].

(** Two pages of applications, the first linked to the second. *)
Definition page1 : response :=
  mkResponse true 200 "OK" (Some (PList [app1]))
    [("next", "https://dev-1.okta.com/api/v1/apps?after=0oa1")].

Definition page2 : response :=
  mkResponse true 200 "OK" (Some (PList [app2])) [].

Definition not_found : response :=
  mkResponse false 404 "Not Found"
    (Some (PDict [("errorCode", PStr "E0000007");
                  ("errorSummary", PStr "Not found: Resource not found")]))
    [].

(** The zone of the rename-and-revert scenario. *)
Definition zone_a : list (string * pyval) :=
  [("id", PStr "z1"); ("name", PStr "Zone A"); ("type", PStr "IP");
   ("gateways", PList [PDict [("type", PStr "CIDR"); ("value", PStr "10.0.0.0/8")]])].

Definition zone_found : response :=
  mkResponse true 200 "OK" (Some (PDict zone_a)) [].

(** [modify_zone]'s options after [set --id z1]. *)
Definition zone_options : options :=
  [("id", mkOption (PStr "z1") true "The unique ID for the network zone")].

(** ** What a run leaves alone *)

(** The computation leaves [proj] of the world as it found it, however it
    ends. *)
Definition keeps {X A} (proj : World -> X) (m : M A) : Prop :=
  forall w, proj (snd (m w)) = proj w.

(** The effects that go to the console, the log file, the sink or the
    clock. *)
Definition is_report (e : effect) : bool :=
  match e with
  | Echo _ | Logged _ _ | Indexed _ | IndexFailed _ | Slept _ => true
  | Sent _ | Asked _ _ | Wrote _ _ => false
  end.

(** A view of the world that no report changes. *)
Definition blind {X} (proj : World -> X) : Prop :=
  forall e w, is_report e = true -> proj (emit e w) = proj w.

(** A view of the world that no prompt changes. *)
Definition deaf {X} (proj : World -> X) : Prop :=
  forall w prompt a rest,
    proj (mkWorld (tenant w) rest (now w) (Asked prompt a :: trace w)) = proj w.

(** A view of the world that no call on the session changes. *)
Definition offline {X} (proj : World -> X) : Prop :=
  forall w r rest,
    proj (mkWorld rest (answers w) (now w) (Sent r :: trace w)) = proj w.

(** From [w], the run sent the requests [rs], in that order and no other,
    and left the tenant's script at [tl]. *)
Definition sends_only {A} (run : outcome A * World) (w : World)
  (rs : list request) (tl : list transport_result) : Prop :=
  sent (snd run) = (sent w ++ rs)%list /\ tenant (snd run) = tl.

(** The files written so far, oldest first. *)
Fixpoint files_of (t : list effect) : list (text * list pyval) :=
  match t with
  | [] => []
  | Wrote path results :: t' => (files_of t' ++ [(path, results)])%list
  | _ :: t' => files_of t'
  end.

Definition written (w : World) : list (text * list pyval) := files_of (trace w).

(** The lines put on the console so far, oldest first. *)
Fixpoint lines_of (t : list effect) : list text :=
  match t with
  | [] => []
  | Echo line :: t' => (lines_of t' ++ [line])%list
  | _ :: t' => lines_of t'
  end.

Definition console (w : World) : list text := lines_of (trace w).

(** The user's side of the world: the answers still to come, the files
    written, the clock. *)
Definition desk (w : World) : list bool * list (text * list pyval) * datetime :=
  (answers w, written w, now w).

(** The path [write_json_file] makes of [file_name] at time [t]. *)
Definition stamped (file_name : string) (t : datetime) : text :=
  [Lit (file_name ++ "_"); Fmt (PInt (month t)); Lit "-"; Fmt (PInt (day t));
   Lit "-"; Fmt (PInt (year t)); Lit "_"; Fmt (PInt (hour t)); Lit "-";
   Fmt (PInt (minute t)); Lit ".json"].

(** The file a harvest is saved to. *)
Definition harvest_file (k : harvest_kind) (ctx : context) : string :=
  data_dir ctx ++ "/" ++ profile_id ctx ++
  match k with
  | Users => "_harvested_users"
  | Groups => "_harvested_groups"
  | Zones => "_harvested_zones"
  | Apps => "_harvested_apps"
  end.

(** ** Reports *)

(** What [index_event] leaves in the trace for the record [r]: nothing
    without a sink; the record when the client takes it; and when the
    client raises [e], the failed attempt, [e] in the log and a warning on
    the console.  Newest first. *)
Definition sink_trace (es : option es_client) (r : event_record) : list effect :=
  match es with
  | None => []
  | Some client =>
      match client r with
      | None => [Indexed r]
      | Some e =>
          [Echo [Lit "[!] Error indexing event in Elasticsearch. Review dorothy.log for further information"];
           Logged ERROR [FmtExn e];
           IndexFailed r]
      end
  end.

(** The trace once the error [msg] was reported by [module] at time [t],
    after [before]: [msg] in the log at level ERROR, then the event at the
    sink, then "[!] " and [msg] on the console.  Newest first. *)
Definition reported (ctx : context) (module : string) (msg : text)
  (t : datetime) (before : list effect) : list effect :=
  Echo (Lit "[!] " :: msg)
  :: (sink_trace (es ctx) (mkEvent (t, msg) t module "ERROR" msg)
      ++ Logged ERROR msg :: before)%list.

(** * Properties *)

(** ** Strings *)

Lemma lstrip_decompose (s : string) :
  exists a, s = a ++ lstrip s /\ all_space a = true.
Proof.
  induction s as [|c r [a [Hr Ha]]]; simpl.
  - exists ""; auto.
  - destruct (is_space c) eqn:Hc.
    + exists (String c a); simpl. rewrite Hc, Ha. split; [f_equal; exact Hr | reflexivity].
    + exists ""; auto.
Qed.

Lemma rstrip_decompose (s : string) :
  exists b, s = rstrip s ++ b /\ all_space b = true.
Proof.
  induction s as [|c r [b [Hr Hb]]]; simpl.
  - exists ""; auto.
  - destruct (rstrip r) as [|c' r'] eqn:E.
    + simpl in Hr; subst r. destruct (is_space c) eqn:Hc.
      * exists (String c b); simpl. rewrite Hc, Hb. auto.
      * exists b; simpl. auto.
    + exists b. simpl. split; [f_equal; exact Hr | exact Hb].
Qed.

(** [strip] takes away whitespace only, from both ends. *)
Lemma strip_decompose (s : string) :
  exists a b, s = a ++ strip s ++ b /\ all_space a = true /\ all_space b = true.
Proof.
  destruct (lstrip_decompose s) as [a [Hs Ha]].
  destruct (rstrip_decompose (lstrip s)) as [b [Hl Hb]].
  exists a, b. unfold strip. rewrite <- Hl. auto.
Qed.

Lemma lstrip_head (s : string) :
  match lstrip s with
  | EmptyString => True
  | String c _ => is_space c = false
  end.
Proof.
  induction s as [|c r IH]; simpl; [exact I|].
  destruct (is_space c) eqn:Hc; [exact IH | exact Hc].
Qed.

Lemma rstrip_idempotent (s : string) : rstrip (rstrip s) = rstrip s.
Proof.
  induction s as [|c r IH]; simpl; [reflexivity|].
  destruct (rstrip r) as [|c' r'] eqn:E.
  - destruct (is_space c) eqn:Hc; simpl; [reflexivity | now rewrite Hc].
  - change (rstrip (String c (String c' r'))) with
      (match rstrip (String c' r') with
       | EmptyString => if is_space c then EmptyString else String c EmptyString
       | r0 => String c r0
       end).
    rewrite IH. reflexivity.
Qed.

Lemma rstrip_keeps_head (c : ascii) (r : string) :
  is_space c = false -> exists r', rstrip (String c r) = String c r'.
Proof.
  intros Hc. simpl. destruct (rstrip r); [rewrite Hc|]; eauto.
Qed.

(** What [strip] returns neither starts nor ends with whitespace: stripping
    it again, on either side, changes nothing. *)
Lemma strip_stripped (s : string) :
  lstrip (strip s) = strip s /\ rstrip (strip s) = strip s.
Proof.
  unfold strip. split; [|apply rstrip_idempotent].
  pose proof (lstrip_head s) as H.
  destruct (lstrip s) as [|c r]; [reflexivity|].
  destruct (rstrip_keeps_head c r H) as [r' E]. rewrite E. simpl. now rewrite H.
Qed.

(** [split_comma] undoes [",".join]. *)
Lemma join_split_comma (s : string) : String.concat "," (split_comma s) = s.
Proof.
  induction s as [|c r IH]; simpl; [reflexivity|].
  destruct (Ascii.eqb_spec c ","%char) as [->|Hc].
  - destruct (split_comma r) as [|f fs] eqn:E; simpl in *.
    + now subst r.
    + now rewrite IH.
  - destruct (split_comma r) as [|f fs] eqn:E; simpl in *.
    + now subst r.
    + destruct fs; simpl in *; now rewrite <- IH.
Qed.

Lemma contains_cons (c x : ascii) (s : string) :
  contains c (String x s) = Ascii.eqb c x || contains c s.
Proof. reflexivity. Qed.

Lemma split_comma_fields (s : string) :
  Forall (fun f => contains ","%char f = false) (split_comma s).
Proof.
  induction s as [|c r IH]; simpl.
  - constructor; [reflexivity | constructor].
  - destruct (Ascii.eqb_spec c ","%char) as [->|Hc].
    + constructor; [reflexivity | exact IH].
    + assert (Hn : Ascii.eqb ","%char c = false)
        by (apply Ascii.eqb_neq; congruence).
      destruct (split_comma r) as [|f fs].
      * constructor; [|constructor]. rewrite contains_cons, Hn. reflexivity.
      * inversion IH; subst. constructor; [|assumption].
        rewrite contains_cons, Hn. assumption.
Qed.

Lemma split_comma_nonempty (s : string) :
  exists f fs, split_comma s = f :: fs.
Proof.
  induction s as [|c r [f [fs E]]]; simpl; [eauto|].
  destruct (Ascii.eqb c ","); [eauto|]. rewrite E. eauto.
Qed.

Lemma contains_In (c : ascii) (s : string) :
  contains c s = false -> ~ In c (list_ascii_of_string s).
Proof.
  unfold contains. intros H Hin.
  assert (E : existsb (Ascii.eqb c) (list_ascii_of_string s) = true).
  { apply existsb_exists. exists c. split; [exact Hin | apply Ascii.eqb_refl]. }
  congruence.
Qed.

(** [split_comma] cuts at every comma and nowhere else: there is always a
    field, no field has a comma, and the fields joined by commas are the
    string. *)
Lemma split_comma_cuts (s : string) :
  split_comma s <> []
  /\ Forall (fun f => ~ In ","%char (list_ascii_of_string f)) (split_comma s)
  /\ String.concat "," (split_comma s) = s.
Proof.
  split; [|split].
  - destruct (split_comma_nonempty s) as (f & fs & E). rewrite E. discriminate.
  - eapply Forall_impl; [|apply split_comma_fields].
    intros f. apply contains_In.
  - apply join_split_comma.
Qed.

Lemma strip_head (s : string) (c : ascii) (rest : string) :
  strip s = String c rest -> is_space c = false.
Proof.
  unfold strip. pose proof (lstrip_head s) as H.
  destruct (lstrip s) as [|x r]; [discriminate|].
  destruct (rstrip_keeps_head x r H) as [r' E]. rewrite E.
  intros E'. injection E' as <- _. exact H.
Qed.

Lemma rstrip_last (s : string) :
  forall (init : string) (c : ascii),
    rstrip s = init ++ String c "" -> is_space c = false.
Proof.
  induction s as [|x r IH]; intros init c; simpl.
  - destruct init; discriminate.
  - destruct (rstrip r) as [|y r'] eqn:E.
    + destruct (is_space x) eqn:Hx.
      * destruct init; discriminate.
      * destruct init as [|z init]; simpl; intros H.
        -- injection H as <-. exact Hx.
        -- injection H as _ H. destruct init; discriminate.
    + destruct init as [|z init]; simpl; intros H.
      * discriminate.
      * injection H as _ H. exact (IH init c H).
Qed.

Lemma strip_last (s : string) (init : string) (c : ascii) :
  strip s = init ++ String c "" -> is_space c = false.
Proof. unfold strip. apply rstrip_last. Qed.

Lemma split_comma_cut_at_commas (s : string) : cut_at_commas s (split_comma s).
Proof. apply split_comma_cuts. Qed.

(** ** Option Store *)

Lemma dict_get_update {V} (d : list (string * V)) (k k' : string) (f : V -> V) :
  dict_get (dict_update d k f) k' =
  if String.eqb k k' then option_map f (dict_get d k) else dict_get d k'.
Proof.
  induction d as [|[k0 v0] r IH]; simpl.
  - now destruct (String.eqb k k').
  - destruct (String.eqb_spec k0 k) as [->|Hk0]; simpl.
    + destruct (String.eqb_spec k k'); [reflexivity|].
      destruct (String.eqb_spec k k'); [contradiction | reflexivity].
    + rewrite IH. destruct (String.eqb_spec k k') as [<-|Hkk'].
      * destruct (String.eqb_spec k0 k); [contradiction | reflexivity].
      * reflexivity.
Qed.

Lemma dict_keys_update {V} (d : list (string * V)) (k : string) (f : V -> V) :
  dict_keys (dict_update d k f) = dict_keys d.
Proof.
  unfold dict_keys. induction d as [|[k0 v0] r IH]; simpl; [reflexivity|].
  destruct (String.eqb k0 k); simpl; [reflexivity | now rewrite IH].
Qed.

Lemma dict_get_None {V} (d : list (string * V)) (k : string) :
  ~ In k (dict_keys d) -> dict_get d k = None.
Proof.
  unfold dict_keys. induction d as [|[k0 v0] r IH]; simpl; [reflexivity|].
  intros H. destruct (String.eqb_spec k0 k); [tauto | apply IH; tauto].
Qed.

Lemma set_one_present (m : options) (k : string) (v : option string) :
  dict_has m k = true ->
  exists m', set_one m k v = (m', None)
             /\ dict_keys m' = dict_keys m
             /\ forall k', dict_get m' k' = option_map (after_item k v k') (dict_get m k').
Proof.
  intros Hk. unfold set_one, assign_value, after_item, stored. rewrite Hk.
  destruct (given v) eqn:Hv; rewrite ?andb_true_r, ?andb_false_r.
  - destruct (String.eqb k "group_ids") eqn:Hg;
      (eexists; split; [reflexivity|]; split; [apply dict_keys_update|]);
      intros k'; rewrite dict_get_update;
      destruct (String.eqb_spec k k') as [<-|]; simpl;
      match goal with |- context [dict_get m ?x] => destruct (dict_get m x) end;
      reflexivity.
  - exists m. repeat split. intros k'.
    destruct (dict_get m k'); simpl; [|reflexivity].
    now rewrite andb_false_r.
Qed.

Lemma dict_has_keys {V} (d d' : list (string * V)) (k : string) :
  dict_keys d' = dict_keys d -> dict_has d k = true -> dict_has d' k = true.
Proof.
  unfold dict_has, dict_keys. revert d'.
  induction d as [|[k0 v0] r IH]; intros [|[k1 v1] r'] E; simpl in *;
    try discriminate; auto.
  injection E as -> E. destruct (String.eqb k0 k); auto.
Qed.

Lemma set_module_options_present (new_options : list (string * option string)) :
  forall m : options,
    NoDup (dict_keys new_options) ->
    (forall k, In k (dict_keys new_options) -> dict_has m k = true) ->
    exists m', set_module_options m new_options = (m', None)
               /\ dict_keys m' = dict_keys m
               /\ forall k, dict_get m' k = option_map (after_set new_options k) (dict_get m k).
Proof.
  induction new_options as [|[k0 v0] rest IH]; intros m Hnd Hin.
  - exists m. repeat split. intros k. unfold after_set. simpl.
    now destruct (dict_get m k).
  - simpl in Hnd. inversion Hnd as [|? ? Hnotin Hnd']; subst.
    destruct (set_one_present m k0 v0) as [m1 [E1 [K1 G1]]];
      [apply Hin; now left|].
    destruct (IH m1 Hnd') as [m' [E' [K' G']]].
    { intros k Hk. apply dict_has_keys with (d := m); [exact K1|].
      apply Hin. now right. }
    exists m'. simpl. rewrite E1. split; [exact E'|].
    split; [congruence|].
    intros k. rewrite G', G1. unfold after_set, after_item. simpl.
    destruct (String.eqb_spec k0 k) as [<-|Hk].
    + rewrite (dict_get_None rest k0 Hnotin). simpl.
      now destruct (dict_get m k0).
    + simpl. destruct (dict_get m k); [|reflexivity]. simpl.
      reflexivity.
Qed.

(** [check_module_options] never looks past the first option. *)
Lemma check_module_options_head (k : string) (o : module_option) (rest : options) :
  check_module_options ((k, o) :: rest) = check_module_options [(k, o)].
Proof. reflexivity. Qed.

(** When the first option is required and unset, the Fault names it. *)
Lemma check_module_options_first_missing (k : string) (o : module_option)
  (rest : options) :
  required o = true -> truthy (value o) = false ->
  check_module_options ((k, o) :: rest) = ([missing_message k], Some true).
Proof. intros Hr Hv. simpl. now rewrite Hr, Hv. Qed.

(** C2, on the code: a store whose second option is required and unset, but
    whose first option is in order, passes [check_module_options] without a
    word, before and after [reset_module_options]: the loop returns from its
    first pass whatever the option it looks at. *)
Theorem check_module_options_misses_later_option :
  let store :=
    [("id", mkOption (PStr "00u1") true "The unique ID for the user");
     ("group_ids", mkOption PNone true "The groups to add the user to")] in
  let store' :=
    [("verbose", mkOption (PStr "yes") false "Print more");
     ("id", mkOption (PStr "00u1") true "The unique ID for the user")] in
  (exists o, dict_get store "group_ids" = Some o
             /\ required o = true /\ truthy (value o) = false)
  /\ check_module_options store = ([], Some false)
  /\ (exists o, dict_get (reset_module_options store') "id" = Some o
                /\ required o = true /\ truthy (value o) = false)
  /\ check_module_options (reset_module_options store') = ([], Some false).
Proof.
  cbv zeta. split; [eexists; repeat split|].
  split; [reflexivity|]. split; [eexists; repeat split | reflexivity].
Qed.

(** C6: [set_module_options], called with keyword arguments for options the
    store has, returns the store with the same keys in the same order and
    the same [required] and [help]; an option given a non-empty input has
    its value overwritten, by a list of the comma-separated fields for
    [group_ids] and by a string otherwise; an option whose input is empty,
    [None] or absent keeps the value it had. *)
Theorem set_module_options_overwrites_given_only
  (m : options) (new_options : list (string * option string))
  (Hdict : NoDup (dict_keys new_options))
  (Hdeclared : forall k, In k (dict_keys new_options) -> dict_has m k = true) :
  exists m',
    set_module_options m new_options = (m', None)
    /\ dict_keys m' = dict_keys m
    /\ forall k o, dict_get m k = Some o ->
         exists o',
           dict_get m' k = Some o'
           /\ required o' = required o /\ help o' = help o
           /\ match dict_get new_options k with
              | Some (Some v) =>
                  if String.eqb v "" then value o' = value o
                  else if String.eqb k "group_ids"
                       then exists fields,
                           value o' = PList (map PStr fields)
                           /\ fields = split_comma (strip v)
                           /\ cut_at_commas (strip v) fields
                       else value o' = PStr (strip v)
              | Some None => value o' = value o
              | None => value o' = value o
              end.
Proof.
  destruct (set_module_options_present new_options m Hdict Hdeclared)
    as [m' [E [K G]]].
  exists m'. split; [exact E|]. split; [exact K|].
  intros k o Ho. rewrite G, Ho. simpl. eexists. split; [reflexivity|].
  unfold after_set, stored.
  destruct (dict_get new_options k) as [[v|]|]; simpl; auto.
  destruct (String.eqb v ""); simpl; auto.
  destruct (String.eqb k "group_ids"); simpl; auto.
  split; [reflexivity|]. split; [reflexivity|].
  eexists. split; [reflexivity|]. split; [reflexivity|].
  apply split_comma_cut_at_commas.
Qed.

(** C10: what [set_module_options] stores for a non-empty input [v] is made
    from [v.strip()], which is [v] without the whitespace at its two ends:
    whitespace only is taken away, and what is left neither starts nor
    ends with whitespace.  An ordinary option gets that string; [group_ids]
    gets that string cut at its commas, and the fields joined by commas
    give it back whole: no field is stripped on its own. *)
Theorem set_module_options_strips_input
  (m : options) (new_options : list (string * option string))
  (k v : string) (o : module_option)
  (Hdict : NoDup (dict_keys new_options))
  (Hdeclared : forall k, In k (dict_keys new_options) -> dict_has m k = true)
  (Hgiven : dict_get new_options k = Some (Some v))
  (Hv : v <> "")
  (Ho : dict_get m k = Some o) :
  exists m' a b,
    set_module_options m new_options = (m', None)
    /\ v = a ++ strip v ++ b /\ all_space a = true /\ all_space b = true
    /\ (forall c rest, strip v = String c rest -> is_space c = false)
    /\ (forall init c, strip v = init ++ String c "" -> is_space c = false)
    /\ lstrip (strip v) = strip v /\ rstrip (strip v) = strip v
    /\ if String.eqb k "group_ids"
       then exists fields,
           option_map value (dict_get m' k) = Some (PList (map PStr fields))
           /\ fields = split_comma (strip v)
           /\ fields <> []
           /\ Forall (fun f => ~ In ","%char (list_ascii_of_string f)) fields
           /\ String.concat "," fields = strip v
       else option_map value (dict_get m' k) = Some (PStr (strip v)).
Proof.
  destruct (set_module_options_present new_options m Hdict Hdeclared)
    as [m' [E [K G]]].
  destruct (strip_decompose v) as [a [b [Hab [Ha Hb]]]].
  destruct (strip_stripped v) as [Hl Hr].
  exists m', a, b. repeat (split; [assumption|]).
  split; [intros c rest; apply strip_head|].
  split; [intros init c; apply strip_last|].
  repeat (split; [assumption|]).
  rewrite G, Ho. unfold after_set, stored. rewrite Hgiven. simpl.
  destruct (String.eqb_spec v ""); [contradiction|]. simpl.
  destruct (String.eqb k "group_ids"); simpl; [|reflexivity].
  eexists. split; [reflexivity|]. split; [reflexivity|].
  apply split_comma_cuts.
Qed.

(** The fields of [group_ids] keep the blanks around their commas. *)
Example set_group_ids_keeps_inner_blanks :
  set_module_options
    [("group_ids", mkOption PNone true "The groups")]
    [("group_ids", Some "  00g1 , 00g2  ")]
  = ([("group_ids", mkOption (PList [PStr "00g1 "; PStr " 00g2"]) true "The groups")],
     None).
Proof. reflexivity. Qed.

(** C8: on a store whose only option is the required [id], whatever it
    holds, [set] with [id = "u123"] stores the value, and [reset] then
    [check] reports the Fault that names [id]. *)
Theorem set_reset_check_names_id (v : pyval) (h : string) :
  let store := [("id", mkOption v true h)] in
  exists configured,
    set_module_options store [("id", Some "u123")] = (configured, None)
    /\ option_map value (dict_get configured "id") = Some (PStr "u123")
    /\ check_module_options configured = ([], Some false)
    /\ check_module_options (reset_module_options configured)
       = ([missing_message "id"], Some true)
    /\ missing_message "id"
       = "[!] Unable to execute module. Required value not set: id. Set required value and try again".
Proof.
  cbv zeta. eexists. split; [reflexivity|]. repeat split.
Qed.

(** ** Runs *)

Lemma bind_ret_eq {A B} (m : M A) (k : A -> M B) (w w' : World) (a : A) :
  m w = (Ret a, w') -> bind m k w = k a w'.
Proof. intros E. unfold bind. now rewrite E. Qed.

Lemma bind_raise_eq {A B} (m : M A) (k : A -> M B) (w w' : World) (e : exn) :
  m w = (Raise e, w') -> bind m k w = (Raise e, w').
Proof. intros E. unfold bind. now rewrite E. Qed.

Lemma calm_ret {A} (a : A) : calm (ret a).
Proof. intros w. exists a, w. auto. Qed.

Lemma calm_bind {A B} (m : M A) (k : A -> M B) :
  calm m -> (forall a, calm (k a)) -> calm (bind m k).
Proof.
  intros Hm Hk w. destruct (Hm w) as (a & w1 & E & T1 & S1).
  destruct (Hk a w1) as (b & w2 & E2 & T2 & S2).
  exists b, w2. rewrite (bind_ret_eq _ _ _ _ _ E). split; [exact E2|].
  split; congruence.
Qed.

Lemma calm_tell (e : effect) :
  match e with Sent _ => False | _ => True end -> calm (tell e).
Proof.
  intros He w. exists tt, (emit e w). split; [reflexivity|]. split; [reflexivity|].
  unfold sent. simpl. destruct e; try reflexivity. contradiction.
Qed.

Lemma calm_echo (t : text) : calm (echo t).
Proof. now apply calm_tell. Qed.

Lemma calm_logger_info (t : text) : calm (logger_info t).
Proof. now apply calm_tell. Qed.

Lemma calm_logger_error (t : text) : calm (logger_error t).
Proof. now apply calm_tell. Qed.

Lemma calm_sleep (n : nat) : calm (sleep n).
Proof. now apply calm_tell. Qed.

Lemma calm_clock : calm clock.
Proof. intros w. exists (now w), w. auto. Qed.

Lemma calm_confirm (prompt : string) : calm (confirm prompt).
Proof.
  intros w. unfold confirm. destruct (answers w) as [|a rest]; eauto.
Qed.

Lemma calm_if {A} (b : bool) (m1 m2 : M A) : calm m1 -> calm m2 -> calm (if b then m1 else m2).
Proof. now destruct b. Qed.

Lemma calm_for_each {A} (xs : list A) (f : A -> M unit) :
  Forall (fun x => calm (f x)) xs -> calm (for_each xs f).
Proof.
  induction 1; simpl; [apply calm_ret|].
  apply calm_bind; auto.
Qed.

Create HintDb calm.
#[export] Hint Resolve calm_ret calm_echo calm_logger_info calm_logger_error
  calm_sleep calm_clock calm_confirm : calm.

Ltac calm_steps :=
  repeat first
    [ solve [auto with calm]
    | apply calm_if
    | apply calm_bind; [|intros ?] ].

(** The sink never stops the caller: [index_event] returns whatever the
    client does. *)
Lemma index_event_returns (es : option es_client) (module event_type : string)
  (event : text) (w : World) :
  exists w',
    index_event es module event_type event w = (Ret tt, w')
    /\ tenant w' = tenant w /\ answers w' = answers w /\ now w' = now w
    /\ sent w' = sent w.
Proof.
  unfold index_event, bind, clock. destruct es as [client|].
  - unfold try_except, es_index.
    destruct (client _) as [e|]; eexists; (split; [reflexivity|]); auto.
  - exists w. auto.
Qed.

Lemma calm_index_event (es : option es_client) (module event_type : string)
  (event : text) : calm (index_event es module event_type event).
Proof.
  intros w. destruct (index_event_returns es module event_type event w)
    as (w' & E & T & _ & _ & S).
  exists tt, w'. auto.
Qed.

#[export] Hint Resolve calm_index_event : calm.

Lemma calm_report_info (ctx : context) (module : string) (msg : text) :
  calm (report_info ctx module msg).
Proof. unfold report_info. calm_steps. Qed.

Lemma calm_report_error (ctx : context) (module : string) (msg : text) :
  calm (report_error ctx module msg).
Proof. unfold report_error. calm_steps. Qed.

Lemma calm_transport_failed (ctx : context) (module : string) (e : exn)
  (indexed : text) : calm (transport_failed ctx module e indexed).
Proof. unfold transport_failed. calm_steps. Qed.

Lemma calm_write_json_file (file_name : string) (results : list pyval) :
  calm (write_json_file file_name results).
Proof.
  unfold write_json_file. calm_steps. now apply calm_tell.
Qed.

#[export] Hint Resolve calm_report_info calm_report_error calm_transport_failed
  calm_write_json_file : calm.

(** ** Presenters *)

Lemma calm_py_get_default (d : list (string * pyval)) (k : string) (default : pyval) :
  calm (py_get_default (PDict d) k default).
Proof. apply calm_ret. Qed.

Lemma calm_py_get (d : list (string * pyval)) (k : string) :
  calm (py_get (PDict d) k).
Proof. apply calm_ret. Qed.

#[export] Hint Resolve calm_py_get_default calm_py_get : calm.

Lemma calm_print_app_object (app : pyval) :
  is_object app = true -> calm (print_app_object app).
Proof.
  destruct app; try discriminate. intros _. unfold print_app_object. calm_steps.
Qed.

Lemma calm_print_zone_object (zone : pyval) :
  is_object zone = true -> calm (print_zone_object zone).
Proof.
  destruct zone; try discriminate. intros _. unfold print_zone_object. calm_steps.
Qed.

Lemma calm_py_item_profile (d : list (string * pyval)) :
  has_profile (PDict d) = true ->
  exists p, py_item (PDict d) "profile" = ret (PDict p).
Proof.
  simpl. destruct (dict_get d "profile") as [[]|]; try discriminate. eauto.
Qed.

Lemma bind_ret_l {A B} (a : A) (k : A -> M B) : bind (ret a) k = k a.
Proof. reflexivity. Qed.

Ltac calm_run :=
  repeat first
    [ rewrite bind_ret_l; cbv beta
    | solve [auto with calm]
    | apply calm_if
    | apply calm_bind; [|intros ?] ].

Lemma calm_print_user_info (user : pyval) :
  has_profile user = true -> calm (print_user_info user).
Proof.
  destruct user; try discriminate. intros H.
  destruct (calm_py_item_profile d H) as [p E].
  unfold print_user_info. rewrite !E.
  unfold py_get, py_get_default. calm_run.
Qed.

Lemma calm_print_group (group : pyval) :
  has_profile group = true -> calm (print_group group).
Proof.
  destruct group; try discriminate. intros H.
  destruct (calm_py_item_profile d H) as [p E].
  unfold print_group. rewrite !E.
  unfold py_get, py_get_default. calm_run.
Qed.

(** ** Event Logger *)

(** C9: [index_event] returns [None] to its caller in every world: with no
    sink it leaves the world as it is; with a sink, a record the client
    takes is indexed, and a record on which the client raises costs a log
    line and a warning on the console and nothing else.  The session, the
    prompts and the clock are out of its reach, and two calls that differ
    only in the sink cannot be told apart by the caller. *)
Theorem index_event_never_aborts (es : option es_client)
  (module event_type : string) (event : text) (w : World) :
  exists w',
    index_event es module event_type event w = (Ret tt, w')
    /\ tenant w' = tenant w /\ answers w' = answers w /\ now w' = now w
    /\ sent w' = sent w
    /\ match es with
       | None => w' = w
       | Some client =>
           let r := mkEvent (now w, event) (now w) module event_type event in
           match client r with
           | None => trace w' = Indexed r :: trace w
           | Some e =>
               trace w' =
               Echo [Lit "[!] Error indexing event in Elasticsearch. Review dorothy.log for further information"]
               :: Logged ERROR [FmtExn e] :: IndexFailed r :: trace w
           end
       end
    /\ forall es' : option es_client,
         exists w'',
           index_event es' module event_type event w = (Ret tt, w'')
           /\ tenant w'' = tenant w' /\ answers w'' = answers w'
           /\ now w'' = now w' /\ sent w'' = sent w'.
Proof.
  assert (Hret : forall es0, exists w0,
             index_event es0 module event_type event w = (Ret tt, w0)
             /\ tenant w0 = tenant w /\ answers w0 = answers w
             /\ now w0 = now w /\ sent w0 = sent w)
    by (intros es0; apply index_event_returns).
  destruct (Hret es) as (w' & E & T & A & N & S).
  exists w'. repeat (split; [assumption|]). split.
  - revert E. unfold index_event, bind, clock, try_except, es_index.
    destruct es as [client|]; cbv zeta.
    + destruct (client _) as [e|]; intros E; injection E as <-; reflexivity.
    + intros E; injection E as <-; reflexivity.
  - intros es'. destruct (Hret es') as (w'' & E' & T' & A' & N' & S').
    exists w''. split; [exact E'|]. repeat split; congruence.
Qed.

(** ** Pagination Walker *)

Lemma bind_tell {B} (e : effect) (k : unit -> M B) (w : World) :
  bind (tell e) k w = k tt (emit e w).
Proof. reflexivity. Qed.

Lemma fetch_reply (ctx : context) (module : string) (u : text) (w : World)
  (r : response) (tl : list transport_result) :
  tenant w = Reply r :: tl ->
  try_except (r <- session_get ctx u ;; ret (Some r))
    (fun e => transport_failed ctx module e [FmtExn e]) w
  = (Ret (Some r),
     mkWorld tl (answers w) (now w) (Sent (get_request ctx u) :: trace w)).
Proof.
  intros Ht. unfold try_except, bind, session_get, send. now rewrite Ht.
Qed.

Lemma returns_ret {A} (a : A) : returns (ret a) a.
Proof. intros w. exists w. auto. Qed.

Lemma returns_bind {A B} (m : M A) (k : A -> M B) (b : B) :
  calm m -> (forall a, returns (k a) b) -> returns (bind m k) b.
Proof.
  intros Hm Hk w. destruct (Hm w) as (a & w1 & E & T1 & S1).
  destruct (Hk a w1) as (w2 & E2 & T2 & S2).
  exists w2. rewrite (bind_ret_eq _ _ _ _ _ E). split; [exact E2|].
  split; congruence.
Qed.

Lemma returns_calm {A} (m : M A) (a : A) : returns m a -> calm m.
Proof. intros H w. destruct (H w) as (w' & E). exists a, w'. exact E. Qed.

Lemma calm_returns (m : M unit) : calm m -> returns m tt.
Proof. intros H w. destruct (H w) as ([] & w' & E). exists w'. exact E. Qed.

Ltac returns_run :=
  repeat first
    [ apply returns_ret
    | apply returns_bind; [solve [auto with calm] | intros ?] ].

Lemma transport_failed_returns (ctx : context) (module : string) (e : exn)
  (indexed : text) : returns (transport_failed ctx module e indexed) None.
Proof. unfold transport_failed. returns_run. Qed.

Lemma fetch_broken (ctx : context) (module : string) (u : text)
  (indexed : exn -> text) (w : World) (tl : list transport_result) :
  tenant w = Broken :: tl ->
  exists w',
    try_except (r <- session_get ctx u ;; ret (Some r))
      (fun e => transport_failed ctx module e (indexed e)) w
    = (Ret None, w')
    /\ tenant w' = tl /\ sent w' = (sent w ++ [get_request ctx u])%list.
Proof.
  intros Ht. unfold try_except, bind at 1, session_get, send. rewrite Ht.
  destruct (transport_failed_returns ctx module TransportError
              (indexed TransportError)
              (mkWorld tl (answers w) (now w) (Sent (get_request ctx u) :: trace w)))
    as (w' & E & T & S).
  exists w'. auto.
Qed.

(** One pass of the loop on a fetch that succeeded. *)
Lemma harvest_pass_page (again : text -> list pyval -> M (option (list pyval)))
  (ctx : context) (noun : string) (u : text) (harvested : list pyval)
  (w : World) (r : response) (tl : list transport_result) :
  tenant w = Reply r :: tl -> is_page r = true ->
  exists w',
    tenant w' = tl
    /\ sent w' = (sent w ++ [get_request ctx u])%list
    /\ harvest_pass again ctx noun u harvested w =
       match next_link r with
       | Some n =>
           if truthy (PStr n)
           then again [Lit n] (harvested ++ page_items r)%list w'
           else (Ret (Some (harvested ++ page_items r)%list), w')
       | None =>
           (Ret (Some (harvested ++ page_items r)%list),
            emit (Echo [Lit ("[*] No more " ++ noun ++ " found")]) w')
       end.
Proof.
  intros Ht Hp. unfold is_page in Hp. apply andb_prop in Hp as [Hok Hb].
  unfold page_items. destruct (body r) as [[| | | |items|]|] eqn:Hbody;
    try discriminate.
  unfold harvest_pass.
  rewrite (bind_ret_eq _ _ _ _ _ (fetch_reply ctx core_name u w r tl Ht)).
  unfold deref. rewrite bind_ret_l, Hok. unfold json. rewrite Hbody.
  unfold py_len, py_iter. rewrite !bind_ret_l.
  match goal with
  | |- context [bind (report_info ?c ?m ?t) _ ?w0] =>
      destruct (calm_report_info c m t w0) as ([] & w2 & E2 & T2 & S2)
  end.
  rewrite (bind_ret_eq _ _ _ _ _ E2). rewrite ?bind_ret_l.
  unfold sleep. rewrite bind_tell.
  exists (emit (Slept 1) w2). split; [exact T2|]. split.
  - unfold sent in *. simpl. rewrite S2. reflexivity.
  - unfold next_link. destruct (dict_get (links r) "next") as [n|];
      [destruct (truthy (PStr n))|]; reflexivity.
Qed.

Lemma report_error_echoes (ctx : context) (module : string) (msg : text)
  (w : World) :
  exists w',
    report_error ctx module msg w = (Ret tt, w')
    /\ tenant w' = tenant w /\ sent w' = sent w
    /\ hd_error (trace w') = Some (Echo (Lit "[!] " :: msg)).
Proof.
  unfold report_error, logger_error, echo. rewrite bind_tell.
  destruct (index_event_returns (es ctx) module "ERROR" msg (emit (Logged ERROR msg) w))
    as (w1 & E1 & T1 & _ & _ & S1).
  rewrite (bind_ret_eq _ _ _ _ _ E1).
  exists (emit (Echo (Lit "[!] " :: msg)) w1). repeat split; assumption.
Qed.

(** An error report in full: logged, sent to the sink, printed. *)
Lemma report_error_reports (ctx : context) (module : string) (msg : text)
  (w : World) :
  exists w',
    report_error ctx module msg w = (Ret tt, w')
    /\ tenant w' = tenant w /\ sent w' = sent w /\ now w' = now w
    /\ trace w' = reported ctx module msg (now w) (trace w).
Proof.
  unfold report_error, logger_error, echo, index_event, reported, sink_trace,
    bind, tell, clock, try_except, es_index, ret.
  destruct (es ctx) as [client|]; simpl;
    [destruct (client _) as [e|]; simpl|];
    eexists; repeat split.
Qed.

(** One pass of the loop on a fetch that failed: the error is reported, on
    the console last, and the function is left through its bare [return]. *)
Lemma harvest_pass_failure (again : text -> list pyval -> M (option (list pyval)))
  (ctx : context) (noun : string) (u : text) (harvested : list pyval)
  (w : World) (r : response) (tl : list transport_result) :
  tenant w = Reply r :: tl -> is_failure r = true ->
  exists w' details,
    harvest_pass again ctx noun u harvested w = (Ret None, w')
    /\ tenant w' = tl
    /\ sent w' = (sent w ++ [get_request ctx u])%list
    /\ hd_error (trace w')
       = Some (Echo (Lit "[!] " :: Lit ("Error retrieving " ++ noun) :: details))
    /\ now w' = now w
    /\ trace w'
       = reported ctx core_name (Lit ("Error retrieving " ++ noun) :: details)
           (now w) (Sent (get_request ctx u) :: trace w).
Proof.
  intros Ht Hf. unfold is_failure in Hf. apply andb_prop in Hf as [Hok Hb].
  apply negb_true_iff in Hok.
  destruct (body r) as [[| | | | |envelope]|] eqn:Hbody; try discriminate.
  unfold harvest_pass.
  rewrite (bind_ret_eq _ _ _ _ _ (fetch_reply ctx core_name u w r tl Ht)).
  unfold deref. rewrite bind_ret_l, Hok.
  unfold error_report, json. rewrite Hbody. unfold py_get, py_get_default.
  rewrite !bind_ret_l.
  match goal with
  | |- context [bind (report_error ?c ?m ?t) _ ?w0] =>
      destruct (report_error_reports c m t w0) as (w2 & E2 & T2 & S2 & N2 & H2)
  end.
  rewrite (bind_ret_eq _ _ _ _ _ E2).
  eexists w2, _. split; [reflexivity|]. split; [exact T2|].
  split; [rewrite S2; reflexivity|].
  split; [rewrite H2; reflexivity|].
  split; [exact N2 | exact H2].
Qed.

(** One pass of the loop on a call that raised: the handler leaves
    [response] at [None], and reading [response.ok] raises. *)
Lemma harvest_pass_broken (again : text -> list pyval -> M (option (list pyval)))
  (ctx : context) (noun : string) (u : text) (harvested : list pyval)
  (w : World) (tl : list transport_result) :
  tenant w = Broken :: tl ->
  exists w',
    harvest_pass again ctx noun u harvested w = (Raise AttributeError, w')
    /\ tenant w' = tl
    /\ sent w' = (sent w ++ [get_request ctx u])%list.
Proof.
  intros Ht. unfold harvest_pass.
  destruct (fetch_broken ctx core_name u (fun e => [FmtExn e]) w tl Ht)
    as (w' & E & T & S).
  rewrite (bind_ret_eq _ _ _ _ _ E). exists w'. auto.
Qed.

Lemma has_next_truthy (r : response) :
  has_next r = true ->
  exists n, next_link r = Some n /\ truthy (PStr n) = true.
Proof.
  unfold has_next. destruct (next_link r) as [n|]; [|discriminate]. eauto.
Qed.

(** The loop over a run of linked pages: it is as far as if it had started
    behind them with their items in hand. *)
Lemma harvest_pages_prefix (ctx : context) (noun : string)
  (pages : list response) :
  forall (fuel : nat) (u : text) (harvested : list pyval) (w : World)
         (tl : list transport_result),
    linked_pages pages ->
    tenant w = (map Reply pages ++ tl)%list ->
    exists w',
      tenant w' = tl
      /\ sent w' = (sent w ++ walk_requests ctx u pages)%list
      /\ harvest_pages (List.length pages + fuel) ctx noun u harvested w
         = harvest_pages fuel ctx noun (walk_url u pages)
             (harvested ++ flat_map page_items pages)%list w'.
Proof.
  induction pages as [|r ps IH]; intros fuel u harvested w tl Hl Ht.
  - exists w. simpl. rewrite !app_nil_r. auto.
  - inversion Hl as [|? ? [Hp Hn] Hl']; subst.
    destruct (has_next_truthy r Hn) as (n & En & Tn).
    destruct (harvest_pass_page (harvest_pages (List.length ps + fuel) ctx noun)
                ctx noun u harvested w r (map Reply ps ++ tl)%list Ht Hp)
      as (w1 & T1 & S1 & E1).
    rewrite En, Tn in E1.
    destruct (IH fuel [Lit n] (harvested ++ page_items r)%list w1 tl Hl' T1)
      as (w' & T' & S' & E').
    exists w'. split; [exact T'|]. split.
    + rewrite S', S1. simpl. rewrite En. now rewrite <- app_assoc.
    + simpl. rewrite En. rewrite E1, E'. now rewrite <- app_assoc.
Qed.

Lemma walk_requests_linked (ctx : context) (pages : list response) :
  forall (u : text) (more : list response),
    linked_pages pages ->
    walk_requests ctx u (pages ++ more)
    = (walk_requests ctx u pages ++ walk_requests ctx (walk_url u pages) more)%list.
Proof.
  induction pages as [|r ps IH]; intros u more Hl; [reflexivity|].
  inversion Hl as [|? ? [Hp Hn] Hl']; subst.
  destruct (has_next_truthy r Hn) as (n & En & Tn).
  simpl. rewrite En. now rewrite IH.
Qed.

Lemma walk_requests_length (ctx : context) (pages : list response) :
  forall u : text,
    linked_pages pages ->
    List.length (walk_requests ctx u pages) = List.length pages.
Proof.
  induction pages as [|r ps IH]; intros u Hl; [reflexivity|].
  inversion Hl as [|? ? [Hp Hn] Hl']; subst.
  destruct (has_next_truthy r Hn) as (n & En & Tn).
  simpl. rewrite En. now rewrite IH.
Qed.

Lemma harvest_fuel (pages : list response) (x : transport_result)
  (rest : list transport_result) :
  S (List.length (map Reply pages ++ x :: rest))
  = List.length pages + S (S (List.length rest)).
Proof. rewrite length_app, length_map. simpl. lia. Qed.

(** The walk meets a failure behind a run of linked pages. *)
Lemma harvest_failure (ctx : context) (noun path : string)
  (pages : list response) (failure : response)
  (rest : list transport_result) (w : World) :
  linked_pages pages -> is_failure failure = true ->
  tenant w = (map Reply pages ++ Reply failure :: rest)%list ->
  exists w' details,
    harvest ctx noun path w = (Ret None, w')
    /\ tenant w' = rest
    /\ sent w' = (sent w
                  ++ walk_requests ctx [Lit (base_url ctx ++ path)] pages
                  ++ [get_request ctx (walk_url [Lit (base_url ctx ++ path)] pages)])%list
    /\ hd_error (trace w')
       = Some (Echo (Lit "[!] " :: Lit ("Error retrieving " ++ noun) :: details))
    /\ exists before,
         trace w'
         = reported ctx core_name (Lit ("Error retrieving " ++ noun) :: details)
             (now w') before.
Proof.
  intros Hl Hf Ht. unfold harvest. rewrite Ht, harvest_fuel.
  destruct (harvest_pages_prefix ctx noun pages (S (S (List.length rest)))
              [Lit (base_url ctx ++ path)] [] w (Reply failure :: rest) Hl Ht)
    as (w1 & T1 & S1 & E1).
  rewrite E1.
  destruct (harvest_pass_failure (harvest_pages (S (List.length rest)) ctx noun)
              ctx noun (walk_url [Lit (base_url ctx ++ path)] pages)
              ([] ++ flat_map page_items pages)%list w1 failure rest T1 Hf)
    as (w' & details & E' & T' & S' & H' & N' & R').
  exists w', details. split; [exact E'|]. split; [exact T'|].
  split; [rewrite S', S1; now rewrite <- app_assoc|].
  split; [exact H'|].
  eexists. rewrite N'. exact R'.
Qed.

(** The walk goes through a run of linked pages and a last page without a
    "next" link. *)
Lemma harvest_complete (ctx : context) (noun path : string)
  (pages : list response) (last : response)
  (rest : list transport_result) (w : World) :
  linked_pages pages -> is_page last = true -> next_link last = None ->
  tenant w = (map Reply (pages ++ [last]) ++ rest)%list ->
  exists w',
    harvest ctx noun path w
    = (Ret (Some (flat_map page_items (pages ++ [last]))), w')
    /\ tenant w' = rest
    /\ sent w' = (sent w
                  ++ walk_requests ctx [Lit (base_url ctx ++ path)] (pages ++ [last]))%list.
Proof.
  intros Hl Hp Hn Ht. rewrite map_app, <- app_assoc in Ht. simpl in Ht.
  unfold harvest. rewrite Ht, harvest_fuel.
  destruct (harvest_pages_prefix ctx noun pages (S (S (List.length rest)))
              [Lit (base_url ctx ++ path)] [] w (Reply last :: rest) Hl Ht)
    as (w1 & T1 & S1 & E1).
  rewrite E1.
  destruct (harvest_pass_page (harvest_pages (S (List.length rest)) ctx noun)
              ctx noun (walk_url [Lit (base_url ctx ++ path)] pages)
              ([] ++ flat_map page_items pages)%list w1 last rest T1 Hp)
    as (w2 & T2 & S2 & E2).
  rewrite Hn in E2. eexists. split.
  - change (harvest_pages (S (S (List.length rest))) ctx noun)
      with (harvest_pass (harvest_pages (S (List.length rest)) ctx noun) ctx noun).
    rewrite E2. rewrite flat_map_app. simpl. now rewrite app_nil_r.
  - split; [exact T2|]. unfold sent in *. simpl. rewrite S2, S1.
    rewrite walk_requests_linked by exact Hl. simpl. rewrite Hn.
    now rewrite <- app_assoc.
Qed.

(** *** The four harvests *)

Lemma list_of_returned (k : harvest_kind) (ctx : context) (w w1 : World) :
  harvest ctx (noun_of k) (endpoint_of k) w = (Ret None, w1) ->
  list_of k ctx w = (Ret None, w1).
Proof.
  intros E. destruct k; simpl in *;
    unfold list_users, list_groups, list_zones, list_apps;
    now rewrite (bind_ret_eq _ _ _ _ _ E).
Qed.

Lemma Forall_calm {A} (P : A -> bool) (f : A -> M unit) (xs : list A) :
  (forall x, P x = true -> calm (f x)) ->
  Forall (fun x => P x = true) xs -> Forall (fun x => calm (f x)) xs.
Proof. intros H. apply Forall_impl. exact H. Qed.

Lemma list_of_walked (k : harvest_kind) (ctx : context) (w w1 : World)
  (harvested : list pyval) :
  harvest ctx (noun_of k) (endpoint_of k) w = (Ret (Some harvested), w1) ->
  Forall (fun item => presentable k item = true) harvested ->
  exists w',
    list_of k ctx w = (Ret (Some harvested), w')
    /\ tenant w' = tenant w1 /\ sent w' = sent w1.
Proof.
  intros E Hitems.
  destruct k; simpl in *;
    unfold list_users, list_groups, list_zones, list_apps;
    rewrite (bind_ret_eq _ _ _ _ _ E);
    match goal with
    | |- exists w', ?m w1 = _ /\ _ =>
        assert (R : returns m (Some harvested))
    end.
  1, 3, 5, 7:
    apply returns_bind; [|intros ?; apply returns_ret];
    unfold report_total, print_group_information; calm_steps;
    try (apply calm_for_each);
    try (now apply calm_tell).
  all: try (destruct (R w1) as (w' & E' & T' & S'); exists w'; auto).
  - eapply Forall_calm; [|exact Hitems]. apply calm_print_user_info.
  - eapply Forall_calm; [|exact Hitems]. apply calm_print_group.
  - eapply Forall_calm; [|exact Hitems]. apply calm_print_zone_object.
  - eapply Forall_calm; [|exact Hitems]. apply calm_print_app_object.
Qed.

Lemma linked_page1 : linked_pages [page1].
Proof. repeat constructor. Qed.

(** C1, as stated, fails: with a first page of one application and a 404
    for the second, [list_apps] returns [None] and the application of the
    first page is lost to the caller. *)
Lemma list_apps_loses_first_page :
  is_page page1 = true /\ has_next page1 = true
  /\ page_items page1 = [app1]
  /\ ok not_found = false
  /\ fst (list_apps ctx0 (world0 [Reply page1; Reply not_found])) = Ret None
  /\ fst (list_apps ctx0 (world0 [Reply page1; Reply not_found]))
     <> Ret (Some [app1]).
Proof.
  repeat split; try reflexivity.
  vm_compute. discriminate.
Qed.

(** C1, amended: when the fetch of page k is answered by an error response
    with its envelope, after k-1 pages that were fetched and followed by
    their "next" links, each of [list_users], [list_groups], [list_zones]
    and [list_apps] reports the error and returns [None]: the caller gets
    none of the items of the pages before.  The report is the last thing
    the run does: the message goes to the log at level ERROR, then to the
    sink, then to the console behind "[!] ".  Exactly k requests were
    sent, along the "next" links. *)
Theorem harvest_failure_returns_none (k : harvest_kind) (ctx : context)
  (pages : list response) (failure : response)
  (rest : list transport_result) (w : World)
  (Hpages : linked_pages pages)
  (Hfailure : is_failure failure = true)
  (Hw : tenant w = (map Reply pages ++ Reply failure :: rest)%list) :
  exists w' details before,
    list_of k ctx w = (Ret None, w')
    /\ trace w'
       = Echo (Lit "[!] " :: Lit ("Error retrieving " ++ noun_of k) :: details)
         :: (sink_trace (es ctx)
               (mkEvent (now w', Lit ("Error retrieving " ++ noun_of k) :: details)
                  (now w') core_name "ERROR"
                  (Lit ("Error retrieving " ++ noun_of k) :: details))
             ++ Logged ERROR (Lit ("Error retrieving " ++ noun_of k) :: details)
                :: before)%list
    /\ hd_error (trace w')
       = Some (Echo (Lit "[!] " :: Lit ("Error retrieving " ++ noun_of k) :: details))
    /\ In (Logged ERROR (Lit ("Error retrieving " ++ noun_of k) :: details))
         (trace w')
    /\ tenant w' = rest
    /\ sent w'
       = (sent w
          ++ walk_requests ctx [Lit (base_url ctx ++ endpoint_of k)] pages
          ++ [get_request ctx
                (walk_url [Lit (base_url ctx ++ endpoint_of k)] pages)])%list
    /\ List.length (sent w') = List.length (sent w) + List.length pages + 1.
Proof.
  destruct (harvest_failure ctx (noun_of k) (endpoint_of k) pages failure rest w
              Hpages Hfailure Hw) as (w' & details & E & T & S & H & before & R).
  exists w', details, before. split; [now apply list_of_returned|].
  split; [exact R|]. split; [exact H|].
  split; [rewrite R; unfold reported; right; apply in_or_app; right; now left|].
  split; [exact T|]. split; [exact S|].
  rewrite S, !length_app, walk_requests_length by exact Hpages. simpl. lia.
Qed.

Lemma harvest_failure_returns_none_witness :
  let w := world0 [Reply page1; Reply not_found] in
  linked_pages [page1] /\ is_failure not_found = true
  /\ exists w' details before,
      list_of Apps ctx0 w = (Ret None, w')
      /\ trace w'
         = Echo (Lit "[!] " :: Lit ("Error retrieving " ++ noun_of Apps) :: details)
           :: (sink_trace (es ctx0)
                 (mkEvent (now w', Lit ("Error retrieving " ++ noun_of Apps) :: details)
                    (now w') core_name "ERROR"
                    (Lit ("Error retrieving " ++ noun_of Apps) :: details))
               ++ Logged ERROR (Lit ("Error retrieving " ++ noun_of Apps) :: details)
                  :: before)%list
      /\ hd_error (trace w')
         = Some (Echo (Lit "[!] " :: Lit ("Error retrieving " ++ noun_of Apps) :: details))
      /\ In (Logged ERROR (Lit ("Error retrieving " ++ noun_of Apps) :: details))
           (trace w')
      /\ tenant w' = []
      /\ sent w'
         = (sent w
            ++ walk_requests ctx0 [Lit (base_url ctx0 ++ endpoint_of Apps)] [page1]
            ++ [get_request ctx0
                  (walk_url [Lit (base_url ctx0 ++ endpoint_of Apps)] [page1])])%list
      /\ List.length (sent w') = List.length (sent w) + List.length [page1] + 1.
Proof.
  cbv zeta. split; [exact linked_page1|]. split; [reflexivity|].
  apply (harvest_failure_returns_none Apps ctx0 [page1] not_found []
           (world0 [Reply page1; Reply not_found]));
    [exact linked_page1 | reflexivity | reflexivity].
Defined.

(** C5: over pages that were all fetched, the first N-1 followed by their
    "next" links and the N-th without one, each of [list_users],
    [list_groups], [list_zones] and [list_apps] returns the items of the
    pages concatenated in page order, as many as the pages' sizes add up
    to, having sent N requests: the first to the endpoint, each other to
    the "next" link of the page before, and none after the N-th page. *)
Theorem harvest_returns_all_pages (k : harvest_kind) (ctx : context)
  (pages : list response) (last : response)
  (rest : list transport_result) (w : World)
  (Hpages : linked_pages pages)
  (Hlast : is_page last = true)
  (Hend : next_link last = None)
  (Hitems : Forall (fun item => presentable k item = true)
              (List.concat (map page_items (pages ++ [last]))))
  (Hw : tenant w = (map Reply (pages ++ [last]) ++ rest)%list) :
  exists w',
    list_of k ctx w = (Ret (Some (List.concat (map page_items (pages ++ [last])))), w')
    /\ List.length (List.concat (map page_items (pages ++ [last])))
       = list_sum (map (fun r => List.length (page_items r)) (pages ++ [last]))
    /\ tenant w' = rest
    /\ sent w' = (sent w ++ walk_requests ctx [Lit (base_url ctx ++ endpoint_of k)]
                              (pages ++ [last]))%list
    /\ List.length (walk_requests ctx [Lit (base_url ctx ++ endpoint_of k)]
                      (pages ++ [last]))
       = List.length pages + 1.
Proof.
  rewrite <- flat_map_concat_map in *.
  destruct (harvest_complete ctx (noun_of k) (endpoint_of k) pages last rest w
              Hpages Hlast Hend Hw) as (w1 & E1 & T1 & S1).
  destruct (list_of_walked k ctx w w1 _ E1 Hitems) as (w' & E & T & S).
  exists w'. split; [exact E|]. split.
  - rewrite flat_map_concat_map, length_concat, map_map. reflexivity.
  - split; [congruence|]. split; [congruence|].
    rewrite walk_requests_linked by exact Hpages.
    rewrite length_app, walk_requests_length by exact Hpages.
    simpl. now destruct (next_link last).
Qed.

Lemma harvest_returns_all_pages_witness :
  linked_pages [page1] /\ is_page page2 = true /\ next_link page2 = None
  /\ exists w',
      list_of Apps ctx0 (world0 [Reply page1; Reply page2])
      = (Ret (Some (List.concat (map page_items ([page1] ++ [page2])))), w')
      /\ List.length (List.concat (map page_items ([page1] ++ [page2])))
         = list_sum (map (fun r => List.length (page_items r)) ([page1] ++ [page2]))
      /\ tenant w' = []
      /\ sent w' = (sent (world0 [Reply page1; Reply page2])
                    ++ walk_requests ctx0 [Lit (base_url ctx0 ++ endpoint_of Apps)]
                         ([page1] ++ [page2]))%list
      /\ List.length (walk_requests ctx0 [Lit (base_url ctx0 ++ endpoint_of Apps)]
                        ([page1] ++ [page2]))
         = List.length [page1] + 1.
Proof.
  split; [exact linked_page1|]. split; [reflexivity|]. split; [reflexivity|].
  apply (harvest_returns_all_pages Apps ctx0 [page1] page2 []
           (world0 [Reply page1; Reply page2]));
    [exact linked_page1 | reflexivity | reflexivity
    | repeat constructor | reflexivity].
Defined.

(** The two pages, harvested. *)
Example list_apps_two_pages :
  fst (list_apps ctx0 (world0 [Reply page1; Reply page2])) = Ret (Some [app1; app2]).
Proof. vm_compute. reflexivity. Qed.

(** ** Validation before execution *)

(** Set and reset change the value of [id] and nothing else. *)
Lemma reachable_single_id (v0 : pyval) (h : string) (s : options) :
  reachable [("id", mkOption v0 true h)] s ->
  exists v, s = [("id", mkOption v true h)].
Proof.
  induction 1 as [|s v _ [v' ->]|s _ [v' ->]].
  - eauto.
  - destruct v as [x|]; [|simpl; eauto].
    unfold module_set. simpl forallb. cbv iota.
    unfold set_module_options, set_one. simpl String.eqb. simpl andb.
    destruct (given (Some x)); simpl; eexists; reflexivity.
  - simpl. eexists; reflexivity.
Qed.

Lemma run_check_first_missing (k : string) (o : module_option) (rest : options)
  (w : World) :
  required o = true -> truthy (value o) = false ->
  run_check ((k, o) :: rest) w
  = (Ret (Some true), emit (Echo [Lit (missing_message k)]) w).
Proof.
  intros Hr Hv. unfold run_check.
  rewrite (check_module_options_first_missing k o rest Hr Hv). reflexivity.
Qed.

(** The two modules on their own stores: in [modify_zone] and in
    [get_user], whose stores hold the required [id] alone whatever [set]
    and [reset] did, an [execute] on a store with a required option whose
    value is unset prints the validation error that names [id] and
    returns; it has no other effect, so no request leaves the session and
    the sink sees no event. *)
Theorem execute_aborts_before_any_request (ctx : context) (w : World)
  (zone_options user_options : options)
  (Hzone : reachable ModifyZone.MODULE_OPTIONS zone_options)
  (Huser : reachable GetUser.MODULE_OPTIONS user_options)
  (Hzone_missing : exists k o, In (k, o) zone_options
                               /\ required o = true /\ truthy (value o) = false)
  (Huser_missing : exists k o, In (k, o) user_options
                               /\ required o = true /\ truthy (value o) = false) :
  ModifyZone.execute ctx zone_options w
  = (Ret tt, emit (Echo [Lit (missing_message "id")]) w)
  /\ GetUser.execute ctx user_options w
     = (Ret tt, emit (Echo [Lit (missing_message "id")]) w)
  /\ sent (emit (Echo [Lit (missing_message "id")]) w) = sent w
  /\ tenant (emit (Echo [Lit (missing_message "id")]) w) = tenant w.
Proof.
  destruct (reachable_single_id _ _ _ Hzone) as [vz ->].
  destruct (reachable_single_id _ _ _ Huser) as [vu ->].
  destruct Hzone_missing as (kz & oz & [Ez|[]] & Rz & Tz).
  destruct Huser_missing as (ku & ou & [Eu|[]] & Ru & Tu).
  injection Ez as <- <-. injection Eu as <- <-.
  repeat split.
  - unfold ModifyZone.execute.
    rewrite (bind_ret_eq _ _ _ _ _ (run_check_first_missing _ _ _ w Rz Tz)).
    reflexivity.
  - unfold GetUser.execute.
    rewrite (bind_ret_eq _ _ _ _ _ (run_check_first_missing _ _ _ w Ru Tu)).
    reflexivity.
Qed.

Lemma execute_aborts_before_any_request_witness :
  reachable ModifyZone.MODULE_OPTIONS (module_reset ModifyZone.MODULE_OPTIONS)
  /\ reachable GetUser.MODULE_OPTIONS GetUser.MODULE_OPTIONS
  /\ ModifyZone.execute ctx0 (module_reset ModifyZone.MODULE_OPTIONS)
       (world0 [Reply page1])
     = (Ret tt, emit (Echo [Lit (missing_message "id")]) (world0 [Reply page1]))
  /\ GetUser.execute ctx0 GetUser.MODULE_OPTIONS (world0 [Reply page1])
     = (Ret tt, emit (Echo [Lit (missing_message "id")]) (world0 [Reply page1]))
  /\ sent (emit (Echo [Lit (missing_message "id")]) (world0 [Reply page1]))
     = sent (world0 [Reply page1])
  /\ tenant (emit (Echo [Lit (missing_message "id")]) (world0 [Reply page1]))
     = tenant (world0 [Reply page1]).
Proof.
  split; [apply reach_reset, reach_init|]. split; [apply reach_init|].
  apply (execute_aborts_before_any_request ctx0 (world0 [Reply page1])
           (module_reset ModifyZone.MODULE_OPTIONS) GetUser.MODULE_OPTIONS).
  - apply reach_reset, reach_init.
  - apply reach_init.
  - exists "id", (mkOption PNone true "The unique ID for the network zone").
    split; [left; reflexivity | split; reflexivity].
  - exists "id", (mkOption PNone true "The unique ID for the user").
    split; [left; reflexivity | split; reflexivity].
Defined.

(** Whatever the store, a Fault from [check_module_options] ends [execute]
    at once: the validation error is the only effect. *)
Lemma execute_returns_on_fault (ctx : context) (store : options) (w : World) :
  is_error (snd (check_module_options store)) = true ->
  exists k,
    check_module_options store = ([missing_message k], Some true)
    /\ ModifyZone.execute ctx store w
       = (Ret tt, emit (Echo [Lit (missing_message k)]) w)
    /\ GetUser.execute ctx store w
       = (Ret tt, emit (Echo [Lit (missing_message k)]) w).
Proof.
  destruct store as [|[k o] more]; [discriminate|].
  unfold ModifyZone.execute, GetUser.execute, run_check. simpl.
  destruct (required o && negb (truthy (value o))); [|discriminate].
  intros _. exists k. repeat split.
Qed.


Lemma set_module_options_overwrites_given_only_witness :
  let m := [("id", mkOption (PStr "00u0") true "The unique ID for the user");
            ("group_ids", mkOption PNone true "The groups");
            ("note", mkOption (PStr "kept") false "A note")] in
  let new_options := [("id", Some " 00u1 "); ("group_ids", Some "00g1,00g2");
                      ("note", None)] in
  NoDup (dict_keys new_options)
  /\ (forall k, In k (dict_keys new_options) -> dict_has m k = true)
  /\ exists m',
      set_module_options m new_options = (m', None)
      /\ dict_keys m' = dict_keys m
      /\ forall k o, dict_get m k = Some o ->
           exists o',
             dict_get m' k = Some o'
             /\ required o' = required o /\ help o' = help o
             /\ match dict_get new_options k with
                | Some (Some v) =>
                    if String.eqb v "" then value o' = value o
                    else if String.eqb k "group_ids"
                         then exists fields,
                             value o' = PList (map PStr fields)
                             /\ fields = split_comma (strip v)
                             /\ cut_at_commas (strip v) fields
                         else value o' = PStr (strip v)
                | Some None => value o' = value o
                | None => value o' = value o
                end.
Proof.
  cbv zeta.
  assert (Hd : NoDup (dict_keys [("id", Some " 00u1 "); ("group_ids", Some "00g1,00g2");
                                 ("note", @None string)])).
  { repeat constructor; simpl; intuition discriminate. }
  assert (Hk : forall k,
             In k (dict_keys [("id", Some " 00u1 "); ("group_ids", Some "00g1,00g2");
                              ("note", @None string)]) ->
             dict_has [("id", mkOption (PStr "00u0") true "The unique ID for the user");
                       ("group_ids", mkOption PNone true "The groups");
                       ("note", mkOption (PStr "kept") false "A note")] k = true).
  { simpl. intros k [<-|[<-|[<-|[]]]]; reflexivity. }
  split; [exact Hd|]. split; [exact Hk|].
  exact (set_module_options_overwrites_given_only _ _ Hd Hk).
Defined.

Lemma set_module_options_strips_input_witness :
  let m := [("group_ids", mkOption PNone true "The groups")] in
  let new_options := [("group_ids", Some "  00g1 , 00g2  ")] in
  let v := "  00g1 , 00g2  " in
  NoDup (dict_keys new_options)
  /\ (forall k, In k (dict_keys new_options) -> dict_has m k = true)
  /\ dict_get new_options "group_ids" = Some (Some v)
  /\ v <> ""
  /\ exists m' a b,
      set_module_options m new_options = (m', None)
      /\ v = a ++ strip v ++ b /\ all_space a = true /\ all_space b = true
      /\ (forall c rest, strip v = String c rest -> is_space c = false)
      /\ (forall init c, strip v = init ++ String c "" -> is_space c = false)
      /\ lstrip (strip v) = strip v /\ rstrip (strip v) = strip v
      /\ exists fields,
          option_map value (dict_get m' "group_ids") = Some (PList (map PStr fields))
          /\ fields = split_comma (strip v)
          /\ fields <> []
          /\ Forall (fun f => ~ In ","%char (list_ascii_of_string f)) fields
          /\ String.concat "," fields = strip v.
Proof.
  cbv zeta.
  assert (Hd : NoDup (dict_keys [("group_ids", Some "  00g1 , 00g2  ")])).
  { repeat constructor; simpl; intuition discriminate. }
  assert (Hk : forall k,
             In k (dict_keys [("group_ids", Some "  00g1 , 00g2  ")]) ->
             dict_has [("group_ids", mkOption PNone true "The groups")] k = true).
  { simpl. intros k [<-|[]]; reflexivity. }
  split; [exact Hd|]. split; [exact Hk|]. split; [reflexivity|].
  split; [discriminate|].
  exact (set_module_options_strips_input
           [("group_ids", mkOption PNone true "The groups")]
           [("group_ids", Some "  00g1 , 00g2  ")]
           "group_ids" "  00g1 , 00g2  "
           (mkOption PNone true "The groups")
           Hd Hk eq_refl (fun H => ltac:(discriminate H)) eq_refl).
Defined.

(** ** Transport failures *)

Lemma try_except_raise_eq {A} (m : M A) (h : exn -> M A) (w w' : World) (e : exn) :
  m w = (Raise e, w') -> try_except m h w = h e w'.
Proof. intros E. unfold try_except. now rewrite E. Qed.

Lemma get_current_user_broken (ctx : context) (w : World)
  (tl : list transport_result) :
  tenant w = Broken :: tl ->
  fst (get_current_user ctx w) = Raise AttributeError.
Proof.
  intros Ht. unfold get_current_user.
  destruct (fetch_broken ctx core_name [Lit (base_url ctx ++ "/users/me")]
              (fun e => [FmtExn e]) w tl Ht) as (w' & E & _).
  now rewrite (bind_ret_eq _ _ _ _ _ E).
Qed.

Lemma get_user_object_broken (ctx : context) (user_id : pyval) (w : World)
  (tl : list transport_result) :
  tenant w = Broken :: tl ->
  fst (get_user_object ctx user_id w) = Raise AttributeError.
Proof.
  intros Ht. unfold get_user_object.
  destruct (fetch_broken ctx core_name [Lit (base_url ctx ++ "/users/"); Fmt user_id]
              (fun e => [FmtExn e]) w tl Ht) as (w' & E & _).
  now rewrite (bind_ret_eq _ _ _ _ _ E).
Qed.

Lemma get_user_groups_broken (ctx : context) (user_id : pyval) (w : World)
  (tl : list transport_result) :
  tenant w = Broken :: tl ->
  fst (get_user_groups ctx user_id w) = Raise AttributeError.
Proof.
  intros Ht. unfold get_user_groups. cbv zeta.
  match goal with
  | |- context [bind (report_info ?c ?m ?t) _ ?w0] =>
      destruct (calm_report_info c m t w0) as ([] & w1 & E1 & T1 & S1)
  end.
  rewrite (bind_ret_eq _ _ _ _ _ E1). rewrite Ht in T1.
  destruct (fetch_broken ctx core_name
              [Lit (base_url ctx ++ "/users/"); Fmt user_id; Lit "/groups"]
              (fun _ => [Lit "Attempting to get group memberships for user ID ";
                         Fmt user_id]) w1 tl T1) as (w' & E & _).
  now rewrite (bind_ret_eq _ _ _ _ _ E).
Qed.

Lemma get_zone_object_broken (ctx : context) (zone_id : pyval) (w : World)
  (tl : list transport_result) :
  tenant w = Broken :: tl ->
  exists w',
    get_zone_object ctx zone_id w = (Raise AttributeError, w')
    /\ tenant w' = tl
    /\ sent w' = (sent w ++ [get_request ctx [Lit (base_url ctx ++ "/zones/"); Fmt zone_id]])%list.
Proof.
  intros Ht. unfold get_zone_object.
  match goal with
  | |- context [bind (report_info ?c ?m ?t) _ ?w0] =>
      destruct (calm_report_info c m t w0) as ([] & w1 & E1 & T1 & S1)
  end.
  rewrite (bind_ret_eq _ _ _ _ _ E1). rewrite Ht in T1.
  destruct (fetch_broken ctx core_name [Lit (base_url ctx ++ "/zones/"); Fmt zone_id]
              (fun e => [FmtExn e]) w1 tl T1) as (w' & E & T & S).
  rewrite (bind_ret_eq _ _ _ _ _ E). exists w'. split; [reflexivity|].
  split; [exact T|]. now rewrite S, S1.
Qed.

Lemma list_of_broken (k : harvest_kind) (ctx : context) (w : World)
  (tl : list transport_result) :
  tenant w = Broken :: tl ->
  fst (list_of k ctx w) = Raise AttributeError.
Proof.
  intros Ht.
  assert (E : exists w', harvest ctx (noun_of k) (endpoint_of k) w
                         = (Raise AttributeError, w')).
  { unfold harvest.
    destruct (harvest_pass_broken
                (harvest_pages (List.length (tenant w)) ctx (noun_of k))
                ctx (noun_of k) [Lit (base_url ctx ++ endpoint_of k)] [] w tl Ht)
      as (w' & E & _).
    exists w'. exact E. }
  destruct E as (w' & E).
  destruct k; simpl in *;
    unfold list_users, list_groups, list_zones, list_apps;
    now rewrite (bind_raise_eq _ _ _ _ _ E).
Qed.

(** ** modify_zone *)

Lemma is_zone_fields (d : list (string * pyval)) :
  is_zone d = true ->
  py_item (PDict d) "type" = ret (field d "type")
  /\ py_item (PDict d) "id" = ret (field d "id").
Proof.
  unfold is_zone, dict_has, field, py_item. intros H.
  apply andb_prop in H as [Ht Hi].
  destruct (dict_get d "type"); [|discriminate].
  destruct (dict_get d "id"); [|discriminate]. auto.
Qed.

Lemma get_zone_object_reply (ctx : context) (zone_id : pyval) (w : World)
  (r : response) (tl : list transport_result) :
  tenant w = Reply r :: tl -> answers_object (Reply r) = true ->
  exists w',
    get_zone_object ctx zone_id w
    = (Ret (if ok r then match body r with Some z => z | None => PNone end
            else PNone), w')
    /\ tenant w' = tl
    /\ sent w' = (sent w ++ [zone_request ctx zone_id])%list.
Proof.
  intros Ht Hb. simpl in Hb.
  destruct (body r) as [[| | | | |z]|] eqn:Hbody; try discriminate.
  unfold get_zone_object.
  match goal with
  | |- context [bind (report_info ?c ?m ?t) _ ?w0] =>
      destruct (calm_report_info c m t w0) as ([] & w1 & E1 & T1 & S1)
  end.
  rewrite (bind_ret_eq _ _ _ _ _ E1). rewrite Ht in T1.
  rewrite (bind_ret_eq _ _ _ _ _
             (fetch_reply ctx core_name
                [Lit (base_url ctx ++ "/zones/"); Fmt zone_id] w1 r tl T1)).
  unfold deref. rewrite bind_ret_l.
  assert (S2 : sent (mkWorld tl (answers w1) (now w1)
                       (Sent (zone_request ctx zone_id) :: trace w1))
               = (sent w ++ [zone_request ctx zone_id])%list).
  { unfold sent in *. simpl. now rewrite S1. }
  destruct (ok r).
  - assert (R : returns
                  (report_info ctx core_name [Lit "Retrieved zone "; Fmt zone_id] ;;
                   zone <- json r ;; print_zone_object zone ;; ret zone)
                  (PDict z)).
    { unfold json. rewrite Hbody.
      apply returns_bind; [auto with calm|]. intros _. rewrite bind_ret_l.
      apply returns_bind; [now apply calm_print_zone_object|]. intros _.
      apply returns_ret. }
    destruct (R (mkWorld tl (answers w1) (now w1)
                   (Sent (zone_request ctx zone_id) :: trace w1)))
      as (w' & E & T & S).
    exists w'. split; [exact E|]. split; [exact T|]. now rewrite S.
  - assert (R : returns
                  (msg <- error_report [Lit "Error retrieving zone "; Fmt zone_id] r ;;
                   report_error ctx core_name msg ;; ret PNone) PNone).
    { unfold error_report, json. rewrite Hbody.
      unfold py_get, py_get_default. rewrite !bind_ret_l.
      apply returns_bind; [auto with calm|]. intros _. apply returns_ret. }
    destruct (R (mkWorld tl (answers w1) (now w1)
                   (Sent (zone_request ctx zone_id) :: trace w1)))
      as (w' & E & T & S).
    exists w'. split; [exact E|]. split; [exact T|]. now rewrite S.
Qed.

(** [rename_zone] when the transport raises on the PUT. *)
Lemma rename_zone_broken (ctx : context) (d : list (string * pyval))
  (original_name new_name : pyval) (w : World) (tl : list transport_result) :
  is_zone d = true -> tenant w = Broken :: tl ->
  exists w',
    ModifyZone.rename_zone ctx (PDict d) original_name new_name w
    = (Raise AttributeError, w')
    /\ tenant w' = tl
    /\ sent w' = (sent w ++ [rename_request ctx d new_name])%list.
Proof.
  intros Hz Ht. destruct (is_zone_fields d Hz) as [Etype Eid].
  unfold ModifyZone.rename_zone. rewrite Etype, !Eid.
  unfold py_get, py_get_default. rewrite !bind_ret_l.
  fold (field d "gateways"). fold (field d "proxies").
  unfold bind at 1. unfold try_except at 1.
  match goal with
  | |- context [bind (report_info ?c ?m ?t) _ ?w0] =>
      destruct (calm_report_info c m t w0) as ([] & w1 & E1 & T1 & S1)
  end.
  rewrite (bind_ret_eq _ _ _ _ _ E1). rewrite Ht in T1.
  unfold bind at 1, session_put, send. rewrite T1.
  match goal with
  | |- context [transport_failed ?c ?m ?e ?t ?w0] =>
      destruct (transport_failed_returns c m e t w0) as (w2 & E2 & T2 & S2)
  end.
  rewrite E2. exists w2. split; [reflexivity|]. split; [exact T2|].
  rewrite S2. unfold sent in *. simpl. now rewrite S1.
Qed.

(** [rename_zone] when the PUT is answered: with an error, its report is
    all that follows; with a success, the zone is fetched again. *)
Lemma rename_zone_reply (ctx : context) (d : list (string * pyval))
  (original_name new_name : pyval) (w : World) (p : response)
  (tl : list transport_result) :
  is_zone d = true -> tenant w = Reply p :: tl ->
  answers_object (Reply p) = true ->
  exists w1,
    tenant w1 = tl
    /\ sent w1 = (sent w ++ [rename_request ctx d new_name])%list
    /\ ModifyZone.rename_zone ctx (PDict d) original_name new_name w
       = if ok p
         then (get_zone_object ctx (field d "id") ;; sleep 1) w1
         else (Ret tt, w1).
Proof.
  intros Hz Ht Hb. destruct (is_zone_fields d Hz) as [Etype Eid].
  simpl in Hb. destruct (body p) as [[| | | | |envelope]|] eqn:Hbody;
    try discriminate.
  unfold ModifyZone.rename_zone. rewrite Etype, !Eid.
  unfold py_get, py_get_default. rewrite !bind_ret_l.
  fold (field d "gateways"). fold (field d "proxies").
  unfold bind at 1. unfold try_except at 1.
  match goal with
  | |- context [bind (report_info ?c ?m ?t) _ ?w0] =>
      destruct (calm_report_info c m t w0) as ([] & w1 & E1 & T1 & S1)
  end.
  rewrite (bind_ret_eq _ _ _ _ _ E1). rewrite Ht in T1.
  unfold bind at 1, session_put, send. rewrite T1.
  unfold ret at 1. cbv beta iota. unfold deref. rewrite bind_ret_l.
  set (w2 := mkWorld tl (answers w1) (now w1)
               (Sent (rename_request ctx d new_name) :: trace w1)).
  assert (S2 : sent w2 = (sent w ++ [rename_request ctx d new_name])%list).
  { unfold sent in *. simpl. now rewrite S1. }
  destruct (ok p) eqn:Hok.
  - match goal with
    | |- context [bind (report_info ?c ?m ?t) _ ?w0] =>
        destruct (calm_report_info c m t w0) as ([] & w3 & E3 & T3 & S3)
    end.
    rewrite (bind_ret_eq _ _ _ _ _ E3).
    exists w3. split; [exact T3|]. split; [now rewrite S3|].
    reflexivity.
  - unfold error_report, json. rewrite Hbody.
    unfold py_get, py_get_default. rewrite !bind_ret_l.
    match goal with
    | |- context [report_error ?c ?m ?t ?w0] =>
        destruct (calm_report_error c m t w0) as ([] & w3 & E3 & T3 & S3)
    end.
    rewrite E3. exists w3. split; [exact T3|]. split; [now rewrite S3|].
    reflexivity.
Qed.

Lemma puts_app (a b : list request) : puts (a ++ b) = (puts a ++ puts b)%list.
Proof. apply filter_app. Qed.

(** [rename_zone] on a transport that answers with JSON objects: it
    returns, one PUT further. *)
Lemma rename_zone_answered (ctx : context) (d : list (string * pyval))
  (original_name new_name : pyval) (w : World) :
  is_zone d = true ->
  Forall (fun t => answers_object t = true) (tenant w) ->
  2 <= List.length (tenant w) ->
  exists w',
    ModifyZone.rename_zone ctx (PDict d) original_name new_name w = (Ret tt, w')
    /\ puts (sent w') = (puts (sent w) ++ [rename_request ctx d new_name])%list
    /\ Forall (fun t => answers_object t = true) (tenant w')
    /\ List.length (tenant w) <= List.length (tenant w') + 2.
Proof.
  intros Hz Hall Hlen.
  destruct (tenant w) as [|[p|] [|[g|] tl]] eqn:Ht; simpl in Hlen; try lia;
    inversion Hall as [|? ? Hp Hall']; subst; try discriminate;
    inversion Hall' as [|? ? Hg Hall'']; subst; try discriminate.
  destruct (rename_zone_reply ctx d original_name new_name w p (Reply g :: tl)
              Hz Ht Hp) as (w1 & T1 & S1 & E1).
  rewrite E1. destruct (ok p).
  - destruct (get_zone_object_reply ctx (field d "id") w1 g tl T1 Hg)
      as (w2 & E2 & T2 & S2).
    rewrite (bind_ret_eq _ _ _ _ _ E2). unfold sleep, tell.
    eexists. split; [reflexivity|]. simpl. rewrite T2. split.
    + change (sent (emit (Slept 1) w2)) with (sent w2).
      rewrite S2, S1, !puts_app. simpl. now rewrite app_nil_r.
    + split; [exact Hall''|]. lia.
  - exists w1. split; [reflexivity|]. rewrite T1. split.
    + rewrite S1, puts_app. reflexivity.
    + split; [exact Hall'|]. simpl. lia.
Qed.

Lemma is_zone_truthy (d : list (string * pyval)) :
  is_zone d = true -> truthy (PDict d) = true.
Proof. destruct d; [discriminate | reflexivity]. Qed.

Lemma run_check_configured (k : string) (o : module_option) (rest : options)
  (w : World) :
  truthy (value o) = true ->
  run_check ((k, o) :: rest) w = (Ret (Some false), w).
Proof.
  intros Hv. unfold run_check, check_module_options. rewrite Hv, andb_false_r.
  reflexivity.
Qed.

(** X13: whenever the transport answers, and answers with JSON objects,
    the PUTs of a run of [modify_zone] after a zone lookup that succeeded
    are the rename to "<name> TEMP_STRING" and then the rename back,
    whether or not the first was refused. *)
Lemma modify_zone_renames_and_reverts (ctx : context) (zone_id : pyval)
  (h : string) (w : World) (lookup : response) (d : list (string * pyval))
  (tl : list transport_result) :
  truthy zone_id = true ->
  tenant w = Reply lookup :: tl ->
  ok lookup = true -> body lookup = Some (PDict d) ->
  is_zone d = true -> dict_has d "name" = true ->
  Forall (fun t => answers_object t = true) tl ->
  4 <= List.length tl ->
  exists w',
    ModifyZone.execute ctx [("id", mkOption zone_id true h)] w = (Ret tt, w')
    /\ puts (sent w')
       = (puts (sent w)
          ++ [rename_request ctx d (PStr (py_str (field d "name") ++ " TEMP_STRING"));
              rename_request ctx d (field d "name")])%list.
Proof.
  intros Hid Ht Hok Hbody Hz Hname Hall Hlen.
  unfold ModifyZone.execute.
  rewrite (bind_ret_eq _ _ _ _ _ (run_check_configured "id" (mkOption zone_id true h) [] w Hid)).
  change (is_error (Some false)) with false. cbv iota. unfold option_value.
  change (dict_get [("id", mkOption zone_id true h)] "id")
    with (Some (mkOption zone_id true h)).
  cbv iota. rewrite bind_ret_l. simpl value.
  assert (Hl : answers_object (Reply lookup) = true) by (simpl; now rewrite Hbody).
  destruct (get_zone_object_reply ctx zone_id w lookup tl Ht Hl)
    as (w1 & E1 & T1 & S1).
  rewrite Hok, Hbody in E1. rewrite (bind_ret_eq _ _ _ _ _ E1).
  rewrite (is_zone_truthy d Hz).
  assert (En : py_item (PDict d) "name" = ret (field d "name")).
  { unfold py_item, field. unfold dict_has in Hname.
    destruct (dict_get d "name"); [reflexivity | discriminate]. }
  rewrite !En, !bind_ret_l.
  destruct (rename_zone_answered ctx d (field d "name")
              (PStr (py_str (field d "name") ++ " TEMP_STRING")) w1 Hz)
    as (w2 & E2 & P2 & A2 & L2); [now rewrite T1 | rewrite T1; lia |].
  rewrite (bind_ret_eq _ _ _ _ _ E2).
  destruct (rename_zone_answered ctx d
              (PStr (py_str (field d "name") ++ " TEMP_STRING"))
              (field d "name") w2 Hz A2)
    as (w3 & E3 & P3 & _ & _); [rewrite T1 in L2; lia|].
  exists w3. split; [exact E3|].
  rewrite P3, P2, S1, puts_app. simpl. rewrite app_nil_r.
  now rewrite <- app_assoc.
Qed.

(** X14: when the zone lookup is refused, [modify_zone]'s [execute]
    returns after that one request: no PUT is sent. *)
Lemma modify_zone_lookup_refused (ctx : context) (zone_id : pyval)
  (h : string) (w : World) (lookup : response) (tl : list transport_result) :
  truthy zone_id = true ->
  tenant w = Reply lookup :: tl -> is_failure lookup = true ->
  exists w',
    ModifyZone.execute ctx [("id", mkOption zone_id true h)] w = (Ret tt, w')
    /\ sent w' = (sent w ++ [zone_request ctx zone_id])%list
    /\ puts (sent w') = puts (sent w).
Proof.
  intros Hid Ht Hf. unfold is_failure in Hf. apply andb_prop in Hf as [Hok Hb].
  apply negb_true_iff in Hok.
  unfold ModifyZone.execute.
  rewrite (bind_ret_eq _ _ _ _ _ (run_check_configured "id" (mkOption zone_id true h) [] w Hid)).
  change (is_error (Some false)) with false. cbv iota. unfold option_value.
  change (dict_get [("id", mkOption zone_id true h)] "id")
    with (Some (mkOption zone_id true h)).
  cbv iota. rewrite bind_ret_l. simpl value.
  destruct (get_zone_object_reply ctx zone_id w lookup tl Ht Hb)
    as (w1 & E1 & T1 & S1).
  rewrite Hok in E1. rewrite (bind_ret_eq _ _ _ _ _ E1).
  exists w1. split; [reflexivity|]. split; [exact S1|].
  rewrite S1, puts_app. simpl. now rewrite app_nil_r.
Qed.

(** When the transport raises on the zone lookup, no PUT is sent either:
    the run ends on the AttributeError of [response.ok]. *)
Lemma modify_zone_lookup_broken (ctx : context) (zone_id : pyval)
  (h : string) (w : World) (tl : list transport_result) :
  truthy zone_id = true -> tenant w = Broken :: tl ->
  exists w',
    ModifyZone.execute ctx [("id", mkOption zone_id true h)] w
    = (Raise AttributeError, w')
    /\ puts (sent w') = puts (sent w).
Proof.
  intros Hid Ht. unfold ModifyZone.execute.
  rewrite (bind_ret_eq _ _ _ _ _ (run_check_configured "id" (mkOption zone_id true h) [] w Hid)).
  change (is_error (Some false)) with false. cbv iota. unfold option_value.
  change (dict_get [("id", mkOption zone_id true h)] "id")
    with (Some (mkOption zone_id true h)).
  cbv iota. rewrite bind_ret_l. simpl value.
  destruct (get_zone_object_broken ctx zone_id w tl Ht) as (w1 & E1 & T1 & S1).
  rewrite (bind_raise_eq _ _ _ _ _ E1).
  exists w1. split; [reflexivity|].
  rewrite S1, puts_app. simpl. now rewrite app_nil_r.
Qed.

(** When the transport raises on the first PUT, the second is never sent. *)
Lemma modify_zone_first_put_broken (ctx : context) (zone_id : pyval)
  (h : string) (w : World) (lookup : response) (d : list (string * pyval))
  (tl : list transport_result) :
  truthy zone_id = true ->
  tenant w = Reply lookup :: Broken :: tl ->
  ok lookup = true -> body lookup = Some (PDict d) ->
  is_zone d = true -> dict_has d "name" = true ->
  exists w',
    ModifyZone.execute ctx [("id", mkOption zone_id true h)] w
    = (Raise AttributeError, w')
    /\ tenant w' = tl
    /\ puts (sent w')
       = (puts (sent w)
          ++ [rename_request ctx d (PStr (py_str (field d "name") ++ " TEMP_STRING"))])%list.
Proof.
  intros Hid Ht Hok Hbody Hz Hname.
  unfold ModifyZone.execute.
  rewrite (bind_ret_eq _ _ _ _ _ (run_check_configured "id" (mkOption zone_id true h) [] w Hid)).
  change (is_error (Some false)) with false. cbv iota. unfold option_value.
  change (dict_get [("id", mkOption zone_id true h)] "id")
    with (Some (mkOption zone_id true h)).
  cbv iota. rewrite bind_ret_l. simpl value.
  assert (Hl : answers_object (Reply lookup) = true) by (simpl; now rewrite Hbody).
  destruct (get_zone_object_reply ctx zone_id w lookup (Broken :: tl) Ht Hl)
    as (w1 & E1 & T1 & S1).
  rewrite Hok, Hbody in E1. rewrite (bind_ret_eq _ _ _ _ _ E1).
  rewrite (is_zone_truthy d Hz).
  assert (En : py_item (PDict d) "name" = ret (field d "name")).
  { unfold py_item, field. unfold dict_has in Hname.
    destruct (dict_get d "name"); [reflexivity | discriminate]. }
  rewrite !En, !bind_ret_l.
  destruct (rename_zone_broken ctx d (field d "name")
              (PStr (py_str (field d "name") ++ " TEMP_STRING")) w1 tl Hz T1)
    as (w2 & E2 & T2 & S2).
  rewrite (bind_raise_eq _ _ _ _ _ E2).
  exists w2. split; [reflexivity|]. split; [exact T2|].
  rewrite S2, S1, !puts_app. simpl. now rewrite app_nil_r.
Qed.

(** C3, on the code: when the transport raises on the call of an
    operation, the [except] block logs, warns and leaves [response] at
    [None]; the next statement reads [response.ok] and the AttributeError it
    raises goes up to the caller.  So it is for [get_current_user],
    [get_user_object], [get_user_groups], [get_zone_object], the four
    harvests and [rename_zone]. *)
Theorem transport_exception_escapes (ctx : context)
  (tl : list transport_result) (said : list bool) (t : datetime)
  (past : list effect) (v ty zid original_name new_name : pyval)
  (more : list (string * pyval)) :
  let w := mkWorld (Broken :: tl) said t past in
  fst (get_current_user ctx w) = Raise AttributeError
  /\ fst (get_user_object ctx v w) = Raise AttributeError
  /\ fst (get_user_groups ctx v w) = Raise AttributeError
  /\ fst (get_zone_object ctx v w) = Raise AttributeError
  /\ (forall k, fst (list_of k ctx w) = Raise AttributeError)
  /\ fst (ModifyZone.rename_zone ctx
            (PDict (("type", ty) :: ("id", zid) :: more))
            original_name new_name w)
     = Raise AttributeError.
Proof.
  intros w.
  assert (Ht : tenant w = Broken :: tl) by reflexivity.
  split; [exact (get_current_user_broken ctx w tl Ht)|].
  split; [exact (get_user_object_broken ctx v w tl Ht)|].
  split; [exact (get_user_groups_broken ctx v w tl Ht)|].
  split.
  { destruct (get_zone_object_broken ctx v w tl Ht) as (w' & E & _).
    now rewrite E. }
  split; [intros k; exact (list_of_broken k ctx w tl Ht)|].
  destruct (rename_zone_broken ctx (("type", ty) :: ("id", zid) :: more)
              original_name new_name w tl eq_refl Ht) as (w' & E & _).
  now rewrite E.
Qed.

Example zone_options_set :
  module_set ModifyZone.MODULE_OPTIONS [("id", Some "z1")] = (zone_options, None).
Proof. reflexivity. Qed.

(** C4, on the code: with the zone "Zone A" found and a transport that
    raises on the first PUT, [execute] ends on the AttributeError that
    [rename_zone] lets out; the PUT to "Zone A TEMP_STRING" is the only one
    sent, and the two answers the tenant had left for the revert are never
    asked for. *)
Theorem modify_zone_first_put_timeout_skips_revert :
  let w := world0 [Reply zone_found; Broken; Reply zone_found; Reply zone_found] in
  fst (ModifyZone.execute ctx0 zone_options w) = Raise AttributeError
  /\ puts (sent (snd (ModifyZone.execute ctx0 zone_options w)))
     = [rename_request ctx0 zone_a (PStr "Zone A TEMP_STRING")]
  /\ tenant (snd (ModifyZone.execute ctx0 zone_options w))
     = [Reply zone_found; Reply zone_found].
Proof. vm_compute. repeat split. Qed.

(** The scenario of the rename and the revert, with a first PUT that is
    refused: both PUTs are sent. *)
Example modify_zone_refused_put_still_reverts :
  let w := world0 [Reply zone_found; Reply not_found; Reply zone_found;
                   Reply zone_found] in
  fst (ModifyZone.execute ctx0 zone_options w) = Ret tt
  /\ puts (sent (snd (ModifyZone.execute ctx0 zone_options w)))
     = [rename_request ctx0 zone_a (PStr "Zone A TEMP_STRING");
        rename_request ctx0 zone_a (PStr "Zone A")].
Proof. vm_compute. repeat split. Qed.

(** ** The sink is invisible to callers *)

Lemma alike_ret {A} (a : A) : alike (ret a) (ret a).
Proof. intros w1 w2 H. auto. Qed.

Lemma alike_raise {A} (e : exn) : alike (@raise A e) (raise e).
Proof. intros w1 w2 H. auto. Qed.

Lemma alike_bind {A B} (m1 m2 : M A) (k1 k2 : A -> M B) :
  alike m1 m2 -> (forall a, alike (k1 a) (k2 a)) ->
  alike (bind m1 k1) (bind m2 k2).
Proof.
  intros Hm Hk w1 w2 H. unfold bind. destruct (Hm w1 w2 H) as [Ho Hs].
  destruct (m1 w1) as [[a1|e1|] w1'], (m2 w2) as [[a2|e2|] w2'];
    simpl in *; try discriminate; try (split; [congruence | assumption]).
  injection Ho as <-. now apply Hk.
Qed.

Lemma alike_try_except {A} (m1 m2 : M A) (h1 h2 : exn -> M A) :
  alike m1 m2 -> (forall e, alike (h1 e) (h2 e)) ->
  alike (try_except m1 h1) (try_except m2 h2).
Proof.
  intros Hm Hh w1 w2 H. unfold try_except. destruct (Hm w1 w2 H) as [Ho Hs].
  destruct (m1 w1) as [[a1|e1|] w1'], (m2 w2) as [[a2|e2|] w2'];
    simpl in *; try discriminate; try (split; [congruence | assumption]).
  injection Ho as <-. now apply Hh.
Qed.

Lemma alike_tell (e : effect) : alike (tell e) (tell e).
Proof.
  intros w1 w2 (T & A & N & S). split; [reflexivity|].
  repeat split; simpl; auto. unfold sent in *. simpl.
  destruct e; auto. now rewrite S.
Qed.

Lemma alike_clock : alike clock clock.
Proof. intros w1 w2 (T & A & N & S). unfold clock. simpl. rewrite N. repeat split; auto. Qed.

Lemma alike_confirm (prompt : string) : alike (confirm prompt) (confirm prompt).
Proof.
  intros w1 w2 (T & A & N & S). unfold confirm, same_session, sent, emit in *.
  rewrite A. destruct (answers w2) eqn:E; simpl; rewrite ?E; repeat split; auto.
Qed.

Lemma alike_send (r : request) : alike (send r) (send r).
Proof.
  intros w1 w2 (T & A & N & S). unfold send, same_session, sent in *.
  rewrite T. destruct (tenant w2) as [|[resp|] rest] eqn:E; simpl;
    rewrite ?E, ?S; repeat split; auto.
Qed.

(** Whatever the two sinks are and do. *)
Lemma alike_index_event (es1 es2 : option es_client)
  (module event_type : string) (event : text) :
  alike (index_event es1 module event_type event)
        (index_event es2 module event_type event).
Proof.
  intros w1 w2 (T & A & N & S).
  destruct (index_event_returns es1 module event_type event w1)
    as (w1' & E1 & T1 & A1 & N1 & S1).
  destruct (index_event_returns es2 module event_type event w2)
    as (w2' & E2 & T2 & A2 & N2 & S2).
  rewrite E1, E2. simpl. split; [reflexivity|]. repeat split; congruence.
Qed.

Lemma alike_for_each {A} (xs : list A) (f1 f2 : A -> M unit) :
  (forall x, alike (f1 x) (f2 x)) -> alike (for_each xs f1) (for_each xs f2).
Proof.
  intros H. induction xs; simpl; [apply alike_ret|].
  apply alike_bind; auto.
Qed.

Ltac alike_step :=
  first
    [ apply alike_ret
    | apply alike_raise
    | apply alike_index_event
    | apply alike_tell
    | apply alike_clock
    | apply alike_confirm
    | apply alike_send
    | apply alike_for_each; intros ?
    | apply alike_try_except; [|intros ?]
    | apply alike_bind; [|intros ?]
    | match goal with
      | |- alike (match ?x with _ => _ end) _ => destruct x
      | |- alike (if ?b then _ else _) _ => destruct b
      | |- alike (let (_, _) := ?x in _) _ => destruct x
      end ].

Ltac alike_run := repeat alike_step.

Section Sink.
Variable ctx : context.
Variable es' : option es_client.

Lemma alike_report_info (module : string) (msg : text) :
  alike (report_info ctx module msg) (report_info (with_sink ctx es') module msg).
Proof. unfold report_info, logger_info, echo. alike_run. Qed.

Lemma alike_report_error (module : string) (msg : text) :
  alike (report_error ctx module msg) (report_error (with_sink ctx es') module msg).
Proof. unfold report_error, logger_error, echo. alike_run. Qed.

Lemma alike_transport_failed (module : string) (e : exn) (indexed : text) :
  alike (transport_failed ctx module e indexed)
        (transport_failed (with_sink ctx es') module e indexed).
Proof. unfold transport_failed, logger_error, echo. alike_run. Qed.

Lemma alike_error_report (what : text) (r : response) :
  alike (error_report what r) (error_report what r).
Proof.
  unfold error_report, json, py_get, py_get_default. alike_run.
Qed.

Lemma alike_print_zone_object (zone : pyval) :
  alike (print_zone_object zone) (print_zone_object zone).
Proof.
  unfold print_zone_object, py_get, py_get_default, echo. alike_run.
Qed.

Lemma alike_get_zone_object (zone_id : pyval) :
  alike (get_zone_object ctx zone_id) (get_zone_object (with_sink ctx es') zone_id).
Proof.
  unfold get_zone_object, session_get, deref, json.
  repeat first
    [ apply alike_report_info | apply alike_report_error
    | apply alike_transport_failed | apply alike_error_report
    | apply alike_print_zone_object | alike_step ].
Qed.

Lemma alike_rename_zone (zone original_name new_name : pyval) :
  alike (ModifyZone.rename_zone ctx zone original_name new_name)
        (ModifyZone.rename_zone (with_sink ctx es') zone original_name new_name).
Proof.
  unfold ModifyZone.rename_zone, session_put, deref, py_item, py_get,
    py_get_default, sleep.
  repeat first
    [ apply alike_report_info | apply alike_report_error
    | apply alike_transport_failed | apply alike_error_report
    | apply alike_get_zone_object | alike_step ].
Qed.

(** X24: the whole of [modify_zone]'s [execute] comes to the same result,
    with the same requests sent, whether the sink takes the events, refuses
    them, or is not there. *)
Lemma alike_modify_zone_execute (module_options : options) :
  alike (ModifyZone.execute ctx module_options)
        (ModifyZone.execute (with_sink ctx es') module_options).
Proof.
  unfold ModifyZone.execute, run_check, option_value, py_item, echo.
  repeat first [ apply alike_get_zone_object | apply alike_rename_zone | alike_step ].
Qed.

Lemma alike_harvest_pages (noun : string) (fuel : nat) :
  forall (u : text) (harvested : list pyval),
    alike (harvest_pages fuel ctx noun u harvested)
          (harvest_pages fuel (with_sink ctx es') noun u harvested).
Proof.
  induction fuel as [|fuel IH]; intros u harvested.
  - intros w1 w2 H. simpl. auto.
  - simpl. unfold harvest_pass, session_get, deref, json, py_len, py_iter,
      sleep, echo.
    repeat first
      [ apply IH | apply alike_report_info | apply alike_report_error
      | apply alike_transport_failed | apply alike_error_report | alike_step ].
Qed.

Lemma alike_harvest (noun path : string) :
  alike (harvest ctx noun path) (harvest (with_sink ctx es') noun path).
Proof.
  intros w1 w2 H. unfold harvest. destruct H as (T & H). rewrite T.
  apply alike_harvest_pages. split; assumption.
Qed.

Lemma alike_print_app_object (app : pyval) :
  alike (print_app_object app) (print_app_object app).
Proof.
  unfold print_app_object, py_get, py_get_default, echo. alike_run.
Qed.

Lemma alike_print_user_info (user : pyval) :
  alike (print_user_info user) (print_user_info user).
Proof.
  unfold print_user_info, py_get, py_get_default, py_item, echo. alike_run.
Qed.

Lemma alike_print_group (group : pyval) :
  alike (print_group group) (print_group group).
Proof.
  unfold print_group, py_get, py_get_default, py_item, echo. alike_run.
Qed.

Lemma alike_write_json_file (file_name : string) (results : list pyval) :
  alike (write_json_file file_name results) (write_json_file file_name results).
Proof. unfold write_json_file, echo. alike_run. Qed.

(** X23: each harvest comes to the same result, with the same requests
    sent and the same prompts answered, whatever the sink is and does. *)
Lemma alike_list_of (k : harvest_kind) :
  alike (list_of k ctx) (list_of k (with_sink ctx es')).
Proof.
  destruct k; simpl;
    unfold list_users, list_groups, list_zones, list_apps, report_total,
      print_group_information;
    repeat first
      [ apply alike_harvest | apply alike_report_info
      | apply alike_write_json_file | apply alike_print_user_info
      | apply alike_print_group | apply alike_print_zone_object
      | apply alike_print_app_object | alike_step ].
Qed.

End Sink.

(** A refusal whose body is not JSON ends the run as well: the error branch
    of [rename_zone] calls [response.json()], which raises. *)
Example modify_zone_unreadable_refusal_skips_revert :
  let bad_gateway := mkResponse false 502 "Bad Gateway" None [] in
  let w := world0 [Reply zone_found; Reply bad_gateway; Reply zone_found;
                   Reply zone_found] in
  fst (ModifyZone.execute ctx0 zone_options w) = Raise JSONDecodeError
  /\ puts (sent (snd (ModifyZone.execute ctx0 zone_options w)))
     = [rename_request ctx0 zone_a (PStr "Zone A TEMP_STRING")].
Proof. vm_compute. repeat split. Qed.

(** * Further properties *)

(** ** Option Store *)

Lemma set_module_options_app (a b : list (string * option string)) :
  forall m : options,
    set_module_options m (a ++ b)
    = match set_module_options m a with
      | (m1, None) => set_module_options m1 b
      | (m1, Some e) => (m1, Some e)
      end.
Proof.
  induction a as [|[k v] a IH]; intros m; simpl; [reflexivity|].
  destruct (set_one m k v) as [m1 [e|]]; [reflexivity | apply IH].
Qed.

Lemma dict_has_update {V} (d : list (string * V)) (k k' : string) (f : V -> V) :
  dict_has (dict_update d k f) k' = dict_has d k'.
Proof.
  unfold dict_has. rewrite dict_get_update.
  destruct (String.eqb_spec k k') as [->|]; [|reflexivity].
  now destruct (dict_get d k').
Qed.

Lemma set_one_keys (m : options) (k : string) (v : option string) :
  dict_keys (fst (set_one m k v)) = dict_keys m.
Proof.
  unfold set_one, assign_value.
  destruct (String.eqb k "group_ids" && given v);
    [|destruct (given v)]; try reflexivity;
    destruct (dict_has m k); simpl; auto using dict_keys_update.
Qed.

(** Whatever [set_module_options] does, and however it ends, the store
    keeps its keys in their order. *)
Lemma set_module_options_keys (new_options : list (string * option string)) :
  forall m : options,
    dict_keys (fst (set_module_options m new_options)) = dict_keys m.
Proof.
  induction new_options as [|[k v] rest IH]; intros m; simpl; [reflexivity|].
  pose proof (set_one_keys m k v) as H.
  destruct (set_one m k v) as [m1 [e|]]; simpl in *; [exact H|].
  now rewrite IH.
Qed.

Lemma dict_has_same_keys {V W} (d : list (string * V)) (d' : list (string * W))
  (k : string) :
  dict_keys d' = dict_keys d -> dict_has d' k = dict_has d k.
Proof.
  unfold dict_has, dict_keys. revert d'.
  induction d as [|[k0 v0] r IH]; intros [|[k1 v1] r'] E; simpl in *;
    try discriminate; auto.
  injection E as -> E. destruct (String.eqb k0 k); auto.
Qed.

(** X1: an item that names an option the store does not have makes
    [set_module_options] raise KeyError there: the items before it are
    stored, the items after it are not looked at. *)
Theorem set_module_options_unknown_key
  (m : options) (before after_it : list (string * option string))
  (k v : string) (m1 : options)
  (Hbefore : set_module_options m before = (m1, None))
  (Hunknown : dict_has m k = false)
  (Hv : v <> "") :
  set_module_options m (before ++ (k, Some v) :: after_it) = (m1, Some KeyError).
Proof.
  rewrite set_module_options_app, Hbefore. simpl.
  assert (Hk : dict_has m1 k = false).
  { rewrite <- Hunknown. apply dict_has_same_keys.
    pose proof (set_module_options_keys before m) as K.
    now rewrite Hbefore in K. }
  unfold set_one, assign_value. rewrite Hk.
  assert (Hg : given (Some v) = true).
  { simpl. destruct (String.eqb_spec v ""); [contradiction | reflexivity]. }
  rewrite Hg. now destruct (String.eqb k "group_ids").
Qed.

Lemma set_module_options_unknown_key_witness :
  let m := [("id", mkOption PNone true "The unique ID for the user")] in
  set_module_options m [("id", Some "00u1")]
  = ([("id", mkOption (PStr "00u1") true "The unique ID for the user")], None)
  /\ dict_has m "login" = false
  /\ "jane" <> ""
  /\ set_module_options m
       ([("id", Some "00u1")] ++ ("login", Some "jane") :: [("id", Some "00u2")])
     = ([("id", mkOption (PStr "00u1") true "The unique ID for the user")],
        Some KeyError).
Proof.
  cbv zeta. split; [reflexivity|]. split; [reflexivity|].
  split; [discriminate|].
  apply (set_module_options_unknown_key
           [("id", mkOption PNone true "The unique ID for the user")]
           [("id", Some "00u1")] [("id", Some "00u2")] "login" "jane");
    [reflexivity | reflexivity | discriminate].
Defined.

Lemma reset_update (m : options) (k : string) (v : pyval) :
  reset_module_options (dict_update m k (with_value v)) = reset_module_options m.
Proof.
  unfold reset_module_options. induction m as [|[k0 o] r IH]; simpl; [reflexivity|].
  destruct (String.eqb k0 k); simpl; [reflexivity | now rewrite IH].
Qed.

Lemma reset_set_one (m : options) (k : string) (v : option string) :
  reset_module_options (fst (set_one m k v)) = reset_module_options m.
Proof.
  unfold set_one, assign_value.
  destruct (String.eqb k "group_ids" && given v);
    [|destruct (given v)]; try reflexivity;
    destruct (dict_has m k); simpl; auto using reset_update.
Qed.

(** X2: [reset] forgets whatever [set] did: resetting after any [set], even
    one that ended in KeyError, gives the store that resetting at once would
    have given. *)
Theorem reset_after_set (new_options : list (string * option string)) :
  forall m : options,
    reset_module_options (fst (set_module_options m new_options))
    = reset_module_options m.
Proof.
  induction new_options as [|[k v] rest IH]; intros m; simpl; [reflexivity|].
  pose proof (reset_set_one m k v) as H.
  destruct (set_one m k v) as [m1 [e|]]; simpl in *; [exact H|].
  now rewrite IH.
Qed.

Lemma dict_get_reset (m : options) (k : string) :
  dict_get (reset_module_options m) k
  = option_map (with_value PNone) (dict_get m k).
Proof.
  unfold reset_module_options. induction m as [|[k0 o] r IH]; simpl; [reflexivity|].
  destruct (String.eqb k0 k); [reflexivity | exact IH].
Qed.

(** X3: [reset_module_options] keeps the options and their order, sets every
    value to [None] and leaves [required] and [help] alone; doing it twice
    is doing it once; and [check_module_options] on the store it returns
    reports a Fault exactly when the first option is required, whatever
    the options behind it are. *)
Theorem reset_clears_values_only (m : options) :
  dict_keys (reset_module_options m) = dict_keys m
  /\ (forall k, dict_get (reset_module_options m) k
                = option_map (fun o => mkOption PNone (required o) (help o))
                    (dict_get m k))
  /\ reset_module_options (reset_module_options m) = reset_module_options m
  /\ check_module_options (reset_module_options m)
     = match m with
       | [] => ([], None)
       | (k, o) :: _ =>
           if required o then ([missing_message k], Some true)
           else ([], Some false)
       end.
Proof.
  split; [|split; [|split]].
  - unfold reset_module_options, dict_keys. rewrite map_map. reflexivity.
  - intros k. apply dict_get_reset.
  - unfold reset_module_options. rewrite map_map. reflexivity.
  - destruct m as [|[k o] r]; [reflexivity|]. simpl.
    now destruct (required o).
Qed.

Lemma dict_ext {V} (a b : list (string * V)) :
  dict_keys a = dict_keys b -> NoDup (dict_keys a) ->
  (forall k, dict_get a k = dict_get b k) -> a = b.
Proof.
  revert b. induction a as [|[k v] r IH]; intros [|[k' v'] r'] K N G;
    simpl in *; try discriminate; [reflexivity|].
  injection K as <- K. inversion N as [|? ? Hk N']; subst.
  pose proof (G k) as Gk. simpl in Gk. rewrite String.eqb_refl in Gk.
  injection Gk as <-. f_equal. apply IH; [exact K | exact N' |].
  intros k0. pose proof (G k0) as G0. simpl in G0.
  destruct (String.eqb_spec k k0) as [Heq|]; [subst k0 | exact G0].
  rewrite (dict_get_None r k Hk).
  symmetry. apply dict_get_None. unfold dict_keys in *. now rewrite <- K.
Qed.

Lemma after_set_twice (new_options : list (string * option string)) (k : string)
  (o : module_option) :
  after_set new_options k (after_set new_options k o) = after_set new_options k o.
Proof.
  unfold after_set. destruct (dict_get new_options k) as [v|]; [|reflexivity].
  now destruct (given v).
Qed.

(** X4: [set_module_options] is idempotent: on a store with each key once,
    called again with the same keyword arguments, it returns the store the
    first call returned. *)
Theorem set_module_options_twice
  (m m' : options) (new_options : list (string * option string))
  (Hstore : NoDup (dict_keys m))
  (Hdict : NoDup (dict_keys new_options))
  (Hdeclared : forall k, In k (dict_keys new_options) -> dict_has m k = true)
  (Hfirst : set_module_options m new_options = (m', None)) :
  set_module_options m' new_options = (m', None).
Proof.
  destruct (set_module_options_present new_options m Hdict Hdeclared)
    as [m1 [E1 [K1 G1]]].
  rewrite Hfirst in E1. injection E1 as <-.
  destruct (set_module_options_present new_options m' Hdict)
    as [m2 [E2 [K2 G2]]].
  { intros k Hk. rewrite (dict_has_same_keys m m' k K1). now apply Hdeclared. }
  rewrite E2. f_equal. apply dict_ext; [exact K2 | congruence |].
  intros k. rewrite G2, G1. destruct (dict_get m k); simpl; [|reflexivity].
  now rewrite after_set_twice.
Qed.

Lemma set_module_options_twice_witness :
  let m := [("id", mkOption PNone true "The unique ID for the user");
            ("group_ids", mkOption PNone false "The groups")] in
  let m' := [("id", mkOption (PStr "00u1") true "The unique ID for the user");
             ("group_ids", mkOption (PList [PStr "a"; PStr " b"]) false "The groups")] in
  let new_options := [("id", Some " 00u1 "); ("group_ids", Some "a, b ")] in
  NoDup (dict_keys m) /\ NoDup (dict_keys new_options)
  /\ set_module_options m new_options = (m', None)
  /\ set_module_options m' new_options = (m', None).
Proof.
  cbv zeta.
  assert (Hs : NoDup (dict_keys [("id", mkOption PNone true "The unique ID for the user");
                                 ("group_ids", mkOption PNone false "The groups")])).
  { repeat constructor; simpl; intuition discriminate. }
  assert (Hd : NoDup (dict_keys [("id", Some " 00u1 "); ("group_ids", Some "a, b ")])).
  { repeat constructor; simpl; intuition discriminate. }
  split; [exact Hs|]. split; [exact Hd|]. split; [reflexivity|].
  apply (set_module_options_twice
           [("id", mkOption PNone true "The unique ID for the user");
            ("group_ids", mkOption PNone false "The groups")]
           _ [("id", Some " 00u1 "); ("group_ids", Some "a, b ")] Hs Hd);
    [|reflexivity].
  simpl. intros k [<-|[<-|[]]]; reflexivity.
Defined.

Lemma lstrip_all_space (s : string) : all_space s = true -> lstrip s = "".
Proof.
  induction s as [|c r IH]; simpl; [reflexivity|].
  intros H. apply andb_prop in H as [Hc Hr]. rewrite Hc. auto.
Qed.

Lemma strip_all_space (s : string) : all_space s = true -> strip s = "".
Proof. intros H. unfold strip. now rewrite (lstrip_all_space s H). Qed.

Lemma first_option_after_set (k : string) (o : module_option) (more m' : options)
  (o' : module_option) :
  dict_keys m' = dict_keys ((k, o) :: more) ->
  dict_get m' k = Some o' ->
  exists more', m' = (k, o') :: more'.
Proof.
  destruct m' as [|[k1 o1] more']; simpl; [discriminate|].
  intros K G. injection K as -> _. rewrite String.eqb_refl in G.
  injection G as ->. eauto.
Qed.

(** X5: an input of whitespace only is an input: for an option other than
    [group_ids] it is stored as the empty string, over the value that was
    there, and when that option is the store's first and required,
    [check_module_options] then reports it missing. *)
Theorem set_blank_input_clears
  (k v : string) (o : module_option) (more : options)
  (new_options : list (string * option string))
  (Hdict : NoDup (dict_keys new_options))
  (Hdeclared : forall k', In k' (dict_keys new_options) ->
                          dict_has ((k, o) :: more) k' = true)
  (Hk : k <> "group_ids")
  (Hrequired : required o = true)
  (Hgiven : dict_get new_options k = Some (Some v))
  (Hv : v <> "")
  (Hblank : all_space v = true) :
  exists m',
    set_module_options ((k, o) :: more) new_options = (m', None)
    /\ option_map value (dict_get m' k) = Some (PStr "")
    /\ check_module_options m' = ([missing_message k], Some true).
Proof.
  destruct (set_module_options_present new_options ((k, o) :: more) Hdict Hdeclared)
    as [m' [E [K G]]].
  exists m'. split; [exact E|].
  assert (Gk : dict_get m' k = Some (with_value (PStr "") o)).
  { rewrite G. simpl. rewrite String.eqb_refl. simpl.
    unfold after_set, stored. rewrite Hgiven. simpl.
    destruct (String.eqb_spec v ""); [contradiction|]. simpl.
    destruct (String.eqb_spec k "group_ids"); [contradiction|].
    now rewrite (strip_all_space v Hblank). }
  split; [now rewrite Gk|].
  destruct (first_option_after_set k o more m' _ K Gk) as [more' ->].
  simpl. now rewrite Hrequired.
Qed.

Lemma set_blank_input_clears_witness :
  let o := mkOption (PStr "00u1") true "The unique ID for the user" in
  let new_options := [("id", Some "   ")] in
  NoDup (dict_keys new_options)
  /\ "id" <> "group_ids" /\ "   " <> "" /\ all_space "   " = true
  /\ exists m',
      set_module_options [("id", o)] new_options = (m', None)
      /\ option_map value (dict_get m' "id") = Some (PStr "")
      /\ check_module_options m' = ([missing_message "id"], Some true).
Proof.
  cbv zeta.
  assert (Hd : NoDup (dict_keys [("id", Some "   ")])).
  { repeat constructor; simpl; intuition discriminate. }
  split; [exact Hd|]. split; [discriminate|]. split; [discriminate|].
  split; [reflexivity|].
  apply (set_blank_input_clears "id" "   "
           (mkOption (PStr "00u1") true "The unique ID for the user") []
           [("id", Some "   ")] Hd);
    try reflexivity; try discriminate.
  simpl. intros k' [<-|[]]. reflexivity.
Defined.

(** X6: for [group_ids] every non-empty input, be it blanks or a lone
    comma, is stored as a list with at least one field, which Python takes
    as set: when [group_ids] is the store's first option,
    [check_module_options] passes after such a [set]. *)
Theorem set_group_ids_never_empty
  (v : string) (o : module_option) (more : options)
  (new_options : list (string * option string))
  (Hdict : NoDup (dict_keys new_options))
  (Hdeclared : forall k', In k' (dict_keys new_options) ->
                          dict_has (("group_ids", o) :: more) k' = true)
  (Hgiven : dict_get new_options "group_ids" = Some (Some v))
  (Hv : v <> "") :
  exists m' f fs,
    set_module_options (("group_ids", o) :: more) new_options = (m', None)
    /\ option_map value (dict_get m' "group_ids")
       = Some (PList (PStr f :: map PStr fs))
    /\ check_module_options m' = ([], Some false).
Proof.
  destruct (set_module_options_present new_options (("group_ids", o) :: more)
              Hdict Hdeclared) as [m' [E [K G]]].
  destruct (split_comma_nonempty (strip v)) as [f [fs Ef]].
  exists m', f, fs. split; [exact E|].
  assert (Gk : dict_get m' "group_ids"
               = Some (with_value (PList (PStr f :: map PStr fs)) o)).
  { rewrite G. simpl. unfold after_set, stored. rewrite Hgiven. simpl.
    destruct (String.eqb_spec v ""); [contradiction|]. simpl.
    now rewrite Ef. }
  split; [now rewrite Gk|].
  destruct (first_option_after_set "group_ids" o more m' _ K Gk) as [more' ->].
  simpl. now rewrite andb_false_r.
Qed.

Lemma set_group_ids_never_empty_witness :
  let o := mkOption PNone true "The groups" in
  let new_options := [("group_ids", Some " ")] in
  NoDup (dict_keys new_options) /\ " " <> ""
  /\ exists m' f fs,
      set_module_options [("group_ids", o)] new_options = (m', None)
      /\ option_map value (dict_get m' "group_ids")
         = Some (PList (PStr f :: map PStr fs))
      /\ check_module_options m' = ([], Some false).
Proof.
  cbv zeta.
  assert (Hd : NoDup (dict_keys [("group_ids", Some " ")])).
  { repeat constructor; simpl; intuition discriminate. }
  split; [exact Hd|]. split; [discriminate|].
  apply (set_group_ids_never_empty " " (mkOption PNone true "The groups") []
           [("group_ids", Some " ")] Hd);
    try reflexivity; try discriminate.
  simpl. intros k' [<-|[]]. reflexivity.
Defined.

(** ** What a run leaves alone *)

Lemma keeps_ret {X A} (proj : World -> X) (a : A) : keeps proj (ret a).
Proof. intros w. reflexivity. Qed.

Lemma keeps_raise {X A} (proj : World -> X) (e : exn) : keeps proj (@raise A e).
Proof. intros w. reflexivity. Qed.

Lemma keeps_bind {X A B} (proj : World -> X) (m : M A) (k : A -> M B) :
  keeps proj m -> (forall a, keeps proj (k a)) -> keeps proj (bind m k).
Proof.
  intros Hm Hk w. unfold bind. specialize (Hm w).
  destruct (m w) as [[a|e|] w1]; simpl in *; [|exact Hm|exact Hm].
  now rewrite Hk.
Qed.

Lemma keeps_try_except {X A} (proj : World -> X) (m : M A) (h : exn -> M A) :
  keeps proj m -> (forall e, keeps proj (h e)) -> keeps proj (try_except m h).
Proof.
  intros Hm Hh w. unfold try_except. specialize (Hm w).
  destruct (m w) as [[a|e|] w1]; simpl in *; [exact Hm| |exact Hm].
  now rewrite Hh.
Qed.

Lemma keeps_tell {X} (proj : World -> X) (e : effect) :
  blind proj -> is_report e = true -> keeps proj (tell e).
Proof. intros Hb He w. simpl. now apply Hb. Qed.

Lemma keeps_clock {X} (proj : World -> X) : keeps proj clock.
Proof. intros w. reflexivity. Qed.

Lemma keeps_confirm {X} (proj : World -> X) (prompt : string) :
  deaf proj -> keeps proj (confirm prompt).
Proof.
  intros Hd w. unfold confirm. destruct (answers w) as [|a rest] eqn:E; simpl.
  - unfold emit. apply Hd.
  - apply Hd.
Qed.

Lemma keeps_send {X} (proj : World -> X) (r : request) :
  offline proj -> keeps proj (send r).
Proof.
  intros Ho w. unfold send. destruct (tenant w) as [|[resp|] rest]; simpl;
    [reflexivity | apply Ho | apply Ho].
Qed.

Lemma keeps_for_each {X A} (proj : World -> X) (xs : list A) (f : A -> M unit) :
  (forall x, keeps proj (f x)) -> keeps proj (for_each xs f).
Proof.
  intros H. induction xs; simpl; [apply keeps_ret|].
  apply keeps_bind; auto.
Qed.

Lemma keeps_index_event {X} (proj : World -> X) (es : option es_client)
  (module event_type : string) (event : text) :
  blind proj -> keeps proj (index_event es module event_type event).
Proof.
  intros Hb w. unfold index_event, bind, clock, try_except, es_index.
  destruct es as [client|]; [|reflexivity].
  destruct (client _) as [e|]; simpl.
  - rewrite !Hb by reflexivity. reflexivity.
  - now rewrite Hb.
Qed.

Lemma blind_sent : blind sent.
Proof. intros e w He. unfold sent. simpl. now destruct e. Qed.

Lemma blind_tenant : blind tenant.
Proof. intros e w He. reflexivity. Qed.

Lemma blind_answers : blind answers.
Proof. intros e w He. reflexivity. Qed.

Lemma blind_written : blind written.
Proof. intros e w He. unfold written. simpl. now destruct e. Qed.

Lemma deaf_sent : deaf sent.
Proof. intros w prompt a rest. reflexivity. Qed.

Lemma deaf_tenant : deaf tenant.
Proof. intros w prompt a rest. reflexivity. Qed.

Lemma deaf_written : deaf written.
Proof. intros w prompt a rest. reflexivity. Qed.

Lemma offline_answers : offline answers.
Proof. intros w r rest. reflexivity. Qed.

Lemma offline_written : offline written.
Proof. intros w r rest. reflexivity. Qed.

Create HintDb keeps.
#[export] Hint Resolve blind_sent blind_tenant blind_answers blind_written
  deaf_sent deaf_tenant deaf_written offline_answers offline_written : keeps.

Ltac keeps_step :=
  first
    [ assumption
    | apply keeps_ret
    | apply keeps_raise
    | apply keeps_clock
    | apply keeps_index_event; solve [auto with keeps]
    | apply keeps_tell; [solve [auto with keeps] | reflexivity]
    | apply keeps_confirm; solve [auto with keeps]
    | apply keeps_send; solve [auto with keeps]
    | apply keeps_for_each; intros ?
    | apply keeps_try_except; [|intros ?]
    | apply keeps_bind; [|intros ?]
    | match goal with
      | |- keeps _ (match ?x with _ => _ end) => destruct x
      | |- keeps _ (if ?b then _ else _) => destruct b
      | |- keeps _ (let (_, _) := ?x in _) => destruct x
      end ].

Ltac keeps_run := repeat keeps_step.

Ltac unfold_helpers :=
  unfold report_info, report_error, transport_failed, error_report,
    print_user_info, print_group_information, print_group, print_app_object,
    print_zone_object, print_role_info, print_role, print_policy_rule,
    write_json_file, report_total, json, deref, py_get, py_get_default,
    py_item, py_len, py_iter, logger_info, logger_error, echo, sleep,
    session_get, session_put.

Section Views.
Context {X : Type}.
Variable proj : World -> X.
Hypothesis proj_blind : blind proj.

Lemma keeps_report_info (ctx : context) (module : string) (msg : text) :
  keeps proj (report_info ctx module msg).
Proof. unfold_helpers. keeps_run. Qed.

Lemma keeps_report_error (ctx : context) (module : string) (msg : text) :
  keeps proj (report_error ctx module msg).
Proof. unfold_helpers. keeps_run. Qed.

Lemma keeps_transport_failed (ctx : context) (module : string) (e : exn)
  (indexed : text) : keeps proj (transport_failed ctx module e indexed).
Proof. unfold_helpers. keeps_run. Qed.

Lemma keeps_error_report (what : text) (r : response) :
  keeps proj (error_report what r).
Proof. unfold_helpers. keeps_run. Qed.

(** The presenters print and do nothing else. *)
Lemma keeps_presenters (v v' : pyval) (object_type : string) :
  keeps proj (print_user_info v)
  /\ keeps proj (print_group v)
  /\ keeps proj (print_app_object v)
  /\ keeps proj (print_zone_object v)
  /\ keeps proj (print_policy_rule v)
  /\ keeps proj (print_role_info v v' object_type).
Proof. repeat split; unfold_helpers; keeps_run. Qed.

End Views.

(** ** One request for each helper *)

Lemma bind_calm {A B} (m : M A) (k : A -> M B) (w : World)
  (P : outcome B * World -> Prop) :
  calm m ->
  (forall a w1, tenant w1 = tenant w -> sent w1 = sent w -> P (k a w1)) ->
  P (bind m k w).
Proof.
  intros Hm Hk. destruct (Hm w) as (a & w1 & E & T & S).
  rewrite (bind_ret_eq _ _ _ _ _ E). now apply Hk.
Qed.

Lemma fetch_reply_any (ctx : context) (module : string) (u : text)
  (indexed : exn -> text) (w : World) (r : response)
  (tl : list transport_result) :
  tenant w = Reply r :: tl ->
  try_except (r <- session_get ctx u ;; ret (Some r))
    (fun e => transport_failed ctx module e (indexed e)) w
  = (Ret (Some r),
     mkWorld tl (answers w) (now w) (Sent (get_request ctx u) :: trace w)).
Proof.
  intros Ht. unfold try_except, bind, session_get, send. now rewrite Ht.
Qed.

(** A fetch, then code that leaves the session alone: one request. *)
Lemma one_fetch {B} (ctx : context) (module : string) (u : text)
  (indexed : exn -> text) (k : option response -> M B) (w0 w1 : World)
  (x : transport_result) (tl : list transport_result) :
  tenant w1 = x :: tl -> sent w1 = sent w0 ->
  (forall a, keeps sent (k a)) -> (forall a, keeps tenant (k a)) ->
  sends_only
    (bind (try_except (r <- session_get ctx u ;; ret (Some r))
             (fun e => transport_failed ctx module e (indexed e))) k w1)
    w0 [get_request ctx u] tl.
Proof.
  intros Ht Hs Ks Kt. unfold sends_only. destruct x as [r|].
  - rewrite (bind_ret_eq _ _ _ _ _ (fetch_reply_any ctx module u indexed w1 r tl Ht)).
    rewrite Ks, Kt. unfold sent in *. simpl. now rewrite Hs.
  - destruct (fetch_broken ctx module u indexed w1 tl Ht) as (w2 & E & T & S).
    rewrite (bind_ret_eq _ _ _ _ _ E). rewrite Ks, Kt. now rewrite S, Hs.
Qed.

Ltac one_request :=
  repeat
    match goal with
    | Hx : tenant _ = ?x :: ?tl
      |- sends_only (bind (try_except _ _) _ _) _ _ ?tl =>
        apply one_fetch with (x := x);
        [ congruence | congruence
        | intros ?; unfold_helpers; keeps_run
        | intros ?; unfold_helpers; keeps_run ]
    | |- sends_only (bind ?m ?k ?w1) ?w0 ?rs ?tl =>
        apply (bind_calm m k w1 (fun run => sends_only run w0 rs tl));
        [ calm_steps; now apply calm_tell
        | let T := fresh "T" in let S := fresh "S" in
          intros ? ? T S; simpl in T ]
    end.

(** X7: whatever the transport does with the call (an answer of any
    status and body, or an exception) and however the helper then ends,
    each helper of core.py that reads one object has by then sent one
    request and no more: a GET to its endpoint, with the SSWS authorization
    header; nothing is retried and nothing else is asked of the tenant. *)
Theorem helpers_send_one_request (ctx : context) (x : transport_result)
  (tl : list transport_result) (said : list bool) (t : datetime)
  (past : list effect) (a b : pyval) (mute : bool) :
  let w := mkWorld (x :: tl) said t past in
  let to (u : text) := [get_request ctx u] in
  sends_only (get_current_user ctx w) w
    (to [Lit (base_url ctx ++ "/users/me")]) tl
  /\ sends_only (get_user_object ctx a w) w
       (to [Lit (base_url ctx ++ "/users/"); Fmt a]) tl
  /\ sends_only (get_user_groups ctx a w) w
       (to [Lit (base_url ctx ++ "/users/"); Fmt a; Lit "/groups"]) tl
  /\ sends_only (get_zone_object ctx a w) w
       (to [Lit (base_url ctx ++ "/zones/"); Fmt a]) tl
  /\ sends_only (get_app_object ctx a w) w
       (to [Lit (base_url ctx ++ "/apps/"); Fmt a]) tl
  /\ sends_only (get_policy_rule ctx a b w) w
       (to [Lit (base_url ctx ++ "/policies/"); Fmt a; Lit "/rules/"; Fmt b]) tl
  /\ sends_only (list_enrolled_factors ctx a mute w) w
       (to [Lit (base_url ctx ++ "/users/"); Fmt a; Lit "/factors"]) tl
  /\ sends_only (list_assigned_roles ctx a "user" mute w) w
       (to [Lit (base_url ctx ++ "/users/"); Fmt a; Lit "/roles"]) tl
  /\ sends_only (list_assigned_roles ctx a "group" mute w) w
       (to [Lit (base_url ctx ++ "/groups/"); Fmt a; Lit "/roles"]) tl.
Proof.
  intros w to. subst to. cbv beta.
  assert (Ht : tenant w = x :: tl) by reflexivity.
  clearbody w.
  repeat match goal with |- _ /\ _ => split end.
  - unfold get_current_user. one_request.
  - unfold get_user_object. one_request.
  - unfold get_user_groups. cbv zeta. one_request.
  - unfold get_zone_object. one_request.
  - unfold get_app_object. one_request.
  - unfold get_policy_rule. one_request.
  - unfold list_enrolled_factors. cbv zeta. one_request.
  - unfold list_assigned_roles.
    change (String.eqb "user" "user") with true. cbv iota.
    unfold fetch_roles. one_request.
  - unfold list_assigned_roles.
    change (String.eqb "group" "user") with false.
    change (String.eqb "group" "group") with true. cbv iota.
    unfold fetch_roles. one_request.
Qed.

(** ** Harvests that are cut short *)

(** One pass of the loop on an answer whose body is not JSON: the first
    [response.json()] raises, in the success branch and in the error branch
    alike. *)
Lemma harvest_pass_unreadable (again : text -> list pyval -> M (option (list pyval)))
  (ctx : context) (noun : string) (u : text) (harvested : list pyval)
  (w : World) (r : response) (tl : list transport_result) :
  tenant w = Reply r :: tl -> body r = None ->
  exists w',
    harvest_pass again ctx noun u harvested w = (Raise JSONDecodeError, w')
    /\ tenant w' = tl
    /\ sent w' = (sent w ++ [get_request ctx u])%list.
Proof.
  intros Ht Hbody. unfold harvest_pass.
  rewrite (bind_ret_eq _ _ _ _ _ (fetch_reply ctx core_name u w r tl Ht)).
  unfold deref. rewrite bind_ret_l.
  exists (mkWorld tl (answers w) (now w) (Sent (get_request ctx u) :: trace w)).
  split; [|split; reflexivity].
  destruct (ok r); unfold error_report, json; rewrite Hbody; reflexivity.
Qed.

(** X8: when, after k-1 pages that were fetched and followed, the k-th
    call raises in the transport or is answered with a body that is not
    JSON (whatever its status), each of the four harvests raises
    (AttributeError from [response.ok] on [None], JSONDecodeError from
    [response.json()]) after k requests, and the items of the pages before
    go with it. *)
Theorem harvest_cut_short_raises (k : harvest_kind) (ctx : context)
  (pages : list response) (x : transport_result) (e : exn)
  (rest : list transport_result) (w : World)
  (Hpages : linked_pages pages)
  (Hcut : cut_short x = Some e)
  (Hw : tenant w = (map Reply pages ++ x :: rest)%list) :
  exists w',
    list_of k ctx w = (Raise e, w')
    /\ tenant w' = rest
    /\ sent w' = (sent w
                  ++ walk_requests ctx [Lit (base_url ctx ++ endpoint_of k)] pages
                  ++ [get_request ctx
                        (walk_url [Lit (base_url ctx ++ endpoint_of k)] pages)])%list.
Proof.
  assert (E : exists w',
             harvest ctx (noun_of k) (endpoint_of k) w = (Raise e, w')
             /\ tenant w' = rest
             /\ sent w' = (sent w
                  ++ walk_requests ctx [Lit (base_url ctx ++ endpoint_of k)] pages
                  ++ [get_request ctx
                        (walk_url [Lit (base_url ctx ++ endpoint_of k)] pages)])%list).
  { unfold harvest. rewrite Hw, harvest_fuel.
    destruct (harvest_pages_prefix ctx (noun_of k) pages (S (S (List.length rest)))
                [Lit (base_url ctx ++ endpoint_of k)] [] w (x :: rest) Hpages Hw)
      as (w1 & T1 & S1 & E1).
    rewrite E1.
    change (harvest_pages (S (S (List.length rest))) ctx (noun_of k))
      with (harvest_pass (harvest_pages (S (List.length rest)) ctx (noun_of k))
              ctx (noun_of k)).
    destruct x as [r|]; simpl in Hcut.
    - destruct (body r) eqn:Hbody; [discriminate|]. injection Hcut as <-.
      destruct (harvest_pass_unreadable
                  (harvest_pages (S (List.length rest)) ctx (noun_of k))
                  ctx (noun_of k)
                  (walk_url [Lit (base_url ctx ++ endpoint_of k)] pages)
                  ([] ++ flat_map page_items pages)%list w1 r rest T1 Hbody)
        as (w' & E' & T' & S').
      exists w'. split; [exact E'|]. split; [exact T'|].
      rewrite S', S1. now rewrite <- app_assoc.
    - injection Hcut as <-.
      destruct (harvest_pass_broken
                  (harvest_pages (S (List.length rest)) ctx (noun_of k))
                  ctx (noun_of k)
                  (walk_url [Lit (base_url ctx ++ endpoint_of k)] pages)
                  ([] ++ flat_map page_items pages)%list w1 rest T1)
        as (w' & E' & T' & S').
      exists w'. split; [exact E'|]. split; [exact T'|].
      rewrite S', S1. now rewrite <- app_assoc. }
  destruct E as (w' & E & T & S). exists w'. split; [|split; assumption].
  destruct k; simpl in *;
    unfold list_users, list_groups, list_zones, list_apps;
    now rewrite (bind_raise_eq _ _ _ _ _ E).
Qed.

Lemma harvest_cut_short_raises_witness :
  linked_pages [page1]
  /\ cut_short Broken = Some AttributeError
  /\ exists w',
      list_of Apps ctx0 (world0 [Reply page1; Broken; Reply page2])
      = (Raise AttributeError, w')
      /\ tenant w' = [Reply page2]
      /\ sent w'
         = (sent (world0 [Reply page1; Broken; Reply page2])
            ++ walk_requests ctx0 [Lit (base_url ctx0 ++ endpoint_of Apps)] [page1]
            ++ [get_request ctx0
                  (walk_url [Lit (base_url ctx0 ++ endpoint_of Apps)] [page1])])%list.
Proof.
  split; [exact linked_page1|]. split; [reflexivity|].
  apply (harvest_cut_short_raises Apps ctx0 [page1] Broken AttributeError
           [Reply page2] (world0 [Reply page1; Broken; Reply page2]));
    [exact linked_page1 | reflexivity | reflexivity].
Defined.

(** ** Harvests, prompts and files *)

Lemma blind_desk : blind desk.
Proof. intros e w He. unfold desk, written. simpl. now destruct e. Qed.

Lemma offline_desk : offline desk.
Proof. intros w r rest. reflexivity. Qed.

#[export] Hint Resolve blind_desk offline_desk : keeps.

(** The walk asks the user nothing and writes no file. *)
Lemma keeps_desk_harvest_pages (ctx : context) (noun : string) (fuel : nat) :
  forall (u : text) (harvested : list pyval),
    keeps desk (harvest_pages fuel ctx noun u harvested).
Proof.
  induction fuel as [|fuel IH]; intros u harvested.
  - intros w. reflexivity.
  - simpl. unfold harvest_pass. unfold_helpers.
    repeat first [ apply IH | keeps_step ].
Qed.

Lemma keeps_desk_harvest (ctx : context) (noun path : string) :
  keeps desk (harvest ctx noun path).
Proof. intros w. unfold harvest. apply keeps_desk_harvest_pages. Qed.

Lemma desk_eq (w1 w2 : World) :
  desk w1 = desk w2 ->
  answers w1 = answers w2 /\ written w1 = written w2 /\ now w1 = now w2.
Proof. unfold desk. intros H. injection H as -> -> ->. auto. Qed.

(** X9: a harvest that finds nothing (every page fetched, none with an
    item) returns the empty list and stops there: the user is asked
    nothing and no file is written. *)
Theorem empty_harvest_asks_nothing (k : harvest_kind) (ctx : context)
  (pages : list response) (last : response)
  (rest : list transport_result) (w : World)
  (Hpages : linked_pages pages)
  (Hlast : is_page last = true)
  (Hend : next_link last = None)
  (Hempty : List.concat (map page_items (pages ++ [last])) = [])
  (Hw : tenant w = (map Reply (pages ++ [last]) ++ rest)%list) :
  exists w',
    list_of k ctx w = (Ret (Some []), w')
    /\ answers w' = answers w
    /\ written w' = written w
    /\ tenant w' = rest.
Proof.
  destruct (harvest_complete ctx (noun_of k) (endpoint_of k) pages last rest w
              Hpages Hlast Hend Hw) as (w1 & E1 & T1 & S1).
  rewrite flat_map_concat_map, Hempty in E1.
  pose proof (keeps_desk_harvest ctx (noun_of k) (endpoint_of k) w) as D.
  rewrite E1 in D. simpl in D. apply desk_eq in D as (A & W & _).
  exists w1. split; [|auto].
  destruct k; simpl in *;
    unfold list_users, list_groups, list_zones, list_apps;
    now rewrite (bind_ret_eq _ _ _ _ _ E1).
Qed.

Lemma empty_harvest_asks_nothing_witness :
  let nothing := mkResponse true 200 "OK" (Some (PList [])) [] in
  let w := mkWorld [Reply nothing] [false; false] (mkDatetime 2026 11 4 10 30) [] in
  linked_pages [] /\ is_page nothing = true /\ next_link nothing = None
  /\ exists w',
      list_of Users ctx0 w = (Ret (Some []), w')
      /\ answers w' = answers w
      /\ written w' = written w
      /\ tenant w' = [].
Proof.
  cbv zeta. split; [constructor|]. split; [reflexivity|]. split; [reflexivity|].
  apply (empty_harvest_asks_nothing Users ctx0 []
           (mkResponse true 200 "OK" (Some (PList [])) []) []
           (mkWorld [Reply (mkResponse true 200 "OK" (Some (PList [])) [])]
              [false; false] (mkDatetime 2026 11 4 10 30) []));
    [constructor | reflexivity | reflexivity | reflexivity | reflexivity].
Defined.

Lemma confirm_next (prompt : string) (w : World) (a : bool) (rest : list bool) :
  answers w = a :: rest ->
  confirm prompt w
  = (Ret a, mkWorld (tenant w) rest (now w) (Asked prompt a :: trace w)).
Proof. intros E. unfold confirm. now rewrite E. Qed.

Lemma calm_keeps_desk {A} (m : M A) (w : World) :
  calm m -> keeps desk m ->
  exists a w',
    m w = (Ret a, w') /\ tenant w' = tenant w /\ sent w' = sent w
    /\ answers w' = answers w /\ written w' = written w /\ now w' = now w.
Proof.
  intros Hc Hk. destruct (Hc w) as (a & w' & E & T & S).
  specialize (Hk w). rewrite E in Hk. simpl in Hk.
  apply desk_eq in Hk as (Ha & Hw & Hn).
  exists a, w'. auto 10.
Qed.

(** What follows the walk in each harvest that found something, from a
    world where the user will answer [p] to the first prompt and [s] to
    the second. *)
Lemma post_saves (report P : M unit) (q1 q2 f : string) (h : list pyval)
  (w1 : World) (p s : bool) (more : list bool) :
  h <> [] ->
  calm report -> keeps desk report ->
  calm P -> keeps desk P ->
  answers w1 = p :: s :: more ->
  exists w',
    ((if truthy (PList h) then
        report ;;
        print <- confirm q1 ;;
        (if print then P else ret tt) ;;
        save <- confirm q2 ;;
        (if save then write_json_file f h ;; ret tt else ret tt)
      else ret tt) ;;
     ret (Some h)) w1
    = (Ret (Some h), w')
    /\ answers w' = more
    /\ written w'
       = (written w1 ++ if s then [(stamped f (now w1), h)] else [])%list
    /\ tenant w' = tenant w1 /\ sent w' = sent w1.
Proof.
  intros Hh Cr Kr Cp Kp Ha.
  assert (Ht : truthy (PList h) = true) by (destruct h; [contradiction | reflexivity]).
  rewrite Ht.
  destruct (calm_keeps_desk report w1 Cr Kr)
    as ([] & w2 & E2 & T2 & S2 & A2 & W2 & N2).
  rewrite Ha in A2.
  pose proof (confirm_next q1 w2 p (s :: more) A2) as E3.
  set (w3 := mkWorld (tenant w2) (s :: more) (now w2) (Asked q1 p :: trace w2)) in E3.
  assert (E4 : exists w4,
             (if p then P else ret tt) w3 = (Ret tt, w4)
             /\ tenant w4 = tenant w1 /\ sent w4 = sent w1
             /\ answers w4 = s :: more /\ written w4 = written w1
             /\ now w4 = now w1).
  { destruct p.
    - destruct (calm_keeps_desk P w3 Cp Kp)
        as ([] & w4 & E4 & T4 & S4 & A4 & W4 & N4).
      exists w4. split; [exact E4|]. subst w3. simpl in *.
      repeat split; try congruence.
      + rewrite S4. exact S2.
      + rewrite W4. exact W2.
    - exists w3. split; [reflexivity|]. subst w3. simpl.
      repeat split; try congruence.
      + exact S2.
      + exact W2. }
  destruct E4 as (w4 & E4 & T4 & S4 & A4 & W4 & N4).
  pose proof (confirm_next q2 w4 s more A4) as E5.
  set (w5 := mkWorld (tenant w4) more (now w4) (Asked q2 s :: trace w4)) in E5.
  unfold bind at 1.
  rewrite (bind_ret_eq _ _ _ _ _ E2), (bind_ret_eq _ _ _ _ _ E3),
    (bind_ret_eq _ _ _ _ _ E4), (bind_ret_eq _ _ _ _ _ E5).
  destruct s.
  - eexists. split; [reflexivity|]. simpl.
    split; [reflexivity|]. split; [|split; [exact T4|exact S4]].
    unfold written in *. simpl. rewrite W4. unfold stamped. now rewrite N4.
  - exists w5. split; [reflexivity|]. subst w5. simpl.
    split; [reflexivity|]. split; [|split; [exact T4|exact S4]].
    rewrite app_nil_r. exact W4.
Qed.

Lemma calm_report_total (ctx : context) (noun : string) (h : list pyval) :
  calm (report_total ctx noun h).
Proof. unfold report_total. apply calm_report_info. Qed.

Lemma keeps_desk_report_total (ctx : context) (noun : string) (h : list pyval) :
  keeps desk (report_total ctx noun h).
Proof. unfold report_total. apply keeps_report_info. exact blind_desk. Qed.

Lemma keeps_desk_for_each (h : list pyval) (f : pyval -> M unit) :
  (forall v, keeps desk (f v)) -> keeps desk (for_each h f).
Proof. apply keeps_for_each. Qed.

(** X10: a harvest that found something asks two questions, and the second
    answer alone decides the file: on yes, one file is written, named
    <data dir>/<profile>_harvested_<kind>_<month>-<day>-<year>_<hour>-<minute>.json
    and holding exactly the collection that is returned; on no, none is.
    Both answers are used up. *)
Theorem harvest_saves_what_it_returns (k : harvest_kind) (ctx : context)
  (pages : list response) (last : response)
  (rest : list transport_result) (w : World) (p s : bool) (more : list bool)
  (Hpages : linked_pages pages)
  (Hlast : is_page last = true)
  (Hend : next_link last = None)
  (Hitems : Forall (fun item => presentable k item = true)
              (List.concat (map page_items (pages ++ [last]))))
  (Hfound : List.concat (map page_items (pages ++ [last])) <> [])
  (Hanswers : answers w = p :: s :: more)
  (Hw : tenant w = (map Reply (pages ++ [last]) ++ rest)%list) :
  exists w',
    list_of k ctx w
    = (Ret (Some (List.concat (map page_items (pages ++ [last])))), w')
    /\ answers w' = more
    /\ written w'
       = (written w
          ++ if s
             then [(stamped (harvest_file k ctx) (now w),
                    List.concat (map page_items (pages ++ [last])))]
             else [])%list.
Proof.
  rewrite <- flat_map_concat_map in *.
  set (h := flat_map page_items (pages ++ [last])) in *.
  destruct (harvest_complete ctx (noun_of k) (endpoint_of k) pages last rest w
              Hpages Hlast Hend Hw) as (w1 & E1 & T1 & S1).
  fold h in E1.
  pose proof (keeps_desk_harvest ctx (noun_of k) (endpoint_of k) w) as D.
  rewrite E1 in D. simpl in D. apply desk_eq in D as (A1 & W1 & N1).
  rewrite Hanswers in A1.
  assert (KP : forall v, keeps desk (print_user_info v)
                         /\ keeps desk (print_group v)
                         /\ keeps desk (print_app_object v)
                         /\ keeps desk (print_zone_object v)).
  { intros v. destruct (keeps_presenters desk blind_desk v v "")
      as (K1 & K2 & K3 & K4 & _). auto. }
  destruct k; simpl in *;
    unfold list_users, list_groups, list_zones, list_apps;
    rewrite (bind_ret_eq _ _ _ _ _ E1); cbv iota.
  - destruct (post_saves (report_total ctx "users" h)
                (for_each h print_user_info)
                "[*] Do you want to print harvested user information?"
                "[*] Do you want to save harvested user information to a file?"
                (data_dir ctx ++ "/" ++ profile_id ctx ++ "_harvested_users")
                h w1 p s more Hfound
                (calm_report_total _ _ _) (keeps_desk_report_total _ _ _))
      as (w' & E & A & W & _); [| |exact A1|].
    + apply calm_for_each. eapply Forall_calm; [|exact Hitems].
      apply calm_print_user_info.
    + apply keeps_desk_for_each. intros v. apply KP.
    + exists w'. split; [exact E|]. split; [exact A|]. now rewrite W, W1, N1.
  - destruct (post_saves (report_total ctx "groups" h)
                (print_group_information h)
                "[*] Do you want to print harvested group information?"
                "[*] Do you want to save harvested group information to a file?"
                (data_dir ctx ++ "/" ++ profile_id ctx ++ "_harvested_groups")
                h w1 p s more Hfound
                (calm_report_total _ _ _) (keeps_desk_report_total _ _ _))
      as (w' & E & A & W & _); [| |exact A1|].
    + apply calm_for_each. eapply Forall_calm; [|exact Hitems].
      apply calm_print_group.
    + apply keeps_desk_for_each. intros v. apply KP.
    + exists w'. split; [exact E|]. split; [exact A|]. now rewrite W, W1, N1.
  - destruct (post_saves (report_total ctx "zones" h)
                (for_each h print_zone_object)
                "[*] Do you want to print harvested network zone information?"
                "[*] Do you want to save harvested network zone information to a file?"
                (data_dir ctx ++ "/" ++ profile_id ctx ++ "_harvested_zones")
                h w1 p s more Hfound
                (calm_report_total _ _ _) (keeps_desk_report_total _ _ _))
      as (w' & E & A & W & _); [| |exact A1|].
    + apply calm_for_each. eapply Forall_calm; [|exact Hitems].
      apply calm_print_zone_object.
    + apply keeps_desk_for_each. intros v. apply KP.
    + exists w'. split; [exact E|]. split; [exact A|]. now rewrite W, W1, N1.
  - destruct (post_saves (report_total ctx "applications" h)
                (for_each h print_app_object)
                "[*] Do you want to print harvested application info?"
                "[*] Do you want to save harvested applications information to a file?"
                (data_dir ctx ++ "/" ++ profile_id ctx ++ "_harvested_apps")
                h w1 p s more Hfound
                (calm_report_total _ _ _) (keeps_desk_report_total _ _ _))
      as (w' & E & A & W & _); [| |exact A1|].
    + apply calm_for_each. eapply Forall_calm; [|exact Hitems].
      apply calm_print_app_object.
    + apply keeps_desk_for_each. intros v. apply KP.
    + exists w'. split; [exact E|]. split; [exact A|]. now rewrite W, W1, N1.
Qed.

Lemma harvest_saves_what_it_returns_witness :
  let w := mkWorld [Reply page1; Reply page2] [false; true]
             (mkDatetime 2026 11 4 10 30) [] in
  linked_pages [page1] /\ is_page page2 = true /\ next_link page2 = None
  /\ List.concat (map page_items ([page1] ++ [page2])) <> []
  /\ exists w',
      list_of Apps ctx0 w
      = (Ret (Some (List.concat (map page_items ([page1] ++ [page2])))), w')
      /\ answers w' = []
      /\ written w'
         = (written w
            ++ if true
               then [(stamped (harvest_file Apps ctx0) (now w),
                      List.concat (map page_items ([page1] ++ [page2])))]
               else [])%list.
Proof.
  cbv zeta. split; [exact linked_page1|]. split; [reflexivity|].
  split; [reflexivity|]. split; [discriminate|].
  apply (harvest_saves_what_it_returns Apps ctx0 [page1] page2 []
           (mkWorld [Reply page1; Reply page2] [false; true]
              (mkDatetime 2026 11 4 10 30) [])
           false true []);
    [exact linked_page1 | reflexivity | reflexivity | repeat constructor
    | discriminate | reflexivity | reflexivity].
Defined.

(** ** get_apps and get_user *)

(** X11: [get_apps]'s [execute] asks before it harvests, and on a no it
    returns at once: the question is the only effect, nothing is logged
    or indexed and no request is sent. *)
Theorem get_apps_declined_sends_nothing (ctx : context) (w : World)
  (rest : list bool)
  (Hno : answers w = false :: rest) :
  GetApps.execute ctx w
  = (Ret tt,
     mkWorld (tenant w) rest (now w)
       (Asked "[*] Do you want to attempt to harvest information on all applications?"
          false :: trace w))
  /\ sent (snd (GetApps.execute ctx w)) = sent w
  /\ tenant (snd (GetApps.execute ctx w)) = tenant w.
Proof.
  assert (E : GetApps.execute ctx w
              = (Ret tt,
                 mkWorld (tenant w) rest (now w)
                   (Asked "[*] Do you want to attempt to harvest information on all applications?"
                      false :: trace w))).
  { unfold GetApps.execute.
    now rewrite (bind_ret_eq _ _ _ _ _ (confirm_next _ w false rest Hno)). }
  rewrite E. auto.
Qed.

Lemma get_apps_declined_sends_nothing_witness :
  let w := mkWorld [Reply page1] [false] (mkDatetime 2026 11 4 10 30) [] in
  answers w = [false]
  /\ GetApps.execute ctx0 w
     = (Ret tt,
        mkWorld (tenant w) [] (now w)
          (Asked "[*] Do you want to attempt to harvest information on all applications?"
             false :: trace w))
  /\ sent (snd (GetApps.execute ctx0 w)) = sent w
  /\ tenant (snd (GetApps.execute ctx0 w)) = tenant w.
Proof.
  cbv zeta. split; [reflexivity|].
  apply (get_apps_declined_sends_nothing ctx0
           (mkWorld [Reply page1] [false] (mkDatetime 2026 11 4 10 30) []) []).
  reflexivity.
Defined.

(** What [get_user_object] makes of an answer it can read. *)
Lemma get_user_object_reply (ctx : context) (user_id : pyval) (w : World)
  (r : response) (tl : list transport_result) :
  tenant w = Reply r :: tl -> answers_user r = true ->
  exists w',
    get_user_object ctx user_id w = (Ret (negb (ok r)), w')
    /\ tenant w' = tl
    /\ sent w' = (sent w ++ [get_request ctx [Lit (base_url ctx ++ "/users/");
                                               Fmt user_id]])%list.
Proof.
  intros Ht Hr. unfold get_user_object.
  rewrite (bind_ret_eq _ _ _ _ _
             (fetch_reply ctx core_name
                [Lit (base_url ctx ++ "/users/"); Fmt user_id] w r tl Ht)).
  unfold deref. rewrite bind_ret_l.
  set (w1 := mkWorld tl (answers w) (now w) _).
  assert (S1 : sent w1 = (sent w ++ [get_request ctx [Lit (base_url ctx ++ "/users/");
                                                     Fmt user_id]])%list)
    by reflexivity.
  unfold answers_user in Hr. destruct (ok r); simpl in *.
  - destruct (body r) as [user|] eqn:Hbody; [|discriminate].
    assert (R : returns (user <- json r ;; print_user_info user ;; ret false) false).
    { unfold json. rewrite Hbody. rewrite bind_ret_l.
      apply returns_bind; [now apply calm_print_user_info|].
      intros _. apply returns_ret. }
    destruct (R w1) as (w' & E & T & S). exists w'.
    split; [exact E|]. split; [exact T|]. now rewrite S.
  - destruct (body r) as [[| | | | |envelope]|] eqn:Hbody; try discriminate.
    assert (R : returns
                  (msg <- error_report [Lit "Error retrieving user information"] r ;;
                   report_error ctx core_name msg ;;
                   echo [Lit "[*] This error is expected if the user object was deleted"] ;;
                   ret true) true).
    { unfold error_report, json. rewrite Hbody.
      unfold py_get, py_get_default. rewrite !bind_ret_l.
      returns_run. }
    destruct (R w1) as (w' & E & T & S). exists w'.
    split; [exact E|]. split; [exact T|]. now rewrite S.
Qed.

Lemma get_user_groups_sends_one (ctx : context) (user_id : pyval) (w w0 : World)
  (x : transport_result) (tl : list transport_result) :
  tenant w = x :: tl -> sent w = sent w0 ->
  sends_only (get_user_groups ctx user_id w) w0
    [get_request ctx [Lit (base_url ctx ++ "/users/"); Fmt user_id; Lit "/groups"]]
    tl.
Proof.
  intros Ht Hs. unfold get_user_groups. cbv zeta. one_request.
Qed.

Lemma run_check_single_id (uid : pyval) (h : string) (w : World) :
  truthy uid = true ->
  run_check [("id", mkOption uid true h)] w = (Ret (Some false), w).
Proof. intros H. exact (run_check_configured "id" (mkOption uid true h) [] w H). Qed.

(** X12: with an id configured, [get_user]'s [execute] asks for the user
    and then for the user's groups, in that order and nothing else; the
    groups are asked for even when the user lookup was refused, since the
    error flag [get_user_object] returns is not read. *)
Theorem get_user_asks_for_groups_regardless (ctx : context) (uid : pyval)
  (h : string) (w : World) (r : response) (x : transport_result)
  (tl : list transport_result)
  (Hid : truthy uid = true)
  (Hr : answers_user r = true)
  (Hw : tenant w = Reply r :: x :: tl) :
  sends_only (GetUser.execute ctx [("id", mkOption uid true h)] w) w
    [get_request ctx [Lit (base_url ctx ++ "/users/"); Fmt uid];
     get_request ctx [Lit (base_url ctx ++ "/users/"); Fmt uid; Lit "/groups"]]
    tl.
Proof.
  unfold GetUser.execute.
  rewrite (bind_ret_eq _ _ _ _ _ (run_check_single_id uid h w Hid)).
  change (is_error (Some false)) with false. cbv iota. unfold option_value.
  change (dict_get [("id", mkOption uid true h)] "id")
    with (Some (mkOption uid true h)).
  cbv iota. rewrite !bind_ret_l. simpl value.
  match goal with
  | |- sends_only (bind ?m ?k ?w1) ?w0 ?rs ?tl0 =>
      apply (bind_calm m k w1 (fun run => sends_only run w0 rs tl0));
        [apply calm_report_info | intros [] w1' T1 S1]
  end.
  rewrite Hw in T1.
  destruct (get_user_object_reply ctx uid w1' r (x :: tl) T1 Hr)
    as (w2 & E2 & T2 & S2).
  rewrite (bind_ret_eq _ _ _ _ _ E2).
  destruct (get_user_groups_sends_one ctx uid w2 w2 x tl T2 eq_refl) as [S3 T3].
  split; [|exact T3].
  rewrite S3, S2, S1. now rewrite <- app_assoc.
Qed.

Lemma get_user_asks_for_groups_regardless_witness :
  let w := world0 [Reply not_found; Reply not_found] in
  truthy (PStr "00u1") = true /\ answers_user not_found = true
  /\ sends_only
       (GetUser.execute ctx0
          [("id", mkOption (PStr "00u1") true "The unique ID for the user")] w) w
       [get_request ctx0 [Lit (base_url ctx0 ++ "/users/"); Fmt (PStr "00u1")];
        get_request ctx0 [Lit (base_url ctx0 ++ "/users/"); Fmt (PStr "00u1");
                          Lit "/groups"]]
       [].
Proof.
  cbv zeta. split; [reflexivity|]. split; [reflexivity|].
  apply (get_user_asks_for_groups_regardless ctx0 (PStr "00u1")
           "The unique ID for the user"
           (world0 [Reply not_found; Reply not_found]) not_found (Reply not_found) []);
    reflexivity.
Defined.

(** ** modify_zone, step by step *)

Lemma modify_zone_renames_and_reverts_witness :
  let w := world0 [Reply zone_found; Reply not_found; Reply zone_found;
                   Reply zone_found; Reply zone_found] in
  truthy (PStr "z1") = true /\ ok zone_found = true
  /\ is_zone zone_a = true /\ dict_has zone_a "name" = true
  /\ exists w',
      ModifyZone.execute ctx0
        [("id", mkOption (PStr "z1") true "The unique ID for the network zone")] w
      = (Ret tt, w')
      /\ puts (sent w')
         = (puts (sent w)
            ++ [rename_request ctx0 zone_a
                  (PStr (py_str (field zone_a "name") ++ " TEMP_STRING"));
                rename_request ctx0 zone_a (field zone_a "name")])%list.
Proof.
  cbv zeta. repeat (split; [reflexivity|]).
  apply (modify_zone_renames_and_reverts ctx0 (PStr "z1")
           "The unique ID for the network zone"
           (world0 [Reply zone_found; Reply not_found; Reply zone_found;
                    Reply zone_found; Reply zone_found])
           zone_found zone_a
           [Reply not_found; Reply zone_found; Reply zone_found; Reply zone_found]);
    first [reflexivity | repeat constructor | simpl; lia].
Defined.

Lemma modify_zone_lookup_refused_witness :
  let w := world0 [Reply not_found; Reply zone_found] in
  truthy (PStr "z9") = true /\ is_failure not_found = true
  /\ exists w',
      ModifyZone.execute ctx0
        [("id", mkOption (PStr "z9") true "The unique ID for the network zone")] w
      = (Ret tt, w')
      /\ sent w' = (sent w ++ [zone_request ctx0 (PStr "z9")])%list
      /\ puts (sent w') = puts (sent w).
Proof.
  cbv zeta. split; [reflexivity|]. split; [reflexivity|].
  apply (modify_zone_lookup_refused ctx0 (PStr "z9")
           "The unique ID for the network zone"
           (world0 [Reply not_found; Reply zone_found]) not_found
           [Reply zone_found]);
    reflexivity.
Defined.

Lemma execute_configured (ctx : context) (zone_id : pyval) (h : string)
  (w : World) :
  truthy zone_id = true ->
  ModifyZone.execute ctx [("id", mkOption zone_id true h)] w
  = (zone <- get_zone_object ctx zone_id ;;
     if truthy zone then
       original_name <- py_item zone "name" ;;
       name' <- py_item zone "name" ;;
       ModifyZone.rename_zone ctx zone original_name
         (PStr (py_str name' ++ " TEMP_STRING")) ;;
       ModifyZone.rename_zone ctx zone
         (PStr (py_str name' ++ " TEMP_STRING")) original_name
     else ret tt) w.
Proof.
  intros Hid. unfold ModifyZone.execute.
  rewrite (bind_ret_eq _ _ _ _ _ (run_check_single_id zone_id h w Hid)).
  reflexivity.
Qed.

(** X15: the whole of a run of [modify_zone] in which every call succeeds
    is five requests: the lookup of the configured id, the PUT to
    "<name> TEMP_STRING", a GET of the zone, the PUT back to <name>, a GET
    of the zone.  Both PUTs are built from the zone as first looked up,
    and both GETs go to the id that zone carries. *)
Theorem modify_zone_five_requests (ctx : context) (zone_id : pyval)
  (h : string) (w : World) (lookup p1 g1 p2 g2 : response)
  (d : list (string * pyval)) (tl : list transport_result)
  (Hid : truthy zone_id = true)
  (Hw : tenant w = Reply lookup :: Reply p1 :: Reply g1 :: Reply p2 :: Reply g2 :: tl)
  (Hlookup : ok lookup = true) (Hbody : body lookup = Some (PDict d))
  (Hzone : is_zone d = true) (Hname : dict_has d "name" = true)
  (Hp1 : ok p1 = true) (Hp2 : ok p2 = true)
  (Hobjects : Forall (fun t => answers_object t = true)
                [Reply p1; Reply g1; Reply p2; Reply g2]) :
  exists w',
    ModifyZone.execute ctx [("id", mkOption zone_id true h)] w = (Ret tt, w')
    /\ tenant w' = tl
    /\ sent w'
       = (sent w
          ++ [zone_request ctx zone_id;
              rename_request ctx d (PStr (py_str (field d "name") ++ " TEMP_STRING"));
              zone_request ctx (field d "id");
              rename_request ctx d (field d "name");
              zone_request ctx (field d "id")])%list.
Proof.
  inversion Hobjects as [|? ? O1 H1]; subst.
  inversion H1 as [|? ? O2 H2]; subst.
  inversion H2 as [|? ? O3 H3]; subst.
  inversion H3 as [|? ? O4 _]; subst.
  rewrite (execute_configured ctx zone_id h w Hid).
  assert (Hl : answers_object (Reply lookup) = true) by (simpl; now rewrite Hbody).
  destruct (get_zone_object_reply ctx zone_id w lookup _ Hw Hl)
    as (w1 & E1 & T1 & S1).
  rewrite Hlookup, Hbody in E1. rewrite (bind_ret_eq _ _ _ _ _ E1).
  rewrite (is_zone_truthy d Hzone).
  assert (En : py_item (PDict d) "name" = ret (field d "name")).
  { unfold py_item, field. unfold dict_has in Hname.
    destruct (dict_get d "name"); [reflexivity | discriminate]. }
  rewrite !En, !bind_ret_l.
  destruct (rename_zone_reply ctx d (field d "name")
              (PStr (py_str (field d "name") ++ " TEMP_STRING")) w1 p1 _
              Hzone T1 O1) as (w2 & T2 & S2 & E2).
  rewrite Hp1 in E2.
  destruct (get_zone_object_reply ctx (field d "id") w2 g1 _ T2 O2)
    as (w3 & E3 & T3 & S3).
  assert (E23 : ModifyZone.rename_zone ctx (PDict d) (field d "name")
                  (PStr (py_str (field d "name") ++ " TEMP_STRING")) w1
                = (Ret tt, emit (Slept 1) w3)).
  { rewrite E2. now rewrite (bind_ret_eq _ _ _ _ _ E3). }
  rewrite (bind_ret_eq _ _ _ _ _ E23).
  destruct (rename_zone_reply ctx d
              (PStr (py_str (field d "name") ++ " TEMP_STRING")) (field d "name")
              (emit (Slept 1) w3) p2 _ Hzone T3 O3) as (w4 & T4 & S4 & E4).
  rewrite Hp2 in E4.
  destruct (get_zone_object_reply ctx (field d "id") w4 g2 _ T4 O4)
    as (w5 & E5 & T5 & S5).
  exists (emit (Slept 1) w5). split.
  - rewrite E4. now rewrite (bind_ret_eq _ _ _ _ _ E5).
  - split; [exact T5|].
    change (sent (emit (Slept 1) w5)) with (sent w5).
    change (sent (emit (Slept 1) w3)) with (sent w3) in S4.
    rewrite S5, S4, S3, S2, S1. now rewrite <- !app_assoc.
Qed.

Lemma modify_zone_five_requests_witness :
  let accepted := mkResponse true 200 "OK" (Some (PDict zone_a)) [] in
  let w := world0 [Reply zone_found; Reply accepted; Reply zone_found;
                   Reply accepted; Reply zone_found] in
  truthy (PStr "z1") = true /\ is_zone zone_a = true
  /\ dict_has zone_a "name" = true
  /\ exists w',
      ModifyZone.execute ctx0
        [("id", mkOption (PStr "z1") true "The unique ID for the network zone")] w
      = (Ret tt, w')
      /\ tenant w' = []
      /\ sent w'
         = (sent w
            ++ [zone_request ctx0 (PStr "z1");
                rename_request ctx0 zone_a
                  (PStr (py_str (field zone_a "name") ++ " TEMP_STRING"));
                zone_request ctx0 (field zone_a "id");
                rename_request ctx0 zone_a (field zone_a "name");
                zone_request ctx0 (field zone_a "id")])%list.
Proof.
  cbv zeta. repeat (split; [reflexivity|]).
  apply (modify_zone_five_requests ctx0 (PStr "z1")
           "The unique ID for the network zone"
           (world0 [Reply zone_found;
                    Reply (mkResponse true 200 "OK" (Some (PDict zone_a)) []);
                    Reply zone_found;
                    Reply (mkResponse true 200 "OK" (Some (PDict zone_a)) []);
                    Reply zone_found])
           zone_found (mkResponse true 200 "OK" (Some (PDict zone_a)) [])
           zone_found (mkResponse true 200 "OK" (Some (PDict zone_a)) [])
           zone_found zone_a []);
    try reflexivity.
  repeat constructor.
Defined.

(** X16: a zone that comes back without a name, a type or an id stops
    [modify_zone] with a KeyError after the lookup: no PUT is sent. *)
Theorem modify_zone_incomplete_zone (ctx : context) (zone_id : pyval)
  (h : string) (w : World) (lookup : response) (d : list (string * pyval))
  (tl : list transport_result)
  (Hid : truthy zone_id = true)
  (Hw : tenant w = Reply lookup :: tl)
  (Hlookup : ok lookup = true) (Hbody : body lookup = Some (PDict d))
  (Hsome : d <> [])
  (Hmissing : dict_has d "name" && dict_has d "type" && dict_has d "id" = false) :
  exists w',
    ModifyZone.execute ctx [("id", mkOption zone_id true h)] w
    = (Raise KeyError, w')
    /\ tenant w' = tl
    /\ sent w' = (sent w ++ [zone_request ctx zone_id])%list.
Proof.
  rewrite (execute_configured ctx zone_id h w Hid).
  assert (Hl : answers_object (Reply lookup) = true) by (simpl; now rewrite Hbody).
  destruct (get_zone_object_reply ctx zone_id w lookup _ Hw Hl)
    as (w1 & E1 & T1 & S1).
  rewrite Hlookup, Hbody in E1. rewrite (bind_ret_eq _ _ _ _ _ E1).
  assert (Ht : truthy (PDict d) = true) by (destruct d; [contradiction | reflexivity]).
  rewrite Ht. exists w1. split; [|auto].
  unfold dict_has in Hmissing. unfold py_item at 1 2.
  destruct (dict_get d "name") as [name|] eqn:Dn; [|reflexivity].
  rewrite !bind_ret_l. unfold ModifyZone.rename_zone at 1. unfold py_item at 1.
  destruct (dict_get d "type") as [type|] eqn:Dt; [|reflexivity].
  rewrite bind_ret_l. unfold py_get, py_get_default. rewrite !bind_ret_l.
  unfold py_item at 1.
  destruct (dict_get d "id") as [id|] eqn:Di; [discriminate | reflexivity].
Qed.

Lemma modify_zone_incomplete_zone_witness :
  let nameless := mkResponse true 200 "OK"
                    (Some (PDict [("id", PStr "z1"); ("type", PStr "IP")])) [] in
  let w := world0 [Reply nameless; Reply zone_found] in
  truthy (PStr "z1") = true
  /\ [("id", PStr "z1"); ("type", PStr "IP")] <> []
  /\ exists w',
      ModifyZone.execute ctx0
        [("id", mkOption (PStr "z1") true "The unique ID for the network zone")] w
      = (Raise KeyError, w')
      /\ tenant w' = [Reply zone_found]
      /\ sent w' = (sent w ++ [zone_request ctx0 (PStr "z1")])%list.
Proof.
  cbv zeta. split; [reflexivity|]. split; [discriminate|].
  apply (modify_zone_incomplete_zone ctx0 (PStr "z1")
           "The unique ID for the network zone"
           (world0 [Reply (mkResponse true 200 "OK"
                             (Some (PDict [("id", PStr "z1"); ("type", PStr "IP")])) []);
                    Reply zone_found])
           (mkResponse true 200 "OK"
              (Some (PDict [("id", PStr "z1"); ("type", PStr "IP")])) [])
           [("id", PStr "z1"); ("type", PStr "IP")] [Reply zone_found]);
    try reflexivity.
  discriminate.
Defined.

(** ** Roles, factors and whoami *)

Lemma calm_print_role (role : pyval) :
  is_object role = true -> calm (print_role role).
Proof.
  destruct role; try discriminate. intros _. unfold print_role. calm_steps.
Qed.

Lemma roles_url (ctx : context) (unique_id : pyval) (group : bool) (mute : bool) :
  list_assigned_roles ctx unique_id (if group then "group" else "user") mute
  = fetch_roles ctx
      [Lit (base_url ctx ++ (if group then "/groups/" else "/users/"));
       Fmt unique_id; Lit "/roles"]
      unique_id (if group then "group" else "user") mute.
Proof. destruct group; reflexivity. Qed.

Lemma fetch_roles_reply (ctx : context) (u : text) (unique_id : pyval)
  (object_type : string) (mute : bool) (w : World) (r : response)
  (tl : list transport_result) :
  tenant w = Reply r :: tl -> answers_roles r = true ->
  exists w',
    fetch_roles ctx u unique_id object_type mute w
    = (Ret (Some (if ok r then (parsed r, false) else (PList [], true))), w')
    /\ tenant w' = tl
    /\ sent w' = (sent w ++ [get_request ctx u])%list.
Proof.
  intros Ht Hr. unfold fetch_roles.
  assert (Cpre : calm (if negb mute
                       then report_info ctx core_name
                              [Lit ("Attempting to get roles for " ++ object_type
                                    ++ " ID "); Fmt unique_id]
                       else ret tt)) by calm_steps.
  destruct (Cpre w) as ([] & w0 & E0 & T0 & S0).
  rewrite (bind_ret_eq _ _ _ _ _ E0). rewrite Ht in T0.
  rewrite (bind_ret_eq _ _ _ _ _ (fetch_reply ctx core_name u w0 r tl T0)).
  unfold deref. rewrite bind_ret_l.
  set (w1 := mkWorld tl (answers w0) (now w0) _).
  assert (S1 : sent w1 = (sent w ++ [get_request ctx u])%list).
  { subst w1. unfold sent in *. simpl. now rewrite S0. }
  unfold answers_roles, parsed in *. destruct (ok r); simpl in *.
  - destruct (body r) as [[| | | |roles|]|] eqn:Hbody; try discriminate.
    assert (R : returns
                  (roles0 <- json r ;;
                   (if negb mute
                    then print_role_info unique_id roles0 object_type
                    else ret tt) ;;
                   ret (Some (roles0, false)))
                  (Some (PList roles, false))).
    { unfold json. rewrite Hbody. rewrite bind_ret_l.
      apply returns_bind; [|intros _; apply returns_ret].
      apply calm_if; [|apply calm_ret].
      unfold print_role_info, py_iter.
      apply calm_bind; [apply calm_echo|]. intros _. rewrite bind_ret_l.
      apply calm_for_each. eapply Forall_calm; [apply calm_print_role|].
      apply Forall_forall. intros v Hv.
      exact (proj1 (forallb_forall is_object roles) Hr v Hv). }
    destruct (R w1) as (w' & E & T & S). exists w'.
    split; [exact E|]. split; [exact T|]. now rewrite S.
  - destruct (body r) as [[| | | | |envelope]|] eqn:Hbody; try discriminate.
    assert (R : returns
                  (msg <- error_report
                            [Lit ("Error retrieving " ++ object_type
                                  ++ "'s assigned roles")] r ;;
                   report_error ctx core_name msg ;;
                   echo [Lit "[!] Only the SUPER_ADMIN role can view, assign, or remove admin roles. The user linked to the current API token might not have the SUPER_ADMIN role assigned"] ;;
                   ret (Some (PList [], true)))
                  (Some (PList [], true))).
    { unfold error_report, json. rewrite Hbody.
      unfold py_get, py_get_default. rewrite !bind_ret_l. returns_run. }
    destruct (R w1) as (w' & E & T & S). exists w'.
    split; [exact E|]. split; [exact T|]. now rewrite S.
Qed.

Lemma list_enrolled_factors_reply (ctx : context) (user_id : pyval)
  (mute : bool) (w : World) (r : response) (tl : list transport_result) :
  tenant w = Reply r :: tl -> answers_json r = true ->
  exists w',
    list_enrolled_factors ctx user_id mute w
    = (Ret (if ok r then (parsed r, false) else (PList [], true)), w')
    /\ tenant w' = tl.
Proof.
  intros Ht Hr. unfold list_enrolled_factors. cbv zeta.
  destruct (calm_logger_info
              [Lit "Attempting to get enrolled MFA factors for user "; Fmt user_id] w)
    as ([] & wa & Ea & Ta & Sa).
  rewrite (bind_ret_eq _ _ _ _ _ Ea).
  destruct (calm_index_event (es ctx) core_name "INFO"
              [Lit "Attempting to get enrolled MFA factors for user "; Fmt user_id] wa)
    as ([] & wb & Eb & Tb & Sb).
  rewrite (bind_ret_eq _ _ _ _ _ Eb).
  assert (Cpre : calm (if negb mute
                       then echo (Lit "[*] "
                                  :: [Lit "Attempting to get enrolled MFA factors for user ";
                                      Fmt user_id])
                       else ret tt)) by calm_steps.
  destruct (Cpre wb) as ([] & w0 & E0 & T0 & S0).
  rewrite (bind_ret_eq _ _ _ _ _ E0).
  assert (T0' : tenant w0 = Reply r :: tl) by congruence.
  rewrite (bind_ret_eq _ _ _ _ _
             (fetch_reply ctx core_name
                [Lit (base_url ctx ++ "/users/"); Fmt user_id; Lit "/factors"]
                w0 r tl T0')).
  unfold deref. rewrite bind_ret_l.
  set (w1 := mkWorld tl (answers w0) (now w0) _).
  unfold answers_json, parsed in *. destruct (ok r); simpl in *.
  - destruct (body r) as [j|] eqn:Hbody; [|discriminate].
    exists w1. unfold json. rewrite Hbody. split; reflexivity.
  - destruct (body r) as [[| | | | |envelope]|] eqn:Hbody; try discriminate.
    assert (R : returns
                  (msg <- error_report
                            [Lit "Error retrieving enrolled MFA factors for user ";
                             Fmt user_id] r ;;
                   report_error ctx core_name msg ;;
                   ret (PList [], true))
                  (PList [], true)).
    { unfold error_report, json. rewrite Hbody.
      unfold py_get, py_get_default. rewrite !bind_ret_l. returns_run. }
    destruct (R w1) as (w' & E & T & S). exists w'.
    split; [exact E | exact T].
Qed.

(** X17: what the two helpers that return a pair hand to their caller, on
    an answer they can read: [(roles, False)] with the parsed body when
    the answer is a success, and [([], True)] when it is a refusal, whether
    muted or not.  A refusal never leaves the error flag down. *)
Theorem roles_and_factors_results (ctx : context) (unique_id : pyval)
  (group mute : bool) (w : World) (r : response) (tl : list transport_result)
  (Hw : tenant w = Reply r :: tl)
  (Hroles : answers_roles r = true) :
  fst (list_assigned_roles ctx unique_id (if group then "group" else "user")
         mute w)
  = Ret (Some (if ok r then (parsed r, false) else (PList [], true)))
  /\ fst (list_enrolled_factors ctx unique_id mute w)
     = Ret (if ok r then (parsed r, false) else (PList [], true)).
Proof.
  split.
  - rewrite roles_url.
    destruct (fetch_roles_reply ctx
                [Lit (base_url ctx ++ (if group then "/groups/" else "/users/"));
                 Fmt unique_id; Lit "/roles"]
                unique_id (if group then "group" else "user")
                mute w r tl Hw Hroles) as (w' & E & _).
    now rewrite E.
  - assert (Hj : answers_json r = true).
    { unfold answers_roles, answers_json in *. destruct (ok r); [|exact Hroles].
      destruct (body r); [reflexivity | discriminate]. }
    destruct (list_enrolled_factors_reply ctx unique_id mute w r tl Hw Hj)
      as (w' & E & _).
    now rewrite E.
Qed.

Lemma roles_and_factors_results_witness :
  let w := world0 [Reply not_found] in
  answers_roles not_found = true
  /\ fst (list_assigned_roles ctx0 (PStr "00u1") "user" true w)
     = Ret (Some (PList [], true))
  /\ fst (list_enrolled_factors ctx0 (PStr "00u1") true w)
     = Ret (PList [], true).
Proof.
  cbv zeta. split; [reflexivity|].
  exact (roles_and_factors_results ctx0 (PStr "00u1") false true
           (world0 [Reply not_found]) not_found [] eq_refl eq_refl).
Defined.

(** X18: asked for the roles of anything but a "user" or a "group",
    [list_assigned_roles] reports the mistake and returns [None], not the
    pair its callers unpack; it sends no request. *)
Theorem list_assigned_roles_unexpected_type (ctx : context) (unique_id : pyval)
  (object_type : string) (mute : bool) (w : World)
  (Hnot_user : object_type <> "user")
  (Hnot_group : object_type <> "group") :
  exists w',
    list_assigned_roles ctx unique_id object_type mute w = (Ret None, w')
    /\ sent w' = sent w
    /\ tenant w' = tenant w
    /\ hd_error (trace w')
       = Some (Echo [Lit "[!] ";
                     Lit "Unexpected type. Type must be 'user' or 'group'"]).
Proof.
  unfold list_assigned_roles.
  destruct (String.eqb_spec object_type "user"); [contradiction|].
  destruct (String.eqb_spec object_type "group"); [contradiction|].
  destruct (report_error_echoes ctx core_name
              [Lit "Unexpected type. Type must be 'user' or 'group'"] w)
    as (w' & E & T & S & H).
  rewrite (bind_ret_eq _ _ _ _ _ E). exists w'. auto.
Qed.

Lemma list_assigned_roles_unexpected_type_witness :
  "app" <> "user" /\ "app" <> "group"
  /\ exists w',
      list_assigned_roles ctx0 (PStr "0oa1") "app" false (world0 [Reply page1])
      = (Ret None, w')
      /\ sent w' = sent (world0 [Reply page1])
      /\ tenant w' = tenant (world0 [Reply page1])
      /\ hd_error (trace w')
         = Some (Echo [Lit "[!] ";
                       Lit "Unexpected type. Type must be 'user' or 'group'"]).
Proof.
  split; [discriminate|]. split; [discriminate|].
  apply (list_assigned_roles_unexpected_type ctx0 (PStr "0oa1") "app" false
           (world0 [Reply page1])); discriminate.
Defined.

Lemma get_current_user_reply (ctx : context) (w : World) (r : response)
  (tl : list transport_result) :
  tenant w = Reply r :: tl -> answers_user r = true ->
  exists w',
    get_current_user ctx w = (Ret (if ok r then parsed r else PNone), w')
    /\ tenant w' = tl
    /\ sent w' = (sent w ++ [get_request ctx [Lit (base_url ctx ++ "/users/me")]])%list.
Proof.
  intros Ht Hr. unfold get_current_user.
  rewrite (bind_ret_eq _ _ _ _ _
             (fetch_reply ctx core_name [Lit (base_url ctx ++ "/users/me")] w r tl Ht)).
  unfold deref. rewrite bind_ret_l.
  set (w1 := mkWorld tl (answers w) (now w) _).
  unfold answers_user, parsed in *. destruct (ok r); simpl in *.
  - destruct (body r) as [user|] eqn:Hbody; [|discriminate].
    assert (R : returns (user0 <- json r ;; print_user_info user0 ;; ret user0) user).
    { unfold json. rewrite Hbody. rewrite bind_ret_l.
      apply returns_bind; [now apply calm_print_user_info|].
      intros _. apply returns_ret. }
    destruct (R w1) as (w' & E & T & S). exists w'.
    split; [exact E|]. split; [exact T|]. now rewrite S.
  - destruct (body r) as [[| | | | |envelope]|] eqn:Hbody; try discriminate.
    assert (R : returns
                  (msg <- error_report [Lit "Error retrieving user information"] r ;;
                   report_error ctx core_name msg ;; ret PNone) PNone).
    { unfold error_report, json. rewrite Hbody.
      unfold py_get, py_get_default. rewrite !bind_ret_l. returns_run. }
    destruct (R w1) as (w' & E & T & S). exists w'.
    split; [exact E|]. split; [exact T|]. now rewrite S.
Qed.

(** X19: when the lookup of the token's user is refused, [whoami] reports
    that it cannot list the user's roles, then that it cannot list the
    user's groups, each as an error (log, sink, console), and returns; the
    lookup is the only request it sent. *)
Theorem whoami_refused_sends_one_request (ctx : context) (w : World)
  (r : response) (tl : list transport_result)
  (Hw : tenant w = Reply r :: tl)
  (Hr : is_failure r = true) :
  exists w' before,
    whoami ctx w = (Ret tt, w')
    /\ tenant w' = tl
    /\ sent w' = (sent w ++ [get_request ctx [Lit (base_url ctx ++ "/users/me")]])%list
    /\ hd_error (trace w')
       = Some (Echo [Lit "[!] ";
                     Lit "Unable to list current user's group memberships. No user object found"])
    /\ trace w'
       = reported ctx core_name
           [Lit "Unable to list current user's group memberships. No user object found"]
           (now w')
           (reported ctx core_name
              [Lit "Unable to list current user's assigned roles. No user object found"]
              (now w') before).
Proof.
  unfold is_failure in Hr. apply andb_prop in Hr as [Hok Hb].
  apply negb_true_iff in Hok.
  assert (Hu : answers_user r = true) by (unfold answers_user; now rewrite Hok).
  unfold whoami.
  destruct (calm_report_info ctx core_name
              [Lit "Attempting to get user information associated with current API token"] w)
    as ([] & w0 & E0 & T0 & S0).
  rewrite (bind_ret_eq _ _ _ _ _ E0). rewrite Hw in T0.
  destruct (get_current_user_reply ctx w0 r tl T0 Hu) as (w1 & E1 & T1 & S1).
  rewrite Hok in E1. rewrite (bind_ret_eq _ _ _ _ _ E1).
  change (truthy PNone) with false. cbv iota.
  destruct (report_error_reports ctx core_name
              [Lit "Unable to list current user's assigned roles. No user object found"] w1)
    as (w2 & E2 & T2 & S2 & N2 & R2).
  rewrite (bind_ret_eq _ _ _ _ _ E2).
  destruct (report_error_reports ctx core_name
              [Lit "Unable to list current user's group memberships. No user object found"] w2)
    as (w3 & E3 & T3 & S3 & N3 & R3).
  exists w3, (trace w1). split; [exact E3|]. split; [congruence|].
  split; [rewrite S3, S2, S1, S0; reflexivity|].
  split; [rewrite R3; reflexivity|].
  rewrite R3, N3, R2, N2. reflexivity.
Qed.

Lemma whoami_refused_sends_one_request_witness :
  let w := world0 [Reply not_found; Reply page1] in
  is_failure not_found = true
  /\ exists w' before,
      whoami ctx0 w = (Ret tt, w')
      /\ tenant w' = [Reply page1]
      /\ sent w' = (sent w ++ [get_request ctx0 [Lit (base_url ctx0 ++ "/users/me")]])%list
      /\ hd_error (trace w')
         = Some (Echo [Lit "[!] ";
                       Lit "Unable to list current user's group memberships. No user object found"])
      /\ trace w'
         = reported ctx0 core_name
             [Lit "Unable to list current user's group memberships. No user object found"]
             (now w')
             (reported ctx0 core_name
                [Lit "Unable to list current user's assigned roles. No user object found"]
                (now w') before).
Proof.
  cbv zeta. split; [reflexivity|].
  apply (whoami_refused_sends_one_request ctx0
           (world0 [Reply not_found; Reply page1]) not_found [Reply page1]);
    reflexivity.
Defined.

(** X20: when the lookup of the token's user succeeds, [whoami] goes on
    to ask for that user's roles and then for that user's groups, both
    under the id the lookup returned; a refusal of the roles (the token
    is not a super admin's) does not keep it from asking for the groups. *)
Theorem whoami_three_requests (ctx : context) (w : World)
  (me roles : response) (d : list (string * pyval)) (x : transport_result)
  (tl : list transport_result)
  (Hw : tenant w = Reply me :: Reply roles :: x :: tl)
  (Hok : ok me = true) (Hbody : body me = Some (PDict d))
  (Hprofile : has_profile (PDict d) = true)
  (Hroles : answers_roles roles = true) :
  sends_only (whoami ctx w) w
    [get_request ctx [Lit (base_url ctx ++ "/users/me")];
     get_request ctx [Lit (base_url ctx ++ "/users/"); Fmt (field d "id");
                      Lit "/roles"];
     get_request ctx [Lit (base_url ctx ++ "/users/"); Fmt (field d "id");
                      Lit "/groups"]]
    tl.
Proof.
  assert (Hu : answers_user me = true)
    by (unfold answers_user; now rewrite Hok, Hbody).
  assert (Ht : truthy (PDict d) = true).
  { destruct d; [discriminate | reflexivity]. }
  unfold whoami.
  destruct (calm_report_info ctx core_name
              [Lit "Attempting to get user information associated with current API token"] w)
    as ([] & w0 & E0 & T0 & S0).
  rewrite (bind_ret_eq _ _ _ _ _ E0). rewrite Hw in T0.
  destruct (get_current_user_reply ctx w0 me _ T0 Hu) as (w1 & E1 & T1 & S1).
  unfold parsed in E1. rewrite Hok, Hbody in E1.
  rewrite (bind_ret_eq _ _ _ _ _ E1). rewrite Ht.
  unfold py_get, py_get_default. fold (field d "id"). rewrite !bind_ret_l.
  unfold list_assigned_roles. change (String.eqb "user" "user") with true.
  cbv iota.
  destruct (fetch_roles_reply ctx
              [Lit (base_url ctx ++ "/users/"); Fmt (field d "id"); Lit "/roles"]
              (field d "id") "user" false w1 roles _ T1 Hroles)
    as (w2 & E2 & T2 & S2).
  unfold bind at 1. unfold bind at 1. rewrite E2.
  change (ret tt w2) with (@Ret unit tt, w2). cbv iota beta.
  destruct (get_user_groups_sends_one ctx (field d "id") w2 w2 x tl T2 eq_refl)
    as [S3 T3].
  split; [|exact T3].
  rewrite S3, S2, S1, S0. now rewrite <- !app_assoc.
Qed.

Lemma whoami_three_requests_witness :
  let jane := [("id", PStr "00u1"); ("profile", PDict [("login", PStr "jane")])] in
  let me := mkResponse true 200 "OK" (Some (PDict jane)) [] in
  let forbidden := mkResponse false 403 "Forbidden"
                     (Some (PDict [("errorCode", PStr "E0000006")])) [] in
  let w := world0 [Reply me; Reply forbidden; Reply page2] in
  has_profile (PDict jane) = true /\ answers_roles forbidden = true
  /\ sends_only (whoami ctx0 w) w
       [get_request ctx0 [Lit (base_url ctx0 ++ "/users/me")];
        get_request ctx0 [Lit (base_url ctx0 ++ "/users/"); Fmt (field jane "id");
                          Lit "/roles"];
        get_request ctx0 [Lit (base_url ctx0 ++ "/users/"); Fmt (field jane "id");
                          Lit "/groups"]]
       [].
Proof.
  cbv zeta. split; [reflexivity|]. split; [reflexivity|].
  apply (whoami_three_requests ctx0
           (world0 [Reply (mkResponse true 200 "OK"
                             (Some (PDict [("id", PStr "00u1");
                                           ("profile", PDict [("login", PStr "jane")])])) []);
                    Reply (mkResponse false 403 "Forbidden"
                             (Some (PDict [("errorCode", PStr "E0000006")])) []);
                    Reply page2])
           (mkResponse true 200 "OK"
              (Some (PDict [("id", PStr "00u1");
                            ("profile", PDict [("login", PStr "jane")])])) [])
           (mkResponse false 403 "Forbidden"
              (Some (PDict [("errorCode", PStr "E0000006")])) [])
           [("id", PStr "00u1"); ("profile", PDict [("login", PStr "jane")])]
           (Reply page2) []);
    reflexivity.
Defined.

(** ** What the lookups of one object return *)

Lemma calm_print_policy_rule (rule : pyval) :
  is_object rule = true -> calm (print_policy_rule rule).
Proof.
  destruct rule; try discriminate. intros _. unfold print_policy_rule. calm_steps.
Qed.

Lemma reply_then {A} (ctx : context) (u : text) (before : M unit)
  (k : response -> M A) (w : World) (r : response)
  (tl : list transport_result) (a : A) :
  calm before -> tenant w = Reply r :: tl -> returns (k r) a ->
  exists w',
    (before ;;
     response <- try_except
                   (r <- session_get ctx u ;; ret (Some r))
                   (fun e => transport_failed ctx core_name e [FmtExn e]) ;;
     r <- deref response ;;
     k r) w = (Ret a, w')
    /\ tenant w' = tl
    /\ sent w' = (sent w ++ [get_request ctx u])%list.
Proof.
  intros Hc Ht Hk.
  destruct (Hc w) as ([] & w1 & E1 & T1 & S1).
  rewrite (bind_ret_eq _ _ _ _ _ E1). rewrite Ht in T1.
  rewrite (bind_ret_eq _ _ _ _ _ (fetch_reply ctx core_name u w1 r tl T1)).
  unfold deref. rewrite bind_ret_l.
  destruct (Hk (mkWorld tl (answers w1) (now w1)
                  (Sent (get_request ctx u) :: trace w1)))
    as (w' & E & T & S).
  exists w'. split; [exact E|]. split; [exact T|].
  rewrite S. unfold sent in *. simpl. now rewrite S1.
Qed.

Lemma refusal_returns_none (ctx : context) (what : text) (r : response)
  (envelope : list (string * pyval)) :
  body r = Some (PDict envelope) ->
  returns (msg <- error_report what r ;;
           report_error ctx core_name msg ;; ret PNone) PNone.
Proof.
  intros Hbody. unfold error_report, json. rewrite Hbody.
  unfold py_get, py_get_default. rewrite !bind_ret_l. returns_run.
Qed.

(** X21: what the lookups of one zone, application or policy rule hand to
    their caller on an answer that carries a JSON object: the object when
    the answer is a success, [None] when it is a refusal.  Callers branch
    on the truth of the result, so a refusal and a success with an empty
    object look the same to them. *)
Theorem lookups_return_object_or_none (ctx : context) (a b : pyval)
  (w : World) (r : response) (d : list (string * pyval))
  (tl : list transport_result)
  (Hw : tenant w = Reply r :: tl)
  (Hbody : body r = Some (PDict d)) :
  let result := if ok r then PDict d else PNone in
  fst (get_zone_object ctx a w) = Ret result
  /\ fst (get_app_object ctx a w) = Ret result
  /\ fst (get_policy_rule ctx a b w) = Ret result
  /\ truthy result = ok r && negb (Nat.eqb (List.length d) 0).
Proof.
  cbv zeta. repeat match goal with |- _ /\ _ => split end.
  - assert (Hb : answers_object (Reply r) = true) by (simpl; now rewrite Hbody).
    destruct (get_zone_object_reply ctx a w r tl Hw Hb) as (w' & E & _).
    rewrite E, Hbody. reflexivity.
  - unfold get_app_object.
    match goal with
    | |- fst (bind ?m (fun _ => bind (try_except _ _) (fun x => bind (deref x) ?k)) w) = _ =>
        destruct (reply_then ctx [Lit (base_url ctx ++ "/apps/"); Fmt a] m k w r tl
                    (if ok r then PDict d else PNone)) as (w' & E & _)
    end; [auto with calm | exact Hw | | now rewrite E].
    destruct (ok r).
    + unfold json. rewrite Hbody.
      apply returns_bind; [auto with calm|]. intros _. rewrite bind_ret_l.
      apply returns_bind; [now apply calm_print_app_object|]. intros _.
      apply returns_ret.
    + now apply refusal_returns_none with (envelope := d).
  - unfold get_policy_rule.
    match goal with
    | |- fst (bind ?m (fun _ => bind (try_except _ _) (fun x => bind (deref x) ?k)) w) = _ =>
        destruct (reply_then ctx
                    [Lit (base_url ctx ++ "/policies/"); Fmt a; Lit "/rules/"; Fmt b]
                    m k w r tl
                    (if ok r then PDict d else PNone)) as (w' & E & _)
    end; [auto with calm | exact Hw | | now rewrite E].
    destruct (ok r).
    + unfold json. rewrite Hbody.
      apply returns_bind; [auto with calm|]. intros _. rewrite bind_ret_l.
      apply returns_bind; [now apply calm_print_policy_rule|]. intros _.
      apply returns_ret.
    + now apply refusal_returns_none with (envelope := d).
  - destruct (ok r); [|reflexivity]. now destruct d.
Qed.

Lemma lookups_return_object_or_none_witness :
  let result := if ok zone_found then PDict zone_a else PNone in
  let w := world0 [Reply zone_found] in
  fst (get_zone_object ctx0 (PStr "z1") w) = Ret result
  /\ fst (get_app_object ctx0 (PStr "z1") w) = Ret result
  /\ fst (get_policy_rule ctx0 (PStr "z1") (PStr "r1") w) = Ret result
  /\ truthy result = ok zone_found && negb (Nat.eqb (List.length zone_a) 0).
Proof.
  exact (lookups_return_object_or_none ctx0 (PStr "z1") (PStr "r1")
           (world0 [Reply zone_found]) zone_found zone_a [] eq_refl eq_refl).
Defined.

(** X22: [print_policy_rule] never shows which rule it prints: its
    headline is a plain string, not an f-string, so two rules that agree
    on status, created and lastUpdated are printed alike whatever their
    ids and names are, and the braces come out as written. *)
Theorem print_policy_rule_hides_id_and_name (d1 d2 : list (string * pyval))
  (w : World)
  (Hsame : forall k, In k ["status"; "created"; "lastUpdated"] ->
                     dict_get d1 k = dict_get d2 k) :
  print_policy_rule (PDict d1) w = print_policy_rule (PDict d2) w
  /\ exists details,
       trace (snd (print_policy_rule (PDict d1) w))
       = Echo details
         :: Echo [Lit ("[*] Information for policy rule {rule.get("
                       ++ char quote2 ++ "id" ++ char quote2 ++ ")} ({rule.get("
                       ++ char quote2 ++ "name" ++ char quote2 ++ ")}):")]
         :: trace w.
Proof.
  unfold print_policy_rule, py_get_default, echo, tell, bind, ret. simpl.
  rewrite !(Hsame "status"), !(Hsame "created"), !(Hsame "lastUpdated")
    by (simpl; auto).
  split; [reflexivity | eexists; reflexivity].
Qed.

Lemma print_policy_rule_hides_id_and_name_witness :
  let rule1 := [("id", PStr "r1"); ("name", PStr "Default Rule");
                ("status", PStr "ACTIVE")] in
  let rule2 := [("id", PStr "r2"); ("name", PStr "Legacy");
                ("status", PStr "ACTIVE")] in
  print_policy_rule (PDict rule1) (world0 [])
  = print_policy_rule (PDict rule2) (world0 [])
  /\ exists details,
       trace (snd (print_policy_rule (PDict rule1) (world0 [])))
       = Echo details
         :: Echo [Lit ("[*] Information for policy rule {rule.get("
                       ++ char quote2 ++ "id" ++ char quote2 ++ ")} ({rule.get("
                       ++ char quote2 ++ "name" ++ char quote2 ++ ")}):")]
         :: trace (world0 []).
Proof.
  cbv zeta.
  apply (print_policy_rule_hides_id_and_name
           [("id", PStr "r1"); ("name", PStr "Default Rule"); ("status", PStr "ACTIVE")]
           [("id", PStr "r2"); ("name", PStr "Legacy"); ("status", PStr "ACTIVE")]
           (world0 [])).
  intros k [<-|[<-|[<-|[]]]]; reflexivity.
Defined.
